(** * The Bragi protocol core of the ckb-next daemon

    A shallow embedding of [src/daemon/bragi_common.c]: the property
    codec ([bragi_get_property], [bragi_set_property]), the chunked write
    framer ([bragi_calculate_buffer_size], [bragi_write_to_handle]) and the
    dongle sub-device discovery ([bragi_update_dongle_subdevs]).

    Integers are [Z] with the conversions of the C types written out, byte
    buffers are [list Z], the device pool and the two mutex tables are
    stores indexed by the device's position in the pool, and every call
    that leaves the file (the transport, the logger, the mutexes, the
    open and close routines) is recorded in a trace. *)

From Stdlib Require Import ZArith List Bool Lia.
From stdpp Require Import base numbers list functions.
Import ListNotations.

Local Open Scope Z_scope.

(** ** What the headers declare

    [bragi_proto.h], [structures.h] and [device.h] are not among the
    sources.  Their constants are the fields of a class, so that every
    statement below holds whatever values the headers give them. *)

Class ckb_headers := {
  devcmd : Type;
  vtable_bragi_mouse : devcmd;
  BRAGI_MAGIC : Z;
  BRAGI_SET : Z;
  BRAGI_GET : Z;
  BRAGI_WRITE_DATA : Z;
  BRAGI_CONTINUE_WRITE : Z;
  BRAGI_LIGHTING_HANDLE : Z;
  BRAGI_VID : Z;
  BRAGI_PID : Z;
  BRAGI_JUMBO_SIZE : nat;
  DEV_MAX : nat;
  DEV_STATUS_DISCONNECTED : Z;
  DEV_STATUS_CONNECTING : Z
}.

(** ** C integer conversions *)

Definition to_uchar (x : Z) : Z := x mod 2 ^ 8.
Definition to_ushort (x : Z) : Z := x mod 2 ^ 16.
(** [size_t] of an LP64 target. *)
Definition to_size_t (x : Z) : Z := x mod 2 ^ 64.

Definition is_uchar (x : Z) : Prop := 0 <= x < 2 ^ 8.
Definition is_ushort (x : Z) : Prop := 0 <= x < 2 ^ 16.
Definition is_uint32 (x : Z) : Prop := 0 <= x < 2 ^ 32.
Definition is_int (x : Z) : Prop := - 2 ^ 31 <= x < 2 ^ 31.

(** ** Byte buffers *)

(** [buf[i]] for an array that was zero-initialised: a position the
    transport did not fill reads as 0. *)
Definition byte_at (buf : list Z) (i : nat) : Z := default 0 (buf !! i).

(** [uchar a[n] = { init }]: the remaining elements are zero. *)
Definition array_init (n : nat) (init : list Z) : list Z :=
  init ++ replicate (n - length init) 0.

(** [buf[off] = v]; [None] is a store outside the buffer. *)
Definition store (buf : list Z) (off : Z) (v : Z) : option (list Z) :=
  if (0 <=? off) && (off <? Z.of_nat (length buf))
  then Some (<[Z.to_nat off := v]> buf)
  else None.

(** The four bytes of a [uint32_t] in memory on a little-endian host. *)
Definition uint32_bytes (x : Z) : list Z :=
  [ Z.land x 255;
    Z.land (Z.shiftr x 8) 255;
    Z.land (Z.shiftr x 16) 255;
    Z.land (Z.shiftr x 24) 255 ].

(** [buf[off] = b0; buf[off+1] = b1; ...], one store after the other. *)
Fixpoint store_seq (buf : list Z) (off : Z) (src : list Z) : option (list Z) :=
  match src with
  | [] => Some buf
  | b :: src' =>
      match store buf off b with
      | Some buf' => store_seq buf' (off + 1) src'
      | None => None
      end
  end.

(** [memcpy(buf + off, src, |src|)]. *)
Definition memcpy (buf : list Z) (off : Z) (src : list Z) : option (list Z) :=
  store_seq buf off src.

(** The response array after the transport has put [in_msg] at its front:
    what the transport did not write is as it was. *)
Definition received (response in_msg : list Z) : list Z :=
  in_msg ++ drop (length in_msg) response.

(** ** Devices, mutexes and the trace *)

Section Bragi.
Context `{hdr : ckb_headers}.

(** The fields of [usbdevice] this file reads or writes.  A device
    pointer is the index of the device in the pool [keyboard]. *)
Record usbdevice := mk_usbdevice {
  status : Z;
  fwversion : Z;
  parent : option nat;
  out_ep_packet_size : Z;
  vtable : devcmd;
  bragi_child_id : Z;
  children : nat -> option nat;
  vendor : Z;
  product : Z
}.

Inductive mutex := Unlocked | LockedHere | LockedElsewhere.

Inductive message :=
| GetFailed (prop err : Z)
| SetFailed (prop err : Z)
| BufferTooSmall (bytes_req : Z)
| CommandFailed (err : Z)
| Disappeared (kb subkb : nat)
| FoundNew (i : nat)
| SubkbIds (vid pid : Z)
| NoMoreFreeDevices.

Inductive event :=
| UsbRecv (kb : nat) (out_msg : list Z) (len : nat) (in_msg : option (list Z))
| CLock (kb : nat)
| CUnlock (kb : nat)
| DLock (kb : nat)
| DTryLock (kb : nat) (acquired : bool)
| DUnlock (kb : nat)
| CloseUsb (kb : nat)
| SetupUsb (kb : nat)
| ckb_info (m : message)
| ckb_err (m : message)
| ckb_fatal (m : message).

Record world := mk_world {
  keyboard : nat -> usbdevice;
  devmutex : nat -> mutex;
  childrenmutex : nat -> mutex;
  usb_count : nat;
  trace : list event
}.

Definition emit (e : event) (w : world) : world :=
  mk_world (keyboard w) (devmutex w) (childrenmutex w) (usb_count w)
           (trace w ++ [e]).

(** ** The transport

    [usbrecv n kb out_msg len] is what the [n]-th transaction of the run
    answers when device [kb] is handed the memory at [out_msg] with the
    length [len]: [None] when no response came (the C function returns 0),
    [Some in_msg] with the bytes it put at the front of the response
    array. *)
Definition transport := nat -> nat -> list Z -> nat -> option (list Z).
Variable usbrecv : transport.

Definition usb_transact (w : world) (kb : nat) (out_msg : list Z) (len : nat)
  : option (list Z) * world :=
  let r := usbrecv (usb_count w) kb out_msg len in
  (r, mk_world (keyboard w) (devmutex w) (childrenmutex w) (S (usb_count w))
               (trace w ++ [UsbRecv kb out_msg len r])).

(** ** Property codec

    Each of the two functions has a response array of its own, zeroed
    when the function is entered: reading what the transport put there,
    with 0 for a byte it did not write, is reading the array. *)

Definition bragi_get_property (w : world) (kb : nat) (prop : Z) : Z * world :=
  let pkt := array_init BRAGI_JUMBO_SIZE [BRAGI_MAGIC; BRAGI_GET; prop; 0] in
  match usb_transact w kb pkt BRAGI_JUMBO_SIZE with
  | (None, w1) => (-1, w1)
  | (Some response, w1) =>
      if byte_at response 2 =? 0
      then (Z.lor (Z.shiftl (to_ushort (byte_at response 4)) 8)
                  (byte_at response 3), w1)
      else (-2, emit (ckb_err (GetFailed prop (byte_at response 2))) w1)
  end.

Definition bragi_set_property (w : world) (kb : nat) (prop val : Z) : Z * world :=
  let pkt := array_init BRAGI_JUMBO_SIZE
               [BRAGI_MAGIC; BRAGI_SET; prop; 0;
                to_uchar (Z.land val 255); to_uchar (Z.shiftr val 8)] in
  match usb_transact w kb pkt BRAGI_JUMBO_SIZE with
  | (None, w1) => (-1, w1)
  | (Some response, w1) =>
      if byte_at response 2 =? 0
      then (0, w1)
      else (-2, emit (ckb_err (SetFailed prop (byte_at response 2))) w1)
  end.

(** ** Chunked write framer *)

(** [None] is the division by zero of a 3-byte packet size. *)
Definition bragi_calculate_buffer_size_common
    (kb : usbdevice) (data_len offset : Z) : option Z :=
  let size_without_first := data_len - out_ep_packet_size kb + offset in
  if 0 <=? size_without_first then
    if out_ep_packet_size kb - 3 =? 0 then None else
    let req_pkt_count :=
      to_size_t (1 + Z.quot size_without_first (out_ep_packet_size kb - 3)) in
    let req_pkt_count :=
      if Z.rem size_without_first (out_ep_packet_size kb - 3) =? 0
      then req_pkt_count
      else to_size_t (req_pkt_count + 1) in
    Some (to_size_t (req_pkt_count * to_size_t (out_ep_packet_size kb)))
  else Some (to_size_t (out_ep_packet_size kb)).

Definition bragi_calculate_buffer_size (kb : usbdevice) (data_len : Z) : option Z :=
  bragi_calculate_buffer_size_common kb data_len 7.

(** What a call of the framer does: it returns, or it runs into
    undefined behaviour (a store outside the buffer, a division by zero). *)
Inductive outcome :=
| Returned (ret : Z) (pkt : list Z) (w : world)
| Undefined.

(** The [#ifndef NDEBUG] block at the head of the framer. *)
Inductive checked :=
| Pass
| TooSmall (bytes_req : Z)
| DivByZero.

Definition buffer_check (NDEBUG : bool) (kb : usbdevice)
    (buf_len data_len offset : Z) : checked :=
  if NDEBUG then Pass else
  match bragi_calculate_buffer_size_common kb data_len offset with
  | None => DivByZero
  | Some bytes_req => if bytes_req >? buf_len then TooSmall bytes_req else Pass
  end.

(** Modelled from the spec: [bragi_check_success] is declared in
    [bragi_proto.h], which is not among the sources.  The spec has a
    non-zero status byte (byte 2 of the response) of a continuation packet
    "recorded/reported"; its result is discarded by the caller. *)
Definition bragi_check_success (w : world) (pkt_out response : list Z) : world :=
  if byte_at response 2 =? 0 then w
  else emit (ckb_err (CommandFailed (byte_at response 2))) w.

(** The [while] loop of the framer; [pkt_out] is the offset of the
    pointer of that name from [pkt], and [response] is what the one
    response array of the function holds: every transaction writes to it,
    and nothing clears it in between.  [None] is a run out of [fuel]. *)
Fixpoint continue_write (fuel : nat) (w : world) (kb : nat) (pkt : list Z)
    (response : list Z) (pkt_out data_len offset : Z) : option outcome :=
  match fuel with
  | O => None
  | S fuel' =>
      let pkt_out := pkt_out + out_ep_packet_size (keyboard w kb) in
      if pkt_out <? data_len + offset then
        let pkt_out := pkt_out - 3 in
        match store_seq pkt pkt_out
                [BRAGI_MAGIC; BRAGI_CONTINUE_WRITE; BRAGI_LIGHTING_HANDLE] with
        | None => Some Undefined
        | Some pkt' =>
            let out_msg := drop (Z.to_nat pkt_out) pkt' in
            match usb_transact w kb out_msg BRAGI_JUMBO_SIZE with
            | (None, w1) => Some (Returned 1 pkt' w1)
            | (Some in_msg, w1) =>
                let response := received response in_msg in
                continue_write fuel' (bragi_check_success w1 out_msg response)
                               kb pkt' response pkt_out data_len offset
            end
        end
      else Some (Returned 0 pkt w)
  end.

Definition bragi_write_to_handle_common (NDEBUG : bool) (fuel : nat)
    (w : world) (kb : nat) (pkt : list Z)
    (handle buf_len data_len offset : Z) : option outcome :=
  match buffer_check NDEBUG (keyboard w kb) buf_len data_len offset with
  | DivByZero => Some Undefined
  | TooSmall bytes_req =>
      Some (Returned 0 pkt (emit (ckb_fatal (BufferTooSmall bytes_req)) w))
  | Pass =>
      match pkt0 ← store_seq pkt 0 [BRAGI_MAGIC; BRAGI_WRITE_DATA; handle];
            memcpy pkt0 3 (uint32_bytes data_len) with
      | None => Some Undefined
      | Some pkt' =>
          let response := array_init BRAGI_JUMBO_SIZE [0] in
          match usb_transact w kb pkt' BRAGI_JUMBO_SIZE with
          | (None, w1) => Some (Returned 1 pkt' w1)
          | (Some in_msg, w1) =>
              continue_write fuel w1 kb pkt' (received response in_msg)
                             0 data_len offset
          end
      end
  end.

Definition bragi_write_to_handle (NDEBUG : bool) (fuel : nat)
    (w : world) (kb : nat) (pkt : list Z)
    (handle buf_len data_len : Z) : option outcome :=
  bragi_write_to_handle_common NDEBUG fuel w kb pkt handle buf_len data_len 7.

(** ** Device discovery *)

(** [closeusb] and [setupusb] belong to the USB layer.  What they do to the
    device they are handed is a parameter; the mutex tables are as they
    were when they return. *)
Variable closeusb : nat -> usbdevice -> usbdevice.
Variable setupusb : nat -> usbdevice -> usbdevice.

Definition set_status (v : Z) (d : usbdevice) : usbdevice :=
  mk_usbdevice v (fwversion d) (parent d) (out_ep_packet_size d) (vtable d)
               (bragi_child_id d) (children d) (vendor d) (product d).
Definition set_fwversion (v : Z) (d : usbdevice) : usbdevice :=
  mk_usbdevice (status d) v (parent d) (out_ep_packet_size d) (vtable d)
               (bragi_child_id d) (children d) (vendor d) (product d).
Definition set_parent (v : option nat) (d : usbdevice) : usbdevice :=
  mk_usbdevice (status d) (fwversion d) v (out_ep_packet_size d) (vtable d)
               (bragi_child_id d) (children d) (vendor d) (product d).
Definition set_out_ep_packet_size (v : Z) (d : usbdevice) : usbdevice :=
  mk_usbdevice (status d) (fwversion d) (parent d) v (vtable d)
               (bragi_child_id d) (children d) (vendor d) (product d).
Definition set_vtable (v : devcmd) (d : usbdevice) : usbdevice :=
  mk_usbdevice (status d) (fwversion d) (parent d) (out_ep_packet_size d) v
               (bragi_child_id d) (children d) (vendor d) (product d).
Definition set_bragi_child_id (v : Z) (d : usbdevice) : usbdevice :=
  mk_usbdevice (status d) (fwversion d) (parent d) (out_ep_packet_size d)
               (vtable d) v (children d) (vendor d) (product d).
Definition set_child (slot : nat) (v : option nat) (d : usbdevice) : usbdevice :=
  mk_usbdevice (status d) (fwversion d) (parent d) (out_ep_packet_size d)
               (vtable d) (bragi_child_id d) (<[slot := v]> (children d))
               (vendor d) (product d).
Definition set_vendor (v : Z) (d : usbdevice) : usbdevice :=
  mk_usbdevice (status d) (fwversion d) (parent d) (out_ep_packet_size d)
               (vtable d) (bragi_child_id d) (children d) v (product d).
Definition set_product (v : Z) (d : usbdevice) : usbdevice :=
  mk_usbdevice (status d) (fwversion d) (parent d) (out_ep_packet_size d)
               (vtable d) (bragi_child_id d) (children d) (vendor d) v.

(** [keyboard[kb] = f (keyboard[kb])]: a write through the pointer [kb]. *)
Definition with_dev (kb : nat) (f : usbdevice -> usbdevice) (w : world) : world :=
  mk_world (<[kb := f (keyboard w kb)]> (keyboard w)) (devmutex w)
           (childrenmutex w) (usb_count w) (trace w).
Definition with_devmutex (kb : nat) (m : mutex) (w : world) : world :=
  mk_world (keyboard w) (<[kb := m]> (devmutex w)) (childrenmutex w)
           (usb_count w) (trace w).
Definition with_childrenmutex (kb : nat) (m : mutex) (w : world) : world :=
  mk_world (keyboard w) (devmutex w) (<[kb := m]> (childrenmutex w))
           (usb_count w) (trace w).

(** A blocking lock returns once the mutex is free.  Nothing else runs in
    this model, so a mutex that is held when the call is made stays held:
    [None] is a call that does not return. *)
Definition cmutex_lock (w : world) (kb : nat) : option world :=
  match childrenmutex w kb with
  | Unlocked => Some (emit (CLock kb) (with_childrenmutex kb LockedHere w))
  | _ => None
  end.

Definition cmutex_unlock (w : world) (kb : nat) : world :=
  emit (CUnlock kb) (with_childrenmutex kb Unlocked w).

Definition dmutex_lock (w : world) (kb : nat) : option world :=
  match devmutex w kb with
  | Unlocked => Some (emit (DLock kb) (with_devmutex kb LockedHere w))
  | _ => None
  end.

(** [queued_mutex_trylock] answers 0 when it took the mutex; the boolean
    is [true] in that case. *)
Definition dmutex_trylock (w : world) (kb : nat) : bool * world :=
  match devmutex w kb with
  | Unlocked => (true, emit (DTryLock kb true) (with_devmutex kb LockedHere w))
  | _ => (false, emit (DTryLock kb false) w)
  end.

Definition dmutex_unlock (w : world) (kb : nat) : world :=
  emit (DUnlock kb) (with_devmutex kb Unlocked w).

(** [(prop >> i) & 1] *)
Definition presence_bit (prop : Z) (i : nat) : Z :=
  Z.land (Z.shiftr prop (Z.of_nat i)) 1.

Inductive run :=
| Done (w : world)
| Blocked (w : world).

(** The first loop of [bragi_update_dongle_subdevs], over the values
    [slots] of [i]. *)
Fixpoint disconnect_sweep (slots : list nat) (w : world) (kb : nat) (prop : Z)
  : run :=
  match slots with
  | [] => Done w
  | i :: slots' =>
      if negb (presence_bit prop i =? 0) then disconnect_sweep slots' w kb prop
      else
        match children (keyboard w kb) (i - 1)%nat with
        | None => disconnect_sweep slots' w kb prop
        | Some subkb =>
            match dmutex_lock w subkb with
            | None => Blocked w
            | Some w1 =>
                let w2 := emit (ckb_info (Disappeared kb subkb)) w1 in
                let w3 := emit (CloseUsb subkb)
                               (with_dev subkb (closeusb subkb) w2) in
                let w4 := with_dev kb (set_child (i - 1)%nat None) w3 in
                let w5 := dmutex_unlock w4 subkb in
                disconnect_sweep slots' w5 kb prop
            end
        end
  end.

(** Lines 150 to 173: the free slot [index] becomes sub-device [i] of [kb]. *)
Definition claim_subdev (w : world) (kb i index : nat) : world :=
  let w := with_dev index (set_status DEV_STATUS_CONNECTING) w in
  let w := with_dev index (set_fwversion 1234) w in
  let w := with_dev index (set_parent (Some kb)) w in
  let w := with_dev index
             (set_out_ep_packet_size (out_ep_packet_size (keyboard w kb))) w in
  let w := with_dev index (set_vtable vtable_bragi_mouse) w in
  let w := with_dev index (set_bragi_child_id (Z.of_nat i)) w in
  let w := with_dev kb (set_child (i - 1)%nat (Some index)) w in
  let w := cmutex_unlock w kb in
  let '(vid, w) := bragi_get_property w index BRAGI_VID in
  let vid := to_ushort vid in
  let '(pid, w) := bragi_get_property w index BRAGI_PID in
  let pid := to_ushort pid in
  let w := emit (ckb_info (SubkbIds vid pid)) w in
  let w := with_dev index (set_vendor vid) w in
  with_dev index (set_product pid) w.

(** [setupusb(subkb)] *)
Definition call_setupusb (w : world) (index : nat) : world :=
  emit (SetupUsb index) (with_dev index (setupusb index) w).

(** The scan of the pool for a free slot, over the values [indices] of
    [index].  The boolean is [true] when a slot was taken and the function
    has returned. *)
Fixpoint find_free_slot (indices : list nat) (w : world) (kb i : nat)
  : bool * world :=
  match indices with
  | [] => (false, w)
  | index :: indices' =>
      match dmutex_trylock w index with
      | (false, w1) => find_free_slot indices' w1 kb i
      | (true, w1) =>
          if status (keyboard w1 index) >? DEV_STATUS_DISCONNECTED
          then find_free_slot indices' (dmutex_unlock w1 index) kb i
          else (true, call_setupusb (claim_subdev w1 kb i index) index)
      end
  end.

(** The second loop, over the values [slots] of [i]. *)
Fixpoint connect_sweep (slots : list nat) (w : world) (kb : nat) (prop : Z)
  : bool * world :=
  match slots with
  | [] => (false, w)
  | i :: slots' =>
      if presence_bit prop i =? 0 then connect_sweep slots' w kb prop
      else
        match children (keyboard w kb) (i - 1)%nat with
        | Some _ => connect_sweep slots' w kb prop
        | None =>
            let w1 := emit (ckb_info (FoundNew i)) w in
            match find_free_slot (seq 1 (DEV_MAX - 1)) w1 kb i with
            | (true, w2) => (true, w2)
            | (false, w2) =>
                connect_sweep slots' (emit (ckb_err NoMoreFreeDevices) w2)
                              kb prop
            end
        end
  end.

Definition bragi_update_dongle_subdevs (w : world) (kb : nat) (prop : Z) : run :=
  match cmutex_lock w kb with
  | None => Blocked w
  | Some w1 =>
      match disconnect_sweep (seq 1 7) w1 kb prop with
      | Blocked w2 => Blocked w2
      | Done w2 =>
          match connect_sweep (seq 1 7) w2 kb prop with
          | (true, w3) => Done w3
          | (false, w3) => Done (cmutex_unlock w3 kb)
          end
      end
  end.

(** ** The words of the specification, to compare the code with *)

(** [ceil(a / b)] *)
Definition ceil_div (a b : Z) : Z := (a + b - 1) / b.

(** The formula for [required_buffer_size]: [P] is the packet size, [L] the
    payload length, 7 the header of the first packet. *)
Definition required_buffer_size (P L : Z) : Z :=
  let remainder := L - P + 7 in
  if remainder <? 0 then P
  else (1 + ceil_div remainder (P - 3)) * P.

(** One first packet of capacity [P - 7] and [n - 1] continuation packets
    of capacity [P - 3] each carry [L] bytes. *)
Definition covers (P L n : Z) : Prop :=
  1 <= n /\ L <= (P - 7) + (n - 1) * (P - 3).

(** The memory handed to the transport for continuation packet [k]: the
    header followed by what the buffer [pkt] holds behind it. *)
Definition continuation (pkt : list Z) (P : Z) (k : nat) : list Z :=
  [BRAGI_MAGIC; BRAGI_CONTINUE_WRITE; BRAGI_LIGHTING_HANDLE]
  ++ drop (Z.to_nat (Z.of_nat k * (P - 3) + 3)) pkt.

(** Packet [k] of a write as the framer section words it: the first is
    bytes [0..P-1] of the buffer under the 7 byte header, continuation [k]
    is the [P] bytes at offset [k * (P - 3)] under the 3 byte header. *)
Definition wire_packet (pkt : list Z) (handle P L : Z) (k : nat) : list Z :=
  match k with
  | O => [BRAGI_MAGIC; BRAGI_WRITE_DATA; handle] ++ uint32_bytes L
         ++ take (Z.to_nat (P - 7)) (drop 7 pkt)
  | S _ => [BRAGI_MAGIC; BRAGI_CONTINUE_WRITE; BRAGI_LIGHTING_HANDLE]
           ++ take (Z.to_nat (P - 3))
                   (drop (Z.to_nat (Z.of_nat k * (P - 3) + 3)) pkt)
  end.

(** Modelled from the spec: the transport moves the first [P] bytes at the
    pointer it is given, [P] being the packet size of the device. *)
Definition on_wire (P : Z) (out_msg : list Z) : list Z :=
  take (Z.to_nat P) out_msg.

(** Number of continuation packets of the formula. *)
Definition continuation_count (P L : Z) : Z :=
  if L - P + 7 <? 0 then 0 else ceil_div (L - P + 7) (P - 3).

(** *** Reading a trace *)

Definition sent_msgs (tr : list event) : list (list Z) :=
  omap (fun e => match e with UsbRecv _ m _ _ => Some m | _ => None end) tr.

Definition is_failure (e : event) : bool :=
  match e with UsbRecv _ _ _ None => true | _ => false end.

Definition is_usb (e : event) : bool :=
  match e with UsbRecv _ _ _ _ => true | _ => false end.

(** The status codes that were reported through [bragi_check_success]. *)
Definition reported (tr : list event) : list Z :=
  omap (fun e => match e with
                 | ckb_err (CommandFailed err) => Some err
                 | _ => None
                 end) tr.

(** Byte 2 of the response array after each answered transaction of a
    trace, the array holding [response] before the first of them. *)
Fixpoint statuses (response : list Z) (tr : list event) : list Z :=
  match tr with
  | [] => []
  | UsbRecv _ _ _ (Some in_msg) :: tr' =>
      byte_at (received response in_msg) 2
      :: statuses (received response in_msg) tr'
  | _ :: tr' => statuses response tr'
  end.

Definition nonzero (codes : list Z) : list Z :=
  List.filter (fun s => negb (s =? 0)) codes.

(** The non-zero status bytes among the responses of a trace. *)
Definition bad_statuses (tr : list event) : list Z :=
  omap (fun e => match e with
                 | UsbRecv _ _ _ (Some r) =>
                     if byte_at r 2 =? 0 then None else Some (byte_at r 2)
                 | _ => None
                 end) tr.

(** What [bragi_check_success] adds to the trace for a response array. *)
Definition report (response : list Z) : list event :=
  if byte_at response 2 =? 0 then []
  else [ckb_err (CommandFailed (byte_at response 2))].

(** The events of sending [chunks] one after the other from transaction
    [n] on, the response array holding [response], stopping at the first
    that gets no response; with the value returned and the number of the
    next transaction. *)
Fixpoint chunk_events (n kb : nat) (response : list Z) (chunks : list (list Z))
  : Z * list event * nat :=
  match chunks with
  | [] => (0, [], n)
  | out_msg :: rest =>
      match usbrecv n kb out_msg BRAGI_JUMBO_SIZE with
      | None => (1, [UsbRecv kb out_msg BRAGI_JUMBO_SIZE None], S n)
      | Some in_msg =>
          let '(ret, evs, n') :=
            chunk_events (S n) kb (received response in_msg) rest in
          (ret, UsbRecv kb out_msg BRAGI_JUMBO_SIZE (Some in_msg)
                :: report (received response in_msg) ++ evs, n')
      end
  end.

(** The request packets of the codec as the spec words them. *)
Definition get_request (prop : Z) : list Z :=
  [BRAGI_MAGIC; BRAGI_GET; prop; 0] ++ replicate (BRAGI_JUMBO_SIZE - 4) 0.

Definition set_request (prop val : Z) : list Z :=
  [BRAGI_MAGIC; BRAGI_SET; prop; 0; val mod 256; val / 256]
  ++ replicate (BRAGI_JUMBO_SIZE - 6) 0.

(** *** Discovery: what the sweeps look at and what they leave in the trace *)

(** Bit [i] is set and slot [i - 1] of the dongle is empty. *)
Definition wants (prop : Z) (dongle : usbdevice) (i : nat) : bool :=
  negb (presence_bit prop i =? 0)
  && match children dongle (i - 1)%nat with None => true | Some _ => false end.

(** Bit [i] is clear and slot [i - 1] of the dongle is occupied. *)
Definition gone (prop : Z) (dongle : usbdevice) (i : nat) : bool :=
  (presence_bit prop i =? 0)
  && match children dongle (i - 1)%nat with None => false | Some _ => true end.

(** The lifecycle mutex can be taken and the status is not beyond
    Disconnected. *)
Definition free_slot (w : world) (index : nat) : bool :=
  match devmutex w index with
  | Unlocked => negb (status (keyboard w index) >? DEV_STATUS_DISCONNECTED)
  | _ => false
  end.

(** The events of passing over a pool entry that is not free. *)
Definition pass_events (w : world) (index : nat) : list event :=
  match devmutex w index with
  | Unlocked => [DTryLock index true; DUnlock index]
  | _ => [DTryLock index false]
  end.

Definition scan_events (w : world) (indices : list nat) : list event :=
  flat_map (pass_events w) indices.

(** The events of a connect sweep that finds no free slot. *)
Definition no_slot_events (w : world) (kb : nat) (prop : Z) (slots : list nat)
  : list event :=
  flat_map (fun i =>
              if wants prop (keyboard w kb) i
              then ckb_info (FoundNew i)
                   :: scan_events w (seq 1 (DEV_MAX - 1))
                   ++ [ckb_err NoMoreFreeDevices]
              else []) slots.

(** The events of the disconnection of sub-device [d] of [kb]. *)
Definition disconnect_block (kb d : nat) : list event :=
  [DLock d; ckb_info (Disappeared kb d); CloseUsb d; DUnlock d].

(** The traces of a disconnect sweep: one block after the other. *)
Inductive disconnects (kb : nat) : list event -> Prop :=
| dis_nil : disconnects kb []
| dis_block d tr :
    disconnects kb tr -> disconnects kb (disconnect_block kb d ++ tr).

(** The traces of the scans that end without a slot: announcements, pool
    entries passed over (a mutex that was taken is given back at once),
    and reports that no slot is free. *)
Inductive scanning : list event -> Prop :=
| sc_nil : scanning []
| sc_found i tr : scanning tr -> scanning (ckb_info (FoundNew i) :: tr)
| sc_busy d tr : scanning tr -> scanning (DTryLock d false :: tr)
| sc_init d tr : scanning tr -> scanning (DTryLock d true :: DUnlock d :: tr)
| sc_none tr : scanning tr -> scanning (ckb_err NoMoreFreeDevices :: tr).

(** Transactions and log lines: no mutex, no open, no close. *)
Definition quiet (e : event) : bool :=
  match e with
  | UsbRecv _ _ _ _ | ckb_info _ | ckb_err _ | ckb_fatal _ => true
  | _ => false
  end.

Definition is_cmutex_op (e : event) : bool :=
  match e with
  | CLock _ | CUnlock _ => true
  | _ => false
  end.

(** The pool, the mutexes and the transaction count of [w'] are those of
    [w]: at most the trace differs. *)
Definition same_pool (w w' : world) : Prop :=
  keyboard w' = keyboard w /\
  (forall d, devmutex w' d = devmutex w d) /\
  childrenmutex w' = childrenmutex w /\
  usb_count w' = usb_count w.

(** In [wh] the pool entry [index] has become sub-device [i] of [kb], and
    nothing else in the pool differs from [w]. *)
Definition claimed (w wh : world) (kb i index : nat) : Prop :=
  status (keyboard wh index) = DEV_STATUS_CONNECTING /\
  fwversion (keyboard wh index) = 1234 /\
  parent (keyboard wh index) = Some kb /\
  out_ep_packet_size (keyboard wh index) = out_ep_packet_size (keyboard w kb) /\
  vtable (keyboard wh index) = vtable_bragi_mouse /\
  bragi_child_id (keyboard wh index) = Z.of_nat i /\
  children (keyboard wh kb) (i - 1)%nat = Some index /\
  (forall j, j <> (i - 1)%nat ->
             children (keyboard wh kb) j = children (keyboard w kb) j) /\
  (forall d, d <> index -> d <> kb -> keyboard wh d = keyboard w d).

(** The value of a little-endian byte string. *)
Fixpoint le_value (bs : list Z) : Z :=
  match bs with
  | [] => 0
  | b :: bs' => b + 256 * le_value bs'
  end.

(** The memory handed to the transport for the first packet: the buffer
    under its 7 byte header. *)
Definition first_msg (pkt : list Z) (handle L : Z) : list Z :=
  [BRAGI_MAGIC; BRAGI_WRITE_DATA; handle] ++ uint32_bytes L ++ drop 7 pkt.

(** The events of a write whose buffer is large enough: the first packet,
    unchecked, then the continuation packets. *)
Definition write_events (n kb : nat) (pkt : list Z) (handle P L : Z)
  : Z * list event * nat :=
  match usbrecv n kb (first_msg pkt handle L) BRAGI_JUMBO_SIZE with
  | None => (1, [UsbRecv kb (first_msg pkt handle L) BRAGI_JUMBO_SIZE None], S n)
  | Some in_msg =>
      let '(ret, evs, n') :=
        chunk_events (S n) kb
          (received (array_init BRAGI_JUMBO_SIZE [0]) in_msg)
          (map (continuation pkt P)
               (seq 1 (Z.to_nat (continuation_count P L)))) in
      (ret, UsbRecv kb (first_msg pkt handle L) BRAGI_JUMBO_SIZE (Some in_msg)
            :: evs, n')
  end.

(** The world after the events [evs], the last of transaction [n - 1]. *)
Definition after (w : world) (evs : list event) (n : nat) : world :=
  mk_world (keyboard w) (devmutex w) (childrenmutex w) n (trace w ++ evs).

(** *** The receiving side, and what a run leaves alone *)

(** What the receiver of a write puts together: the first packet without
    its 7 byte header, every further packet without its 3 byte header. *)
Definition reassemble (packets : list (list Z)) : list Z :=
  match packets with
  | [] => []
  | first :: rest => drop 7 first ++ concat (map (drop 3) rest)
  end.

(** The pool entries whose lifecycle mutex is held elsewhere in [w] are
    in [w'] as they were, the dongle [kb] apart, and their mutex is still
    held elsewhere. *)
Definition respects (kb : nat) (w w' : world) : Prop :=
  forall d, devmutex w d = LockedElsewhere ->
            devmutex w' d = LockedElsewhere /\
            (d <> kb -> keyboard w' d = keyboard w d).

End Bragi.

(** ** Values to run the definitions on *)

(** Values for the header constants. *)
Definition ckb_next : ckb_headers := {|
  devcmd := nat;
  vtable_bragi_mouse := 1%nat;
  BRAGI_MAGIC := 8;
  BRAGI_SET := 1;
  BRAGI_GET := 2;
  BRAGI_WRITE_DATA := 6;
  BRAGI_CONTINUE_WRITE := 7;
  BRAGI_LIGHTING_HANDLE := 0;
  BRAGI_VID := 17;
  BRAGI_PID := 18;
  BRAGI_JUMBO_SIZE := 1024;
  DEV_MAX := 9;
  DEV_STATUS_DISCONNECTED := 0;
  DEV_STATUS_CONNECTING := 1
|}.

Section Samples.
#[local] Existing Instance ckb_next.

(** A connected device with packet size [P], no parent and the children
    [ch]. *)
Definition sample_device (P : Z) (ch : nat -> option nat) : usbdevice :=
  mk_usbdevice 2 291 None P 0%nat 0 ch 6940 0.

(** An unused pool entry. *)
Definition sample_unused : usbdevice :=
  mk_usbdevice 0 0 None 0 0%nat 0 (fun _ => None) 0 0.

Definition no_children : nat -> option nat := fun _ => None.

(** A world whose devices all have packet size [P]. *)
Definition sample_world (P : Z) : world :=
  mk_world (fun _ => sample_device P no_children)
           (fun _ => Unlocked) (fun _ => Unlocked) 0 [].

(** A transport that answers every packet with status 0. *)
Definition always_ok : transport := fun _ _ _ _ => Some [0; 0; 0].

(** A transport that answers with status 3, and the first packet of the
    run with status [s]. *)
Definition status_first (s : Z) : transport :=
  fun n _ _ _ => match n with
                 | O => Some [0; 0; s]
                 | S _ => Some [0; 0; 3]
                 end.

(** A transport whose first answer has status [s] and whose further
    answers are two bytes long: they leave byte 2 of the response array as
    it is. *)
Definition short_after (s : Z) : transport :=
  fun n _ _ _ => match n with
                 | O => Some [0; 0; s]
                 | S _ => Some [0; 0]
                 end.

(** A transport that gets no response to transaction 1. *)
Definition fails_second : transport :=
  fun n _ _ _ => match n with
                 | 1%nat => None
                 | _ => Some [0; 0; 0]
                 end.

(** A transport that gets no response to transaction 2 and answers the
    others with status 5. *)
Definition fails_third_noisy : transport :=
  fun n _ _ _ => match n with
                 | 2%nat => None
                 | _ => Some [0; 0; 5]
                 end.

(** A transport that answers every request with the value [0x1234]. *)
Definition answers_1234 : transport := fun _ _ _ _ => Some [0; 0; 0; 52; 18].

(** A 24 byte buffer: 7 bytes for the header, the payload 1 .. 10, padding. *)
Definition sample_buffer : list Z :=
  [0; 0; 0; 0; 0; 0; 0; 1; 2; 3; 4; 5; 6; 7; 8; 9; 10; 0; 0; 0; 0; 0; 0; 0].

(** What [closeusb] leaves of a device: a zeroed entry. *)
Definition sample_closeusb : nat -> usbdevice -> usbdevice :=
  fun _ _ => sample_unused.

(** What [setupusb] makes of a device: it is connected. *)
Definition sample_setupusb : nat -> usbdevice -> usbdevice :=
  fun _ d => set_status 2 d.

(** A dongle (entry 1) without children.  Entry 2 is locked elsewhere,
    entry 3 is connected, the others are unused. *)
Definition pool_fresh : world :=
  mk_world (fun d => match d with
                     | 1%nat => sample_device 64 no_children
                     | 3%nat => sample_device 64 no_children
                     | _ => sample_unused
                     end)
           (fun d => match d with 2%nat => LockedElsewhere | _ => Unlocked end)
           (fun _ => Unlocked) 0 [].

(** A pool whose entries are all connected. *)
Definition pool_full : world := sample_world 64.

(** A dongle (entry 1) whose slot 1 holds entry 5 and whose slot 2 holds
    entry 6. *)
Definition pool_children : world :=
  mk_world (fun d => match d with
                     | 1%nat => sample_device 64
                                  (fun j => match j with
                                            | 1%nat => Some 5%nat
                                            | 2%nat => Some 6%nat
                                            | _ => None
                                            end)
                     | 5%nat => sample_device 64 no_children
                     | 6%nat => sample_device 64 no_children
                     | _ => sample_unused
                     end)
           (fun _ => Unlocked) (fun _ => Unlocked) 0 [].

(** As [pool_children], with entry 5 locked by another thread. *)
Definition pool_child_busy : world :=
  mk_world (keyboard pool_children)
           (fun d => match d with 5%nat => LockedElsewhere | _ => Unlocked end)
           (fun _ => Unlocked) 0 [].

(** A transport that never gets a response. *)
Definition never_answers : transport := fun _ _ _ _ => None.

End Samples.

(** * Theorems *)

Section FramerRun.
Context `{hdr : ckb_headers}.
Variable usbrecv : transport.

(** ** Arithmetic of the framer *)

Lemma ceil_div_least (a b : Z) :
  0 < b ->
  a <= ceil_div a b * b /\ forall c, a <= c * b -> ceil_div a b <= c.
Proof.
  intros Hb. unfold ceil_div. split.
  - pose proof (Z.mod_pos_bound (a + b - 1) b Hb) as Hm.
    pose proof (Z.div_mod (a + b - 1) b) as Hd. nia.
  - intros c Hc. apply Z.lt_succ_r.
    apply Z.div_lt_upper_bound; [lia|]. nia.
Qed.

Lemma ceil_div_nonneg (a b : Z) : 0 < b -> 0 <= a -> 0 <= ceil_div a b.
Proof. intros. unfold ceil_div. apply Z.div_pos; lia. Qed.

(** The quotient and the correction by the remainder that the code
    computes are the ceiling. *)
Lemma quot_rem_ceil (a b : Z) :
  0 <= a -> 0 < b ->
  (if Z.rem a b =? 0 then 1 + Z.quot a b else 1 + Z.quot a b + 1)
  = 1 + ceil_div a b.
Proof.
  intros Ha Hb. rewrite Z.rem_mod_nonneg, Z.quot_div_nonneg by lia.
  unfold ceil_div.
  pose proof (Z.mod_pos_bound a b Hb) as Hm.
  pose proof (Z.div_mod a b ltac:(lia)) as Hd.
  destruct (Z.eqb_spec (a mod b) 0) as [E|E].
  - f_equal. apply Z.div_unique with (r := b - 1); lia.
  - rewrite <- Z.add_assoc. f_equal.
    apply Z.div_unique with (r := a mod b - 1); lia.
Qed.

Lemma to_size_t_small (x : Z) : 0 <= x < 2 ^ 64 -> to_size_t x = x.
Proof. intros. unfold to_size_t. apply Z.mod_small. lia. Qed.

Lemma ceil_div_upper (a b : Z) : 0 < b -> 0 <= a -> ceil_div a b <= a.
Proof.
  intros Hb Ha. unfold ceil_div. apply Z.lt_succ_r.
  apply Z.div_lt_upper_bound; [lia|]. nia.
Qed.

Lemma calculate_common_7 (kb : usbdevice) (L : Z) :
  4 <= out_ep_packet_size kb -> is_int (out_ep_packet_size kb) -> is_uint32 L ->
  bragi_calculate_buffer_size_common kb L 7
  = Some (required_buffer_size (out_ep_packet_size kb) L).
Proof.
  unfold is_int, is_uint32. intros HP HPi HL.
  unfold bragi_calculate_buffer_size_common, required_buffer_size.
  set (P := out_ep_packet_size kb) in *.
  destruct (Z.leb_spec 0 (L - P + 7)) as [Hr|Hr].
  - destruct (Z.ltb_spec (L - P + 7) 0); [lia|].
    destruct (Z.eqb_spec (P - 3) 0); [lia|].
    pose proof (quot_rem_ceil (L - P + 7) (P - 3) Hr ltac:(lia)) as Hq.
    pose proof (ceil_div_nonneg (L - P + 7) (P - 3) ltac:(lia) Hr) as Hc0.
    pose proof (ceil_div_upper (L - P + 7) (P - 3) ltac:(lia) Hr) as Hc1.
    assert (Hq0 : 0 <= Z.quot (L - P + 7) (P - 3) <= L - P + 7).
    { rewrite Z.quot_div_nonneg by lia. split; [apply Z.div_pos; lia|].
      apply Z.div_le_upper_bound; [lia|]. nia. }
    f_equal.
    rewrite (to_size_t_small P) by lia.
    rewrite (to_size_t_small (1 + _)) by lia.
    destruct (Z.rem (L - P + 7) (P - 3) =? 0).
    + rewrite Hq. apply to_size_t_small. nia.
    + rewrite (to_size_t_small (1 + _ + 1)) by lia.
      rewrite Hq. apply to_size_t_small. nia.
  - destruct (Z.ltb_spec (L - P + 7) 0); [|lia].
    f_equal. apply to_size_t_small. lia.
Qed.

(** The packet count of the formula is the least one that covers the
    payload. *)
Lemma required_buffer_size_least (P L : Z) :
  4 <= P ->
  exists n, required_buffer_size P L = n * P /\ covers P L n /\
            forall m, covers P L m -> n <= m.
Proof.
  intros HP. unfold required_buffer_size, covers.
  destruct (Z.ltb_spec (L - P + 7) 0) as [Hr|Hr].
  - exists 1. split; [lia|]. split; [lia|]. intros m [Hm _]. exact Hm.
  - destruct (ceil_div_least (L - P + 7) (P - 3) ltac:(lia)) as [Hge Hleast].
    pose proof (ceil_div_nonneg (L - P + 7) (P - 3) ltac:(lia) Hr) as Hc0.
    exists (1 + ceil_div (L - P + 7) (P - 3)).
    split; [reflexivity|]. split; [split; lia|].
    intros m [Hm Hcov]. specialize (Hleast (m - 1)). lia.
Qed.

(** C1. For a packet size [P >= 8] and a payload length [L >= 0] (a
    [uint32_t]), [bragi_calculate_buffer_size] returns [P] when
    [L - P + 7 < 0] and [(1 + ceil((L - P + 7) / (P - 3))) * P] otherwise;
    the result is a multiple [n * P] of [P], [n] packets (one of capacity
    [P - 7], the others of capacity [P - 3]) cover [L] bytes, and no
    smaller count does. *)
Theorem bragi_calculate_buffer_size_spec (kb : usbdevice) (L : Z) :
  8 <= out_ep_packet_size kb ->
  is_int (out_ep_packet_size kb) ->
  is_uint32 L ->
  bragi_calculate_buffer_size kb L
  = Some (required_buffer_size (out_ep_packet_size kb) L) /\
  (L - out_ep_packet_size kb + 7 < 0 ->
   required_buffer_size (out_ep_packet_size kb) L = out_ep_packet_size kb) /\
  (0 <= L - out_ep_packet_size kb + 7 ->
   required_buffer_size (out_ep_packet_size kb) L
   = (1 + ceil_div (L - out_ep_packet_size kb + 7) (out_ep_packet_size kb - 3))
     * out_ep_packet_size kb) /\
  exists n,
    required_buffer_size (out_ep_packet_size kb) L = n * out_ep_packet_size kb /\
    covers (out_ep_packet_size kb) L n /\
    forall m, covers (out_ep_packet_size kb) L m -> n <= m.
Proof.
  intros HP HPi HL. split; [|split; [|split]].
  - apply calculate_common_7; [lia|assumption..].
  - intros Hr. unfold required_buffer_size.
    destruct (Z.ltb_spec (L - out_ep_packet_size kb + 7) 0); [reflexivity|lia].
  - intros Hr. unfold required_buffer_size.
    destruct (Z.ltb_spec (L - out_ep_packet_size kb + 7) 0); [lia|reflexivity].
  - apply required_buffer_size_least. lia.
Qed.


(** ** Stores into a buffer *)

Lemma store_seq_app (src pre mid post : list Z) :
  length mid = length src ->
  store_seq (pre ++ mid ++ post) (Z.of_nat (length pre)) src
  = Some (pre ++ src ++ post).
Proof.
  revert pre mid. induction src as [|b src IH]; intros pre mid Hlen.
  - destruct mid; [reflexivity|discriminate].
  - destruct mid as [|m mid]; [discriminate|]. simpl in Hlen.
    cbn [store_seq]. unfold store.
    assert (Hin : (0 <=? Z.of_nat (length pre))
                  && (Z.of_nat (length pre)
                      <? Z.of_nat (length (pre ++ (m :: mid) ++ post))) = true).
    { rewrite length_app. cbn [app length].
      apply andb_true_intro; split; [apply Z.leb_le|apply Z.ltb_lt]; lia. }
    rewrite Hin, Nat2Z.id.
    rewrite insert_app_r_alt by lia. rewrite Nat.sub_diag. cbn [app].
    change (<[0%nat:=b]> (m :: mid ++ post)) with (b :: mid ++ post).
    replace (Z.of_nat (length pre) + 1) with (Z.of_nat (length (pre ++ [b])))
      by (rewrite length_app; cbn [length]; lia).
    replace (pre ++ b :: mid ++ post) with ((pre ++ [b]) ++ mid ++ post)
      by (rewrite <- app_assoc; reflexivity).
    rewrite IH by lia. rewrite <- app_assoc. reflexivity.
Qed.

Lemma store_seq_splice (buf : list Z) (off : Z) (src : list Z) :
  0 <= off -> off + Z.of_nat (length src) <= Z.of_nat (length buf) ->
  store_seq buf off src
  = Some (take (Z.to_nat off) buf ++ src
          ++ drop (Z.to_nat off + length src) buf).
Proof.
  intros H0 Hle.
  set (n := Z.to_nat off).
  rewrite <- (take_drop n buf) at 1.
  rewrite <- (take_drop (length src) (drop n buf)) at 1.
  rewrite drop_drop.
  replace off with (Z.of_nat (length (take n buf)))
    by (rewrite length_take; lia).
  apply store_seq_app. rewrite length_take, length_drop. lia.
Qed.

Lemma length_splice (buf : list Z) (n : nat) (src : list Z) :
  (n + length src <= length buf)%nat ->
  length (take n buf ++ src ++ drop (n + length src) buf) = length buf.
Proof. intros. rewrite !length_app, length_take, length_drop. lia. Qed.

(** Behind a store the buffer is as before. *)
Lemma drop_splice (buf : list Z) (n m : nat) (src : list Z) :
  (n + length src <= length buf)%nat -> (n + length src <= m)%nat ->
  drop m (take n buf ++ src ++ drop (n + length src) buf) = drop m buf.
Proof.
  intros Hle Hm.
  rewrite drop_app_ge by (rewrite length_take; lia).
  rewrite drop_app_ge by (rewrite length_take; lia).
  rewrite drop_drop. f_equal. rewrite length_take. lia.
Qed.

Lemma drop_at_splice (buf : list Z) (n : nat) (src : list Z) :
  (n + length src <= length buf)%nat ->
  drop n (take n buf ++ src ++ drop (n + length src) buf)
  = src ++ drop (n + length src) buf.
Proof.
  intros Hle. rewrite drop_app_ge by (rewrite length_take; lia).
  rewrite length_take. replace (n - n `min` length buf)%nat with 0%nat by lia.
  reflexivity.
Qed.

(** ** The loop of the framer *)

Lemma continuation_count_nonneg (P L : Z) : 4 <= P -> 0 <= continuation_count P L.
Proof.
  intros HP. unfold continuation_count.
  destruct (Z.ltb_spec (L - P + 7) 0); [lia|].
  apply ceil_div_nonneg; lia.
Qed.

Lemma required_buffer_size_count (P L : Z) :
  required_buffer_size P L = (1 + continuation_count P L) * P.
Proof.
  unfold required_buffer_size, continuation_count.
  destruct (L - P + 7 <? 0); lia.
Qed.

(** The loop goes on exactly while continuation packets remain. *)
Lemma loop_guard_iff (P L j : Z) :
  4 <= P -> 0 <= j ->
  j * (P - 3) + P < L + 7 <-> j < continuation_count P L.
Proof.
  intros HP Hj. unfold continuation_count.
  destruct (Z.ltb_spec (L - P + 7) 0) as [Hr|Hr].
  - split; intros; nia.
  - destruct (ceil_div_least (L - P + 7) (P - 3) ltac:(lia)) as [Hge Hleast].
    split; intros Hlt.
    + destruct (Z.lt_ge_cases j (ceil_div (L - P + 7) (P - 3))) as [|Hge']; [assumption|].
      nia.
    + destruct (Z.lt_ge_cases (j * (P - 3) + P) (L + 7)) as [|Hge']; [assumption|].
      specialize (Hleast j ltac:(lia)). lia.
Qed.

Lemma after_nil (w : world) : after w [] (usb_count w) = w.
Proof. destruct w. unfold after. cbn. rewrite app_nil_r. reflexivity. Qed.

Lemma check_success_after (w : world) (e : event) (n : nat)
    (out_msg response : list Z) (evs : list event) (n' : nat) :
  after (bragi_check_success
           (mk_world (keyboard w) (devmutex w) (childrenmutex w) n
                     (trace w ++ [e])) out_msg response) evs n'
  = after w (e :: report response ++ evs) n'.
Proof.
  unfold bragi_check_success, report, after, emit.
  destruct (byte_at response 2 =? 0); cbn; f_equal;
    rewrite <- ?app_assoc; reflexivity.
Qed.

Lemma check_success_frame (w : world) (out_msg response : list Z) :
  keyboard (bragi_check_success w out_msg response) = keyboard w /\
  usb_count (bragi_check_success w out_msg response) = usb_count w.
Proof. unfold bragi_check_success. destruct (_ =? _); split; reflexivity. Qed.

Lemma continue_write_run (L : Z) (kb : nat) (m : nat) :
  forall (k : nat) (w : world) (pkt response : list Z) (fuel : nat),
  4 <= out_ep_packet_size (keyboard w kb) ->
  (m < fuel)%nat ->
  Z.of_nat (k + m) = continuation_count (out_ep_packet_size (keyboard w kb)) L ->
  Z.of_nat (k + m) * (out_ep_packet_size (keyboard w kb) - 3) + 3
  <= Z.of_nat (length pkt) ->
  exists pkt',
    continue_write usbrecv fuel w kb pkt response
      (Z.of_nat k * (out_ep_packet_size (keyboard w kb) - 3)) L 7
    = Some (Returned
        (chunk_events usbrecv (usb_count w) kb response
           (map (continuation pkt (out_ep_packet_size (keyboard w kb)))
                (seq (S k) m))).1.1
        pkt'
        (after w
           (chunk_events usbrecv (usb_count w) kb response
              (map (continuation pkt (out_ep_packet_size (keyboard w kb)))
                   (seq (S k) m))).1.2
           (chunk_events usbrecv (usb_count w) kb response
              (map (continuation pkt (out_ep_packet_size (keyboard w kb)))
                   (seq (S k) m))).2)).
Proof.
  induction m as [|m IH]; intros k w pkt response fuel HP Hfuel Hcount Hlen;
    (destruct fuel as [|fuel]; [lia|]); cbn [continue_write];
    set (P := out_ep_packet_size (keyboard w kb)) in *.
  - pose proof (loop_guard_iff P L (Z.of_nat k) HP ltac:(lia)) as Hg.
    destruct (Z.ltb_spec (Z.of_nat k * (P - 3) + P) (L + 7)) as [Hlt|Hge].
    + apply Hg in Hlt. lia.
    + exists pkt. cbn. rewrite after_nil. reflexivity.
  - pose proof (loop_guard_iff P L (Z.of_nat k) HP ltac:(lia)) as Hg.
    destruct (Z.ltb_spec (Z.of_nat k * (P - 3) + P) (L + 7)) as [Hlt|Hge];
      [|lia].
    set (off := Z.of_nat k * (P - 3) + P - 3).
    assert (Hoff : off = Z.of_nat (S k) * (P - 3)) by (unfold off; lia).
    assert (Hoff0 : 0 <= off) by nia.
    clearbody off.
    assert (Hin : (Z.to_nat off + 3 <= length pkt)%nat) by nia.
    rewrite store_seq_splice by (cbn [length]; nia).
    cbn [length].
    set (pkt' := take (Z.to_nat off) pkt
                 ++ [BRAGI_MAGIC; BRAGI_CONTINUE_WRITE; BRAGI_LIGHTING_HANDLE]
                 ++ drop (Z.to_nat off + 3) pkt).
    assert (Hmsg : drop (Z.to_nat off) pkt' = continuation pkt P (S k)).
    { unfold pkt'. rewrite (drop_at_splice pkt (Z.to_nat off) [_; _; _])
        by exact Hin.
      unfold continuation. rewrite <- Hoff. cbn [length]. do 2 f_equal. lia. }
    assert (Hlen' : length pkt' = length pkt)
      by (apply (length_splice pkt (Z.to_nat off) [_; _; _]); exact Hin).
    rewrite Hmsg. cbn [seq map].
    unfold usb_transact. cbn [chunk_events].
    destruct (usbrecv (usb_count w) kb (continuation pkt P (S k))
                      BRAGI_JUMBO_SIZE) as [in_msg|].
    + set (w' := bragi_check_success _ _ (received response in_msg)).
      destruct (check_success_frame
                  (mk_world (keyboard w) (devmutex w) (childrenmutex w)
                     (S (usb_count w))
                     (trace w ++ [UsbRecv kb (continuation pkt P (S k))
                                          BRAGI_JUMBO_SIZE (Some in_msg)]))
                  (continuation pkt P (S k)) (received response in_msg))
        as [Hk Hu].
      fold w' in Hk, Hu. cbn in Hk, Hu.
      destruct (IH (S k) w' pkt' (received response in_msg) fuel)
        as [pkt'' Hrun].
      * rewrite Hk. exact HP.
      * lia.
      * rewrite Hk. fold P. lia.
      * rewrite Hk, Hlen'. fold P. nia.
      * exists pkt''. rewrite Hk in Hrun. fold P in Hrun.
        rewrite Hoff. rewrite Hrun, Hu.
        assert (Hmap : map (continuation pkt' P) (seq (S (S k)) m)
                       = map (continuation pkt P) (seq (S (S k)) m)).
        { apply map_ext_in. intros j Hj. apply in_seq in Hj.
          unfold continuation. f_equal.
          apply (drop_splice pkt (Z.to_nat off) _ [_; _; _]);
            [exact Hin|cbn [length]; nia]. }
        rewrite Hmap.
        destruct (chunk_events usbrecv (S (usb_count w)) kb
                    (received response in_msg)
                    (map (continuation pkt P) (seq (S (S k)) m)))
          as [[ret evs] n'].
        cbn [fst snd]. unfold w'. rewrite check_success_after. reflexivity.
    + eexists. reflexivity.
Qed.

(** ** The framer as a whole *)

Lemma header_store (pkt : list Z) (a b c : Z) (len : list Z) :
  length len = 4%nat -> (7 <= length pkt)%nat ->
  (pkt0 ← store_seq pkt 0 [a; b; c]; memcpy pkt0 3 len)
  = Some ([a; b; c] ++ len ++ drop 7 pkt).
Proof.
  intros Hl Hp.
  rewrite store_seq_splice by (cbn [length]; lia).
  change (Z.to_nat 0) with 0%nat. rewrite take_0.
  cbn [mbind option_bind length app Nat.add].
  unfold memcpy.
  rewrite store_seq_splice by (cbn [length]; rewrite ?length_drop; lia).
  f_equal. rewrite Hl.
  change (Z.to_nat 3) with 3%nat. cbn [take Nat.add drop app].
  rewrite drop_drop. reflexivity.
Qed.

Lemma buffer_check_pass (NDEBUG : bool) (kb : usbdevice) (buf_len L : Z) :
  4 <= out_ep_packet_size kb -> is_int (out_ep_packet_size kb) ->
  is_uint32 L ->
  required_buffer_size (out_ep_packet_size kb) L <= buf_len ->
  buffer_check NDEBUG kb buf_len L 7 = Pass.
Proof.
  intros HP HPi HL Hreq. unfold buffer_check.
  destruct NDEBUG; [reflexivity|].
  rewrite calculate_common_7 by assumption.
  destruct (Z.gtb_spec (required_buffer_size (out_ep_packet_size kb) L) buf_len);
    [lia|reflexivity].
Qed.

(** A call with a buffer of the required size runs as [write_events]
    says, in either build. *)
Lemma write_to_handle_run (NDEBUG : bool) (fuel : nat) (w : world) (kb : nat)
    (pkt : list Z) (handle buf_len L : Z) :
  7 <= out_ep_packet_size (keyboard w kb) ->
  is_int (out_ep_packet_size (keyboard w kb)) ->
  is_uint32 L ->
  required_buffer_size (out_ep_packet_size (keyboard w kb)) L <= buf_len ->
  buf_len <= Z.of_nat (length pkt) ->
  (Z.to_nat (continuation_count (out_ep_packet_size (keyboard w kb)) L) < fuel)%nat ->
  exists pkt',
    bragi_write_to_handle usbrecv NDEBUG fuel w kb pkt handle buf_len L
    = Some (Returned
        (write_events usbrecv (usb_count w) kb pkt handle
           (out_ep_packet_size (keyboard w kb)) L).1.1
        pkt'
        (after w
           (write_events usbrecv (usb_count w) kb pkt handle
              (out_ep_packet_size (keyboard w kb)) L).1.2
           (write_events usbrecv (usb_count w) kb pkt handle
              (out_ep_packet_size (keyboard w kb)) L).2)).
Proof.
  intros HP HPi HL Hreq Hbuf Hfuel.
  set (P := out_ep_packet_size (keyboard w kb)) in *.
  pose proof (continuation_count_nonneg P L ltac:(lia)) as Hc0.
  pose proof (required_buffer_size_count P L) as Hc.
  unfold bragi_write_to_handle, bragi_write_to_handle_common.
  fold P. rewrite buffer_check_pass by (fold P; (lia || assumption)).
  rewrite header_store by (reflexivity || nia).
  fold (first_msg pkt handle L).
  unfold usb_transact, write_events.
  destruct (usbrecv (usb_count w) kb (first_msg pkt handle L) BRAGI_JUMBO_SIZE)
    as [in_msg|]; [|eexists; reflexivity].
  set (w1 := mk_world _ _ _ _ _).
  assert (Hlen : length (first_msg pkt handle L) = length pkt).
  { unfold first_msg. rewrite !length_app, length_drop. cbn [length uint32_bytes].
    nia. }
  destruct (continue_write_run L kb (Z.to_nat (continuation_count P L)) 0 w1
              (first_msg pkt handle L)
              (received (array_init BRAGI_JUMBO_SIZE [0]) in_msg) fuel)
    as [pkt' Hrun].
  - cbn [keyboard w1]. fold P. lia.
  - exact Hfuel.
  - cbn [keyboard w1]. fold P. lia.
  - cbn [keyboard w1]. fold P. rewrite Hlen. nia.
  - exists pkt'. cbn [keyboard w1] in Hrun. fold P in Hrun.
    change (Z.of_nat 0 * (P - 3)) with 0 in Hrun. rewrite Hrun.
    cbn [usb_count w1].
    assert (Hmap : map (continuation (first_msg pkt handle L) P)
                       (seq 1 (Z.to_nat (continuation_count P L)))
                   = map (continuation pkt P)
                       (seq 1 (Z.to_nat (continuation_count P L)))).
    { apply map_ext_in. intros j Hj. apply in_seq in Hj.
      unfold continuation, first_msg. f_equal.
      rewrite app_assoc. rewrite drop_app_ge by (cbn [length app uint32_bytes]; nia).
      rewrite drop_drop. f_equal. cbn [length app uint32_bytes]. nia. }
    rewrite Hmap.
    destruct (chunk_events usbrecv (S (usb_count w)) kb
                (received (array_init BRAGI_JUMBO_SIZE [0]) in_msg)
                (map (continuation pkt P)
                     (seq 1 (Z.to_nat (continuation_count P L)))))
      as [[ret evs] n'].
    cbn [fst snd]. unfold w1, after. cbn. rewrite <- app_assoc. reflexivity.
Qed.

(** ** The events of a write *)

Lemma sent_msgs_app (a b : list event) :
  sent_msgs (a ++ b) = sent_msgs a ++ sent_msgs b.
Proof. apply omap_app. Qed.

Lemma reported_app (a b : list event) : reported (a ++ b) = reported a ++ reported b.
Proof. apply omap_app. Qed.

Lemma bad_statuses_app (a b : list event) :
  bad_statuses (a ++ b) = bad_statuses a ++ bad_statuses b.
Proof. apply omap_app. Qed.

Lemma report_silent (r : list Z) :
  sent_msgs (report r) = [] /\ existsb is_failure (report r) = false /\
  bad_statuses (report r) = [] /\
  List.filter is_usb (report r) = [] /\
  reported (report r) = nonzero [byte_at r 2] /\
  forall response, statuses response (report r) = [].
Proof.
  unfold report, nonzero. cbn.
  destruct (byte_at r 2 =? 0); repeat split; reflexivity.
Qed.

(** A response of three bytes or more overwrites the status byte. *)
Lemma received_status (response in_msg : list Z) :
  (3 <= length in_msg)%nat ->
  byte_at (received response in_msg) 2 = byte_at in_msg 2.
Proof.
  intros Hlen. unfold byte_at, received.
  rewrite lookup_app_l by lia. reflexivity.
Qed.

Lemma statuses_app (response : list Z) (a b : list event) :
  (forall response', statuses response' a = []) ->
  statuses response (a ++ b) = statuses response b.
Proof.
  revert response. induction a as [|e a IH]; intros response Ha; [reflexivity|].
  destruct e as [kb m len [in_msg|]| | | | | | | | | |]; cbn [app statuses];
    try (apply IH; intros r'; specialize (Ha r'); exact Ha).
  specialize (Ha response). discriminate Ha.
Qed.

(** Sending chunks either ends with 0 after all of them went out, or with
    1 right behind the first transaction that got no response; the status
    codes reported are the non-zero ones that the response array held
    after the transactions. *)
Lemma chunk_events_shape (u : transport) (kb : nat) (chunks : list (list Z)) :
  forall n response,
  reported (chunk_events u n kb response chunks).1.2
  = nonzero (statuses response (chunk_events u n kb response chunks).1.2) /\
  (((chunk_events u n kb response chunks).1.1 = 0 /\
    existsb is_failure (chunk_events u n kb response chunks).1.2 = false /\
    sent_msgs (chunk_events u n kb response chunks).1.2 = chunks) \/
   ((chunk_events u n kb response chunks).1.1 = 1 /\
    exists evs0 m,
      (chunk_events u n kb response chunks).1.2
      = evs0 ++ [UsbRecv kb m BRAGI_JUMBO_SIZE None] /\
      existsb is_failure evs0 = false)).
Proof.
  induction chunks as [|c chunks IH]; intros n response; cbn [chunk_events].
  - split; [reflexivity|]. left. repeat split; reflexivity.
  - destruct (u n kb c BRAGI_JUMBO_SIZE) as [r|].
    + specialize (IH (S n) (received response r)).
      destruct (chunk_events u (S n) kb (received response r) chunks)
        as [[ret evs] n'].
      cbn [fst snd] in *. destruct IH as [Hrep IH].
      destruct (report_silent (received response r))
        as (Hs & Hf & Hb & Hu & Hr & Hst).
      split.
      * cbn [statuses].
        rewrite (statuses_app _ _ _ Hst).
        change (UsbRecv kb c BRAGI_JUMBO_SIZE (Some r)
                :: report (received response r) ++ evs)
          with ([UsbRecv kb c BRAGI_JUMBO_SIZE (Some r)]
                ++ report (received response r) ++ evs).
        rewrite !reported_app, Hr, Hrep. unfold nonzero. cbn [List.filter].
        destruct (negb (byte_at (received response r) 2 =? 0)); reflexivity.
      * destruct IH as [(H0 & Hnf & Hsent)|(H1 & evs0 & m & Hev & Hnf)].
        -- left. split; [exact H0|]. split.
           ++ cbn [existsb is_failure]. rewrite existsb_app, Hf, Hnf. reflexivity.
           ++ change (UsbRecv kb c BRAGI_JUMBO_SIZE (Some r)
                      :: report (received response r) ++ evs)
                with ([UsbRecv kb c BRAGI_JUMBO_SIZE (Some r)]
                      ++ report (received response r) ++ evs).
              rewrite !sent_msgs_app, Hs, Hsent. reflexivity.
        -- right. split; [exact H1|].
           exists (UsbRecv kb c BRAGI_JUMBO_SIZE (Some r)
                   :: report (received response r) ++ evs0), m.
           split.
           ++ rewrite Hev. cbn [app]. rewrite <- app_assoc. reflexivity.
           ++ cbn [existsb is_failure]. rewrite existsb_app, Hf, Hnf. reflexivity.
    + cbn [fst snd]. split; [reflexivity|]. right. split; [reflexivity|].
      exists [], c. split; reflexivity.
Qed.

Lemma chunk_events_all_ok (u : transport) (kb : nat) (chunks : list (list Z)) :
  (forall n m len, u n kb m len <> None) ->
  forall n response, (chunk_events u n kb response chunks).1.1 = 0.
Proof.
  intros Hok. induction chunks as [|c chunks IH]; intros n response;
    cbn [chunk_events].
  - reflexivity.
  - destruct (u n kb c BRAGI_JUMBO_SIZE) as [r|] eqn:E; [|apply Hok in E; contradiction].
    specialize (IH (S n) (received response r)).
    destruct (chunk_events u (S n) kb (received response r) chunks)
      as [[ret evs] n']. exact IH.
Qed.

(** Only the transactions from [n] on matter. *)
Lemma chunk_events_ext (u u' : transport) (kb : nat) (chunks : list (list Z)) :
  forall n response,
  (forall n' m len, (n <= n')%nat -> u n' kb m len = u' n' kb m len) ->
  chunk_events u n kb response chunks = chunk_events u' n kb response chunks.
Proof.
  induction chunks as [|c chunks IH]; intros n response Hext; cbn [chunk_events].
  - reflexivity.
  - rewrite <- Hext by lia.
    destruct (u n kb c BRAGI_JUMBO_SIZE) as [r|]; [|reflexivity].
    rewrite (IH (S n)); [reflexivity|].
    intros n' m len Hn'. apply Hext. lia.
Qed.

(** The value returned and the chunks sent depend on which transactions
    get a response, not on what the responses hold or on what the
    response array held before. *)
Lemma chunk_events_pattern (u u' : transport) (kb : nat) (chunks : list (list Z)) :
  (forall n m len, u n kb m len = None <-> u' n kb m len = None) ->
  forall n response response',
  (chunk_events u n kb response chunks).1.1
  = (chunk_events u' n kb response' chunks).1.1 /\
  sent_msgs (chunk_events u n kb response chunks).1.2
  = sent_msgs (chunk_events u' n kb response' chunks).1.2.
Proof.
  intros Hpat. induction chunks as [|c chunks IH]; intros n response response';
    cbn [chunk_events].
  - split; reflexivity.
  - specialize (Hpat n c BRAGI_JUMBO_SIZE).
    destruct (u n kb c BRAGI_JUMBO_SIZE) as [r|],
             (u' n kb c BRAGI_JUMBO_SIZE) as [r'|].
    + specialize (IH (S n) (received response r) (received response' r')).
      destruct (chunk_events u (S n) kb (received response r) chunks)
        as [[ret evs] n1].
      destruct (chunk_events u' (S n) kb (received response' r') chunks)
        as [[ret' evs'] n1'].
      cbn [fst snd] in *. destruct IH as [Hret Hsent]. split; [exact Hret|].
      change (sent_msgs ([UsbRecv kb c BRAGI_JUMBO_SIZE (Some r)]
                         ++ report (received response r) ++ evs)
              = sent_msgs ([UsbRecv kb c BRAGI_JUMBO_SIZE (Some r')]
                           ++ report (received response' r') ++ evs')).
      rewrite !sent_msgs_app, Hsent.
      destruct (report_silent (received response r)) as (-> & _),
               (report_silent (received response' r')) as (-> & _).
      reflexivity.
    + destruct Hpat as [_ Hp]. discriminate (Hp eq_refl).
    + destruct Hpat as [Hp _]. discriminate (Hp eq_refl).
    + split; reflexivity.
Qed.

(** The transactions and their responses do not depend on what the
    response array held before; only the reports can. *)
Lemma chunk_events_usb (u : transport) (kb : nat) (chunks : list (list Z)) :
  forall n response response',
  (chunk_events u n kb response chunks).1.1
  = (chunk_events u n kb response' chunks).1.1 /\
  List.filter is_usb (chunk_events u n kb response chunks).1.2
  = List.filter is_usb (chunk_events u n kb response' chunks).1.2.
Proof.
  induction chunks as [|c chunks IH]; intros n response response';
    cbn [chunk_events].
  - split; reflexivity.
  - destruct (u n kb c BRAGI_JUMBO_SIZE) as [r|]; [|split; reflexivity].
    specialize (IH (S n) (received response r) (received response' r)).
    destruct (chunk_events u (S n) kb (received response r) chunks)
      as [[ret evs] n1].
    destruct (chunk_events u (S n) kb (received response' r) chunks)
      as [[ret' evs'] n1'].
    cbn [fst snd] in *. destruct IH as [Hret Husb]. split; [exact Hret|].
    cbn [List.filter is_usb]. rewrite !List.filter_app, Husb.
    destruct (report_silent (received response r)) as (_ & _ & _ & -> & _),
             (report_silent (received response' r)) as (_ & _ & _ & -> & _).
    reflexivity.
Qed.

(** The loop reports nothing before its first transaction. *)
Lemma chunk_events_head (u : transport) (kb n : nat) (response : list Z)
    (chunks : list (list Z)) (e : event) :
  head (chunk_events u n kb response chunks).1.2 = Some e -> is_usb e = true.
Proof.
  destruct chunks as [|c chunks]; cbn [chunk_events]; [discriminate|].
  destruct (u n kb c BRAGI_JUMBO_SIZE) as [r|].
  - destruct (chunk_events u (S n) kb (received response r) chunks)
      as [[ret evs] n1].
    cbn. intros [= <-]. reflexivity.
  - cbn. intros [= <-]. reflexivity.
Qed.

(** When every response from transaction [n] on is three bytes or longer,
    what the response array held before plays no part, and the codes
    reported are the non-zero status bytes of the responses. *)
Lemma chunk_events_full (u : transport) (kb : nat) (chunks : list (list Z)) :
  forall n response response',
  (forall n' m len in_msg, (n <= n')%nat -> u n' kb m len = Some in_msg ->
                           (3 <= length in_msg)%nat) ->
  chunk_events u n kb response chunks = chunk_events u n kb response' chunks /\
  reported (chunk_events u n kb response chunks).1.2
  = bad_statuses (chunk_events u n kb response chunks).1.2.
Proof.
  induction chunks as [|c chunks IH]; intros n response response' Hfull;
    cbn [chunk_events].
  - split; reflexivity.
  - destruct (u n kb c BRAGI_JUMBO_SIZE) as [r|] eqn:E; [|split; reflexivity].
    pose proof (Hfull n c BRAGI_JUMBO_SIZE r ltac:(lia) E) as Hr.
    assert (Hrep : forall a, report (received a r) = report r)
      by (intros a; unfold report; rewrite received_status by exact Hr;
          reflexivity).
    destruct (IH (S n) (received response r) (received response' r)) as [Heq Hbad].
    { intros n' m len in_msg Hn'. apply Hfull. lia. }
    rewrite <- Heq, !Hrep.
    destruct (chunk_events u (S n) kb (received response r) chunks)
      as [[ret evs] n1].
    cbn [fst snd] in *. split; [reflexivity|].
    change (UsbRecv kb c BRAGI_JUMBO_SIZE (Some r) :: report r ++ evs)
      with ([UsbRecv kb c BRAGI_JUMBO_SIZE (Some r)] ++ report r ++ evs).
    rewrite !reported_app, !bad_statuses_app, Hbad.
    destruct (report_silent r) as (_ & _ & -> & _).
    unfold report. cbn. destruct (byte_at r 2 =? 0); reflexivity.
Qed.

End FramerRun.

Section FramerClaims.
Context `{hdr : ckb_headers}.

Lemma uint32_bytes_le (L : Z) :
  is_uint32 L ->
  le_value (uint32_bytes L) = L /\ Forall is_uchar (uint32_bytes L).
Proof.
  unfold is_uint32, uint32_bytes, is_uchar. intros HL.
  change 255 with (Z.ones 8). rewrite !Z.land_ones, !Z.shiftr_div_pow2 by lia.
  cbn [le_value]. split.
  - change (2 ^ 8) with 256. change (2 ^ 16) with 65536.
    change (2 ^ 24) with 16777216. change (2 ^ 32) with 4294967296 in HL.
    Z.div_mod_to_equations. lia.
  - repeat constructor; apply Z.mod_pos_bound; lia.
Qed.

Lemma on_wire_first (pkt : list Z) (handle P L : Z) :
  7 <= P -> on_wire P (first_msg pkt handle L) = wire_packet pkt handle P L 0.
Proof.
  intros HP. unfold on_wire, first_msg, wire_packet, uint32_bytes.
  replace (Z.to_nat P) with (7 + Z.to_nat (P - 7))%nat by lia. reflexivity.
Qed.

Lemma on_wire_continuation (pkt : list Z) (handle P L : Z) (k : nat) :
  3 <= P ->
  on_wire P (continuation pkt P (S k)) = wire_packet pkt handle P L (S k).
Proof.
  intros HP. unfold on_wire, continuation, wire_packet.
  replace (Z.to_nat P) with (3 + Z.to_nat (P - 3))%nat by lia. reflexivity.
Qed.

Lemma required_div (P L : Z) :
  4 <= P -> required_buffer_size P L / P = 1 + continuation_count P L.
Proof.
  intros HP. rewrite required_buffer_size_count. apply Z.div_mul. lia.
Qed.

(** C2. A call with a buffer of the required size whose transactions all
    get a response returns 0 after [required_buffer_size / P] packets:
    packet 0 is bytes [0..P-1] of the buffer under the header
    [MAGIC, WRITE_DATA, handle, L] ([L] as four little-endian bytes),
    continuation packet [k] is the [P] bytes at offset [k * (P - 3)] whose
    first three were overwritten with
    [MAGIC, CONTINUE_WRITE, LIGHTING_HANDLE]. *)
Theorem write_to_handle_packets (usbrecv : transport) (NDEBUG : bool)
    (fuel : nat) (w : world) (kb : nat) (pkt : list Z)
    (handle buf_len P L : Z) :
  out_ep_packet_size (keyboard w kb) = P ->
  7 <= P -> is_int P -> is_uint32 L ->
  required_buffer_size P L <= buf_len ->
  buf_len <= Z.of_nat (length pkt) ->
  required_buffer_size P L / P <= Z.of_nat fuel ->
  (forall n m len, usbrecv n kb m len <> None) ->
  exists pkt' w' tr,
    bragi_write_to_handle usbrecv NDEBUG fuel w kb pkt handle buf_len L
    = Some (Returned 0 pkt' w') /\
    trace w' = trace w ++ tr /\
    Z.of_nat (length (sent_msgs tr)) = required_buffer_size P L / P /\
    map (on_wire P) (sent_msgs tr)
    = map (wire_packet pkt handle P L) (seq 0 (length (sent_msgs tr))) /\
    le_value (uint32_bytes L) = L.
Proof.
  intros HPeq HP HPi HL Hreq Hbuf Hfuel Hok. subst P.
  set (P := out_ep_packet_size (keyboard w kb)) in *.
  pose proof (continuation_count_nonneg P L ltac:(lia)) as Hc0.
  rewrite required_div in * by lia.
  destruct (write_to_handle_run usbrecv NDEBUG fuel w kb pkt handle buf_len L)
    as [pkt' Hrun]; try assumption; [fold P; lia|].
  fold P in Hrun. unfold write_events in Hrun.
  destruct (usbrecv (usb_count w) kb (first_msg pkt handle L) BRAGI_JUMBO_SIZE)
    as [r|] eqn:E; [|apply Hok in E; contradiction].
  set (chunks := map (continuation pkt P)
                     (seq 1 (Z.to_nat (continuation_count P L)))) in *.
  set (resp := received (array_init BRAGI_JUMBO_SIZE [0]) r) in *.
  pose proof (chunk_events_all_ok usbrecv kb chunks Hok (S (usb_count w)) resp)
    as Hret.
  destruct (chunk_events_shape usbrecv kb chunks (S (usb_count w)) resp)
    as [_ [(_ & _ & Hsent)|(H1 & _)]]; [|lia].
  destruct (chunk_events usbrecv (S (usb_count w)) kb resp chunks)
    as [[ret evs] n'].
  cbn [fst snd] in *. subst ret.
  eexists pkt', _, _. split; [exact Hrun|]. split; [reflexivity|].
  change (sent_msgs (UsbRecv kb (first_msg pkt handle L) BRAGI_JUMBO_SIZE (Some r)
                     :: evs))
    with (first_msg pkt handle L :: sent_msgs evs).
  rewrite Hsent. unfold chunks. cbn [length map seq].
  rewrite length_map, length_seq. split; [lia|]. split.
  - f_equal; [apply on_wire_first; exact HP|].
    rewrite map_map. apply map_ext_in. intros k Hk. apply in_seq in Hk.
    destruct k as [|k]; [lia|]. apply on_wire_continuation. lia.
  - apply uint32_bytes_le. exact HL.
Qed.

Lemma write_events_shape (u : transport) (n kb : nat) (pkt : list Z)
    (handle P L : Z) :
  reported (write_events u n kb pkt handle P L).1.2
  = nonzero (drop 1 (statuses (array_init BRAGI_JUMBO_SIZE [0])
                       (write_events u n kb pkt handle P L).1.2)) /\
  (((write_events u n kb pkt handle P L).1.1 = 0 /\
    existsb is_failure (write_events u n kb pkt handle P L).1.2 = false /\
    sent_msgs (write_events u n kb pkt handle P L).1.2
    = first_msg pkt handle L
      :: map (continuation pkt P) (seq 1 (Z.to_nat (continuation_count P L)))) \/
   ((write_events u n kb pkt handle P L).1.1 = 1 /\
    exists evs0 m,
      (write_events u n kb pkt handle P L).1.2
      = evs0 ++ [UsbRecv kb m BRAGI_JUMBO_SIZE None] /\
      existsb is_failure evs0 = false)).
Proof.
  unfold write_events.
  destruct (u n kb (first_msg pkt handle L) BRAGI_JUMBO_SIZE) as [r|].
  - set (chunks := map (continuation pkt P) _).
    set (resp := received (array_init BRAGI_JUMBO_SIZE [0]) r).
    destruct (chunk_events_shape u kb chunks (S n) resp) as [Hrep Hsh].
    destruct (chunk_events u (S n) kb resp chunks) as [[ret evs] n'].
    cbn [fst snd drop] in *. split; [exact Hrep|].
    destruct Hsh as [(H0 & Hnf & Hsent)|(H1 & evs0 & m & Hev & Hnf)].
    + left. split; [exact H0|]. split; [exact Hnf|].
      change (sent_msgs (UsbRecv kb (first_msg pkt handle L) BRAGI_JUMBO_SIZE
                           (Some r) :: evs))
        with (first_msg pkt handle L :: sent_msgs evs).
      rewrite Hsent. reflexivity.
    + right. split; [exact H1|].
      exists (UsbRecv kb (first_msg pkt handle L) BRAGI_JUMBO_SIZE (Some r) :: evs0), m.
      split; [rewrite Hev; reflexivity|exact Hnf].
  - cbn [fst snd]. split; [reflexivity|]. right. split; [reflexivity|].
    exists [], (first_msg pkt handle L). split; reflexivity.
Qed.

(** When every continuation response is three bytes or longer, the codes
    reported are the non-zero status bytes of the continuation
    responses. *)
Lemma write_events_full (u : transport) (n kb : nat) (pkt : list Z)
    (handle P L : Z) :
  (forall n' m len in_msg, (n < n')%nat -> u n' kb m len = Some in_msg ->
                           (3 <= length in_msg)%nat) ->
  reported (write_events u n kb pkt handle P L).1.2
  = bad_statuses (drop 1 (write_events u n kb pkt handle P L).1.2).
Proof.
  intros Hfull. unfold write_events.
  destruct (u n kb (first_msg pkt handle L) BRAGI_JUMBO_SIZE) as [r|];
    [|reflexivity].
  set (chunks := map (continuation pkt P) _).
  set (resp := received (array_init BRAGI_JUMBO_SIZE [0]) r).
  destruct (chunk_events_full u kb chunks (S n) resp resp) as [_ Hbad].
  { intros n' m len in_msg Hn'. apply Hfull. lia. }
  destruct (chunk_events u (S n) kb resp chunks) as [[ret evs] n'].
  exact Hbad.
Qed.

Lemma write_events_pattern (u u' : transport) (n kb : nat) (pkt : list Z)
    (handle P L : Z) :
  (forall n m len, u n kb m len = None <-> u' n kb m len = None) ->
  (write_events u n kb pkt handle P L).1.1
  = (write_events u' n kb pkt handle P L).1.1 /\
  sent_msgs (write_events u n kb pkt handle P L).1.2
  = sent_msgs (write_events u' n kb pkt handle P L).1.2.
Proof.
  intros Hpat. unfold write_events.
  pose proof (Hpat n (first_msg pkt handle L) BRAGI_JUMBO_SIZE) as Hp.
  set (chunks := map (continuation pkt P) _).
  destruct (u n kb (first_msg pkt handle L) BRAGI_JUMBO_SIZE) as [r|],
           (u' n kb (first_msg pkt handle L) BRAGI_JUMBO_SIZE) as [r'|].
  - destruct (chunk_events_pattern u u' kb chunks Hpat (S n)
                (received (array_init BRAGI_JUMBO_SIZE [0]) r)
                (received (array_init BRAGI_JUMBO_SIZE [0]) r'))
      as [Hret Hsent].
    destruct (chunk_events u (S n) kb _ chunks) as [[ret evs] n1].
    destruct (chunk_events u' (S n) kb _ chunks) as [[ret' evs'] n1'].
    cbn [fst snd] in *. split; [exact Hret|].
    change (first_msg pkt handle L :: sent_msgs evs
            = first_msg pkt handle L :: sent_msgs evs').
    rewrite Hsent. reflexivity.
  - destruct Hp as [_ Hp]. discriminate (Hp eq_refl).
  - destruct Hp as [Hp _]. discriminate (Hp eq_refl).
  - split; reflexivity.
Qed.

(** C4. A call with a buffer of the required size returns 1 when a
    transaction got no response, and that transaction is the last thing
    it did; it returns 0 otherwise, after all packets went out.  What is
    reported is the status byte that the response array holds after a
    continuation, when it is not 0 (the status byte of the continuation
    response itself, when the response is three bytes or longer), and
    nothing more comes of a status: a transport that differs only in what
    its responses hold gives the same result after the same packets. *)
Theorem write_to_handle_transport_failure (usbrecv : transport) (NDEBUG : bool)
    (fuel : nat) (w : world) (kb : nat) (pkt : list Z)
    (handle buf_len P L : Z) :
  out_ep_packet_size (keyboard w kb) = P ->
  7 <= P -> is_int P -> is_uint32 L ->
  required_buffer_size P L <= buf_len ->
  buf_len <= Z.of_nat (length pkt) ->
  required_buffer_size P L / P <= Z.of_nat fuel ->
  exists ret pkt' w' tr,
    bragi_write_to_handle usbrecv NDEBUG fuel w kb pkt handle buf_len L
    = Some (Returned ret pkt' w') /\
    trace w' = trace w ++ tr /\
    ((ret = 0 /\ existsb is_failure tr = false /\
      Z.of_nat (length (sent_msgs tr)) = required_buffer_size P L / P) \/
     (ret = 1 /\
      exists tr0 m, tr = tr0 ++ [UsbRecv kb m BRAGI_JUMBO_SIZE None] /\
                    existsb is_failure tr0 = false)) /\
    reported tr
    = nonzero (drop 1 (statuses (array_init BRAGI_JUMBO_SIZE [0]) tr)) /\
    ((forall n m len in_msg,
        (usb_count w < n)%nat -> usbrecv n kb m len = Some in_msg ->
        (3 <= length in_msg)%nat) ->
     reported tr = bad_statuses (drop 1 tr)) /\
    forall usbrecv' : transport,
      (forall n m len, usbrecv n kb m len = None <-> usbrecv' n kb m len = None) ->
      exists pkt'' w'' tr',
        bragi_write_to_handle usbrecv' NDEBUG fuel w kb pkt handle buf_len L
        = Some (Returned ret pkt'' w'') /\
        trace w'' = trace w ++ tr' /\
        sent_msgs tr' = sent_msgs tr.
Proof.
  intros HPeq HP HPi HL Hreq Hbuf Hfuel. subst P.
  set (P := out_ep_packet_size (keyboard w kb)) in *.
  pose proof (continuation_count_nonneg P L ltac:(lia)) as Hc0.
  rewrite required_div in * by lia.
  assert (Hf : (Z.to_nat (continuation_count P L) < fuel)%nat) by lia.
  destruct (write_to_handle_run usbrecv NDEBUG fuel w kb pkt handle buf_len L)
    as [pkt' Hrun]; try assumption.
  fold P in Hrun.
  destruct (write_events_shape usbrecv (usb_count w) kb pkt handle P L)
    as [Hrep Hsh].
  eexists _, pkt', _, _. split; [exact Hrun|]. split; [reflexivity|].
  split; [|split; [exact Hrep|split]].
  - destruct Hsh as [(H0 & Hnf & Hsent)|(H1 & Hlast)].
    + left. split; [exact H0|]. split; [exact Hnf|].
      rewrite Hsent. cbn [length]. rewrite length_map, length_seq. lia.
    + right. split; [exact H1|exact Hlast].
  - intros Hfull. apply write_events_full. exact Hfull.
  - intros usbrecv' Hpat.
    destruct (write_to_handle_run usbrecv' NDEBUG fuel w kb pkt handle buf_len L)
      as [pkt'' Hrun']; try assumption.
    fold P in Hrun'.
    destruct (write_events_pattern usbrecv usbrecv' (usb_count w) kb pkt
                handle P L Hpat) as [Hret Hsent].
    eexists pkt'', _, _. rewrite Hret. split; [exact Hrun'|].
    split; [reflexivity|]. symmetry. exact Hsent.
Qed.

(** C10, as the code has it.  The response to the first packet is not
    checked when it arrives: two transports that both answer the first
    packet, and answer alike from then on, give the same result after the
    same transactions with the same responses, nothing is reported before
    the next transaction, and the result is 1 exactly when a later
    transaction got no response.  When every continuation response is
    three bytes or longer, and so overwrites the status byte of the one
    response array, the events behind the first transaction are the same
    as well, and the codes reported are the status bytes of the
    continuation responses. *)
Theorem write_to_handle_first_status (usbrecv usbrecv' : transport)
    (NDEBUG : bool) (fuel : nat) (w : world) (kb : nat) (pkt : list Z)
    (handle buf_len P L : Z) (r0 r0' : list Z) :
  out_ep_packet_size (keyboard w kb) = P ->
  7 <= P -> is_int P -> is_uint32 L ->
  required_buffer_size P L <= buf_len ->
  buf_len <= Z.of_nat (length pkt) ->
  required_buffer_size P L / P <= Z.of_nat fuel ->
  usbrecv (usb_count w) kb (first_msg pkt handle L) BRAGI_JUMBO_SIZE = Some r0 ->
  usbrecv' (usb_count w) kb (first_msg pkt handle L) BRAGI_JUMBO_SIZE = Some r0' ->
  (forall n m len, (usb_count w < n)%nat ->
                   usbrecv n kb m len = usbrecv' n kb m len) ->
  exists ret pkt' pkt'' w' w'' tr1 tr1',
    bragi_write_to_handle usbrecv NDEBUG fuel w kb pkt handle buf_len L
    = Some (Returned ret pkt' w') /\
    bragi_write_to_handle usbrecv' NDEBUG fuel w kb pkt handle buf_len L
    = Some (Returned ret pkt'' w'') /\
    trace w' = trace w
               ++ UsbRecv kb (first_msg pkt handle L) BRAGI_JUMBO_SIZE (Some r0)
               :: tr1 /\
    trace w'' = trace w
                ++ UsbRecv kb (first_msg pkt handle L) BRAGI_JUMBO_SIZE (Some r0')
                :: tr1' /\
    List.filter is_usb tr1 = List.filter is_usb tr1' /\
    (forall e, head tr1 = Some e -> is_usb e = true) /\
    ((ret = 0 /\ existsb is_failure tr1 = false) \/
     (ret = 1 /\ existsb is_failure tr1 = true)) /\
    ((forall n m len in_msg,
        (usb_count w < n)%nat -> usbrecv n kb m len = Some in_msg ->
        (3 <= length in_msg)%nat) ->
     tr1' = tr1 /\ reported tr1 = bad_statuses tr1).
Proof.
  intros HPeq HP HPi HL Hreq Hbuf Hfuel E E' Hext. subst P.
  set (P := out_ep_packet_size (keyboard w kb)) in *.
  pose proof (continuation_count_nonneg P L ltac:(lia)) as Hc0.
  rewrite required_div in * by lia.
  assert (Hf : (Z.to_nat (continuation_count P L) < fuel)%nat) by lia.
  destruct (write_to_handle_run usbrecv NDEBUG fuel w kb pkt handle buf_len L)
    as [pkt' Hrun]; try assumption.
  destruct (write_to_handle_run usbrecv' NDEBUG fuel w kb pkt handle buf_len L)
    as [pkt'' Hrun']; try assumption.
  fold P in Hrun, Hrun'. unfold write_events in Hrun, Hrun'.
  rewrite E in Hrun. rewrite E' in Hrun'.
  set (chunks := map (continuation pkt P) _) in *.
  set (resp := received (array_init BRAGI_JUMBO_SIZE [0]) r0) in *.
  set (resp' := received (array_init BRAGI_JUMBO_SIZE [0]) r0') in *.
  rewrite <- (chunk_events_ext usbrecv usbrecv' kb chunks (S (usb_count w)) resp')
    in Hrun' by (intros; apply Hext; lia).
  destruct (chunk_events_shape usbrecv kb chunks (S (usb_count w)) resp)
    as [_ Hsh].
  destruct (chunk_events_usb usbrecv kb chunks (S (usb_count w)) resp resp')
    as [Hret Husb].
  pose proof (chunk_events_head usbrecv kb (S (usb_count w)) resp chunks) as Hhead.
  pose proof (chunk_events_full usbrecv kb chunks (S (usb_count w)) resp resp')
    as Hfull.
  destruct (chunk_events usbrecv (S (usb_count w)) kb resp chunks)
    as [[ret evs] n'].
  destruct (chunk_events usbrecv (S (usb_count w)) kb resp' chunks)
    as [[ret' evs'] n''].
  cbn [fst snd] in *. subst ret'.
  exists ret, pkt', pkt''. eexists _, _, evs, evs'.
  split; [exact Hrun|]. split; [exact Hrun'|].
  split; [reflexivity|]. split; [reflexivity|]. split; [exact Husb|].
  split; [exact Hhead|]. split.
  - destruct Hsh as [(H0 & Hnf & _)|(H1 & evs0 & m & Hev & Hnf)].
    + left. split; assumption.
    + right. split; [exact H1|]. rewrite Hev, existsb_app. cbn.
      apply orb_true_r.
  - intros Hlen. destruct Hfull as [Heq Hbad].
    { intros n0 m len in_msg Hn0. apply Hlen. lia. }
    assert (Hevs : evs' = evs) by congruence.
    split; [exact Hevs|exact Hbad].
Qed.

(** C3, as the code has it.  In a debug build a call whose [buf_len] is
    below the size that [bragi_calculate_buffer_size] returns reports the
    fatal error and returns at once: the buffer is as it was and nothing
    was handed to the transport.  In a release build the check is
    compiled out and [buf_len] plays no part. *)
Theorem write_to_handle_undersized (usbrecv : transport) (fuel : nat)
    (w : world) (kb : nat) (pkt : list Z) (handle buf_len L bytes_req : Z) :
  bragi_calculate_buffer_size (keyboard w kb) L = Some bytes_req ->
  buf_len < bytes_req ->
  (exists ret,
     bragi_write_to_handle usbrecv false fuel w kb pkt handle buf_len L
     = Some (Returned ret pkt (emit (ckb_fatal (BufferTooSmall bytes_req)) w))) /\
  forall buf_len',
    bragi_write_to_handle usbrecv true fuel w kb pkt handle buf_len L
    = bragi_write_to_handle usbrecv true fuel w kb pkt handle buf_len' L.
Proof.
  intros Hreq Hlt. split.
  - exists 0.
    unfold bragi_write_to_handle, bragi_write_to_handle_common, buffer_check.
    unfold bragi_calculate_buffer_size in Hreq. rewrite Hreq.
    destruct (Z.gtb_spec bytes_req buf_len); [reflexivity|lia].
  - intros buf_len'. reflexivity.
Qed.

End FramerClaims.

Section Codec.
Context `{hdr : ckb_headers}.

(** Reading what the transport wrote, with 0 for the bytes it did not
    write, is reading a response array that was zeroed before. *)
Lemma received_zeroed (n : nat) (in_msg : list Z) (i : nat) :
  byte_at (received (array_init n [0]) in_msg) i = byte_at in_msg i.
Proof.
  unfold byte_at, received, array_init.
  destruct (in_msg !! i) as [b|] eqn:E.
  - rewrite (lookup_app_l_Some _ _ _ _ E). reflexivity.
  - apply lookup_ge_None in E. rewrite lookup_app_r by lia.
    rewrite lookup_drop.
    change ([0] ++ replicate (n - length [0]) 0)
      with (replicate (S (n - 1)) 0).
    destruct (replicate (S (n - 1)) 0 !! _) as [z|] eqn:Ez; [|reflexivity].
    apply lookup_replicate in Ez. destruct Ez as [-> _]. reflexivity.
Qed.

Lemma lor_bytes (lo hi : Z) :
  0 <= lo < 2 ^ 8 -> 0 <= hi ->
  Z.lor (Z.shiftl hi 8) lo = lo + 256 * hi.
Proof.
  intros Hlo Hhi.
  assert (Hland : Z.land (Z.shiftl hi 8) lo = 0).
  { apply Z.bits_inj'. intros n Hn. rewrite Z.land_spec, Z.bits_0.
    destruct (Z.lt_ge_cases n 8) as [Hlt|Hge].
    - rewrite Z.shiftl_spec_low by lia. reflexivity.
    - replace (Z.testbit lo n) with false; [apply andb_false_r|].
      symmetry. destruct (Z.eq_dec lo 0) as [->|Hnz]; [apply Z.bits_0|].
      apply Z.bits_above_log2; [lia|].
      apply Z.lt_le_trans with 8; [|lia].
      apply Z.log2_lt_pow2; lia. }
  rewrite <- Z.lxor_lor by exact Hland.
  rewrite <- Z.add_nocarry_lxor by exact Hland.
  rewrite Z.shiftl_mul_pow2 by lia. change (2 ^ 8) with 256. lia.
Qed.

Lemma set_request_bytes (prop val : Z) :
  is_ushort val ->
  array_init BRAGI_JUMBO_SIZE
    [BRAGI_MAGIC; BRAGI_SET; prop; 0;
     to_uchar (Z.land val 255); to_uchar (Z.shiftr val 8)]
  = set_request prop val.
Proof.
  unfold is_ushort, set_request, array_init, to_uchar. intros Hv.
  change 255 with (Z.ones 8). rewrite Z.land_ones, Z.shiftr_div_pow2 by lia.
  change (2 ^ 8) with 256 in *. change (2 ^ 16) with 65536 in *.
  rewrite Z.mod_mod by lia.
  rewrite (Z.mod_small (val / 256)) by (Z.div_mod_to_equations; lia).
  reflexivity.
Qed.

(** C5. [bragi_get_property] sends [MAGIC, GET, prop, 0, 0, ...] once; it
    returns -1 when no response came, -2 (and reports) when byte 2 of the
    response is not 0, and the 16 bit value of bytes 3 (low) and 4 (high)
    otherwise.  [bragi_set_property] sends
    [MAGIC, SET, prop, 0, low, high, 0, ...] once and returns -1, -2 and 0
    in the three cases. *)
Theorem property_codec (usbrecv : transport) (w : world) (kb : nat)
    (prop val : Z) :
  is_ushort val ->
  (usbrecv (usb_count w) kb (get_request prop) BRAGI_JUMBO_SIZE = None ->
   bragi_get_property usbrecv w kb prop
   = (-1, after w [UsbRecv kb (get_request prop) BRAGI_JUMBO_SIZE None]
                (S (usb_count w)))) /\
  (forall r,
     usbrecv (usb_count w) kb (get_request prop) BRAGI_JUMBO_SIZE = Some r ->
     byte_at r 2 <> 0 ->
     bragi_get_property usbrecv w kb prop
     = (-2, after w [UsbRecv kb (get_request prop) BRAGI_JUMBO_SIZE (Some r);
                     ckb_err (GetFailed prop (byte_at r 2))]
                  (S (usb_count w)))) /\
  (forall r,
     usbrecv (usb_count w) kb (get_request prop) BRAGI_JUMBO_SIZE = Some r ->
     byte_at r 2 = 0 -> is_uchar (byte_at r 3) -> is_uchar (byte_at r 4) ->
     bragi_get_property usbrecv w kb prop
     = (byte_at r 3 + 256 * byte_at r 4,
        after w [UsbRecv kb (get_request prop) BRAGI_JUMBO_SIZE (Some r)]
              (S (usb_count w))) /\
     is_ushort (byte_at r 3 + 256 * byte_at r 4)) /\
  (usbrecv (usb_count w) kb (set_request prop val) BRAGI_JUMBO_SIZE = None ->
   bragi_set_property usbrecv w kb prop val
   = (-1, after w [UsbRecv kb (set_request prop val) BRAGI_JUMBO_SIZE None]
                (S (usb_count w)))) /\
  (forall r,
     usbrecv (usb_count w) kb (set_request prop val) BRAGI_JUMBO_SIZE = Some r ->
     byte_at r 2 <> 0 ->
     bragi_set_property usbrecv w kb prop val
     = (-2, after w [UsbRecv kb (set_request prop val) BRAGI_JUMBO_SIZE (Some r);
                     ckb_err (SetFailed prop (byte_at r 2))]
                  (S (usb_count w)))) /\
  (forall r,
     usbrecv (usb_count w) kb (set_request prop val) BRAGI_JUMBO_SIZE = Some r ->
     byte_at r 2 = 0 ->
     bragi_set_property usbrecv w kb prop val
     = (0, after w [UsbRecv kb (set_request prop val) BRAGI_JUMBO_SIZE (Some r)]
                 (S (usb_count w)))).
Proof.
  intros Hval.
  unfold bragi_get_property, bragi_set_property, usb_transact.
  rewrite (set_request_bytes prop val Hval).
  change (array_init BRAGI_JUMBO_SIZE [BRAGI_MAGIC; BRAGI_GET; prop; 0])
    with (get_request prop).
  split; [|split; [|split; [|split; [|split]]]].
  - intros ->. reflexivity.
  - intros r -> Hst. apply Z.eqb_neq in Hst. rewrite Hst.
    unfold after, emit. cbn. rewrite <- app_assoc. reflexivity.
  - intros r -> Hst Hb3 Hb4. rewrite Hst. cbn [Z.eqb].
    unfold is_uchar, is_ushort in *. unfold to_ushort.
    rewrite (Z.mod_small (byte_at r 4)) by lia.
    rewrite lor_bytes by lia. split; [reflexivity|lia].
  - intros ->. reflexivity.
  - intros r -> Hst. apply Z.eqb_neq in Hst. rewrite Hst.
    unfold after, emit. cbn. rewrite <- app_assoc. reflexivity.
  - intros r -> ->. reflexivity.
Qed.

End Codec.

Section Discovery.
Context `{hdr : ckb_headers}.
Variable usbrecv : transport.
Variable closeusb : nat -> usbdevice -> usbdevice.
Variable setupusb : nat -> usbdevice -> usbdevice.

Ltac wsimpl :=
  unfold cmutex_unlock, dmutex_unlock, call_setupusb, emit, with_dev,
         with_devmutex, with_childrenmutex in *;
  cbn [keyboard devmutex childrenmutex usb_count trace] in *.

Lemma relock_same (m : nat -> mutex) (d : nat) (x : mutex) :
  m d = Unlocked -> forall d', <[d := Unlocked]> (<[d := x]> m) d' = m d'.
Proof.
  intros Hd d'. destruct (decide (d = d')) as [<-|Hne].
  - rewrite fn_lookup_insert. symmetry. exact Hd.
  - rewrite !fn_lookup_insert_ne by exact Hne. reflexivity.
Qed.

(** ** A presence mask that asks for nothing *)

Lemma sweeps_idle (kb : nat) (prop : Z) (slots : list nat) (w : world) :
  (forall i, In i slots ->
             wants prop (keyboard w kb) i = false /\
             gone prop (keyboard w kb) i = false) ->
  disconnect_sweep closeusb slots w kb prop = Done w /\
  connect_sweep usbrecv setupusb slots w kb prop = (false, w).
Proof.
  induction slots as [|i slots IH]; intros Hidle; [split; reflexivity|].
  destruct IH as [IHd IHc]; [intros j Hj; apply Hidle; right; exact Hj|].
  destruct (Hidle i (or_introl eq_refl)) as [Hw Hg].
  unfold wants, gone in Hw, Hg. cbn [disconnect_sweep connect_sweep].
  destruct (presence_bit prop i =? 0);
    destruct (children (keyboard w kb) (i - 1)%nat);
    cbn in Hw, Hg; try discriminate; split; assumption.
Qed.

(** C9. With the children array already matching the presence mask (a
    child in slot [i - 1] exactly for the set bits [i]), a run changes
    nothing: the pool, the children and both mutex tables are as before,
    no transaction took place, and the only events are the taking and the
    release of the children mutex of the dongle. *)
Theorem update_populated_noop (w : world) (kb : nat) (prop : Z) :
  childrenmutex w kb = Unlocked ->
  (forall i, (1 <= i <= 7)%nat ->
             presence_bit prop i <> 0 <->
             children (keyboard w kb) (i - 1)%nat <> None) ->
  exists w',
    bragi_update_dongle_subdevs usbrecv closeusb setupusb w kb prop = Done w' /\
    keyboard w' = keyboard w /\
    devmutex w' = devmutex w /\
    (forall d, childrenmutex w' d = childrenmutex w d) /\
    usb_count w' = usb_count w /\
    trace w' = trace w ++ [CLock kb; CUnlock kb].
Proof.
  intros Hfree Hpop. unfold bragi_update_dongle_subdevs, cmutex_lock.
  rewrite Hfree.
  set (w1 := emit (CLock kb) (with_childrenmutex kb LockedHere w)).
  destruct (sweeps_idle kb prop (seq 1 7) w1) as [Hd Hc].
  { intros i Hi. apply in_seq in Hi. specialize (Hpop i ltac:(lia)).
    unfold wants, gone. change (keyboard w1 kb) with (keyboard w kb).
    destruct (Z.eqb_spec (presence_bit prop i) 0) as [E|E];
      destruct (children (keyboard w kb) (i - 1)%nat) eqn:Ec; cbn;
      split; try reflexivity; exfalso; destruct Hpop as [Hp1 Hp2].
    - apply Hp2; [discriminate|exact E].
    - apply (Hp1 E). reflexivity. }
  rewrite Hd, Hc. eexists. split; [reflexivity|].
  unfold w1. wsimpl. repeat split.
  - intros d. apply relock_same. exact Hfree.
  - rewrite <- app_assoc. reflexivity.
Qed.

(** ** The disconnect sweep *)

Lemma gone_true (prop : Z) (dongle : usbdevice) (i : nat) :
  gone prop dongle i = true <->
  presence_bit prop i = 0 /\ exists d, children dongle (i - 1)%nat = Some d.
Proof.
  unfold gone. destruct (Z.eqb_spec (presence_bit prop i) 0) as [E|E];
    destruct (children dongle (i - 1)%nat) as [d|]; cbn; split;
    try discriminate; try (intros [? [? ?]]; congruence); try tauto.
  intros _. split; [exact E|]. exists d. reflexivity.
Qed.

Lemma disconnect_sweep_run (kb : nat) (prop : Z) (n : nat) :
  forall (a : nat) (w : world),
  (1 <= a)%nat ->
  (forall j, children (keyboard w kb) j <> Some kb) ->
  (forall i d, (a <= i < a + n)%nat -> presence_bit prop i = 0 ->
               children (keyboard w kb) (i - 1)%nat = Some d ->
               devmutex w d = Unlocked) ->
  exists w' tr,
    disconnect_sweep closeusb (seq a n) w kb prop = Done w' /\
    trace w' = trace w ++ tr /\
    (forall d, devmutex w' d = devmutex w d) /\
    (forall j, ~ ((a <= S j < a + n)%nat /\ gone prop (keyboard w kb) (S j) = true) ->
               children (keyboard w' kb) j = children (keyboard w kb) j) /\
    (forall i d, (a <= i < a + n)%nat -> presence_bit prop i = 0 ->
                 children (keyboard w kb) (i - 1)%nat = Some d ->
                 children (keyboard w' kb) (i - 1)%nat = None /\
                 exists pre post, tr = pre ++ disconnect_block kb d ++ post).
Proof.
  induction n as [|n IH]; intros a w Ha Hself Hfree.
  - exists w, []. cbn [seq disconnect_sweep]. rewrite app_nil_r.
    repeat split; try reflexivity; intros; lia.
  - cbn [seq disconnect_sweep].
    assert (Hskip :
      gone prop (keyboard w kb) a = false ->
      exists w' tr,
        disconnect_sweep closeusb (seq (S a) n) w kb prop = Done w' /\
        trace w' = trace w ++ tr /\
        (forall d, devmutex w' d = devmutex w d) /\
        (forall j, ~ ((a <= S j < a + S n)%nat
                      /\ gone prop (keyboard w kb) (S j) = true) ->
                   children (keyboard w' kb) j = children (keyboard w kb) j) /\
        (forall i d, (a <= i < a + S n)%nat -> presence_bit prop i = 0 ->
                     children (keyboard w kb) (i - 1)%nat = Some d ->
                     children (keyboard w' kb) (i - 1)%nat = None /\
                     exists pre post, tr = pre ++ disconnect_block kb d ++ post)).
    { intros Hng.
      destruct (IH (S a) w ltac:(lia) Hself) as (w' & tr & Hrun & Htr & Hm & Hb & Hc).
      { intros i d Hi. apply Hfree. lia. }
      exists w', tr. split; [exact Hrun|]. split; [exact Htr|].
      split; [exact Hm|]. split.
      - intros j Hj. apply Hb. intros [Hr Hg]. apply Hj. split; [lia|exact Hg].
      - intros i d Hi Hbit Hch.
        destruct (decide (i = a)) as [->|Hne].
        + assert (gone prop (keyboard w kb) a = true)
            by (apply gone_true; eauto).
          congruence.
        + apply Hc; [lia|assumption..]. }
    destruct (Z.eqb_spec (presence_bit prop a) 0) as [Hbit|Hbit]; cbn [negb].
    2:{ apply Hskip. unfold gone.
        destruct (Z.eqb_spec (presence_bit prop a) 0); [contradiction|reflexivity]. }
    destruct (children (keyboard w kb) (a - 1)%nat) as [subkb|] eqn:Hch.
    2:{ apply Hskip. unfold gone. rewrite Hch. apply andb_false_r. }
    assert (Hne : subkb <> kb) by (intros ->; exact (Hself _ Hch)).
    assert (Hlock : devmutex w subkb = Unlocked)
      by (apply (Hfree a subkb); [lia|assumption..]).
    unfold dmutex_lock. rewrite Hlock.
    set (w5 := dmutex_unlock _ subkb).
    assert (Hk5 : keyboard w5 kb = set_child (a - 1)%nat None (keyboard w kb)).
    { unfold w5. wsimpl. rewrite fn_lookup_insert.
      rewrite fn_lookup_insert_ne by exact Hne. reflexivity. }
    assert (Hc5 : forall j, children (keyboard w5 kb) j
                            = if decide ((a - 1)%nat = j) then None
                              else children (keyboard w kb) j).
    { intros j. rewrite Hk5. reflexivity. }
    assert (Hm5 : forall d, devmutex w5 d = devmutex w d).
    { intros d. unfold w5. wsimpl. apply relock_same. exact Hlock. }
    assert (Ht5 : trace w5 = trace w ++ disconnect_block kb subkb).
    { unfold w5. wsimpl. rewrite <- !app_assoc. reflexivity. }
    destruct (IH (S a) w5 ltac:(lia)) as (w' & tr & Hrun & Htr & Hm & Hb & Hc).
    { intros j. rewrite Hc5. destruct (decide _); [discriminate|apply Hself]. }
    { intros i d Hi Hb' Hch'. rewrite Hm5. rewrite Hc5 in Hch'.
      destruct (decide _); [discriminate|].
      apply (Hfree i d); [lia|assumption..]. }
    exists w', (disconnect_block kb subkb ++ tr).
    split; [exact Hrun|]. split; [rewrite Htr, Ht5, <- app_assoc; reflexivity|].
    split; [intros d; rewrite Hm; apply Hm5|]. split.
    + intros j Hj. rewrite Hb.
      * rewrite Hc5. destruct (decide ((a - 1)%nat = j)) as [Hj'|]; [|reflexivity].
        exfalso. apply Hj. replace (S j) with a by lia. split; [lia|].
        apply gone_true. eauto.
      * intros [Hr Hg]. apply Hj. split; [lia|].
        apply gone_true in Hg. destruct Hg as [Hg1 [d Hg2]].
        apply gone_true. split; [exact Hg1|]. exists d.
        rewrite Hc5 in Hg2. destruct (decide _); [discriminate|exact Hg2].
    + intros i d Hi Hbi Hchi. destruct (decide (i = a)) as [->|Hia].
      * split.
        -- rewrite Hb; [rewrite Hc5; destruct (decide _); [reflexivity|congruence]|].
           intros [Hr _]. lia.
        -- exists [], tr. rewrite Hch in Hchi. injection Hchi as <-. reflexivity.
      * destruct (Hc i d) as [Hnone (pre & post & Hpp)]; [lia|exact Hbi| |].
        -- rewrite Hc5. destruct (decide _); [lia|exact Hchi].
        -- split; [exact Hnone|].
           exists (disconnect_block kb subkb ++ pre), post.
           rewrite Hpp, <- app_assoc. reflexivity.
Qed.

(** C8. With no child of the dongle locked elsewhere, the disconnect sweep
    returns, and for every slot [i] in 1..7: if bit [i] is clear and the
    slot holds [d], then [d] was locked (blocking), closed and unlocked,
    the slot is empty and the lifecycle mutex of [d] is not held; if the
    bit is set or the slot is empty, the slot is as before. *)
Theorem disconnect_sweep_closes (w : world) (kb : nat) (prop : Z) :
  (forall j, children (keyboard w kb) j <> Some kb) ->
  (forall i d, (1 <= i <= 7)%nat -> presence_bit prop i = 0 ->
               children (keyboard w kb) (i - 1)%nat = Some d ->
               devmutex w d = Unlocked) ->
  exists w',
    disconnect_sweep closeusb (seq 1 7) w kb prop = Done w' /\
    forall i, (1 <= i <= 7)%nat ->
      (forall d, presence_bit prop i = 0 ->
                 children (keyboard w kb) (i - 1)%nat = Some d ->
                 children (keyboard w' kb) (i - 1)%nat = None /\
                 devmutex w' d = Unlocked /\
                 exists pre post,
                   trace w' = trace w ++ pre ++ disconnect_block kb d ++ post) /\
      (presence_bit prop i <> 0 \/ children (keyboard w kb) (i - 1)%nat = None ->
       children (keyboard w' kb) (i - 1)%nat
       = children (keyboard w kb) (i - 1)%nat).
Proof.
  intros Hself Hfree.
  destruct (disconnect_sweep_run kb prop 7 1 w ltac:(lia) Hself)
    as (w' & tr & Hrun & Htr & Hm & Hb & Hc).
  { intros i d Hi. apply Hfree. lia. }
  exists w'. split; [exact Hrun|]. intros i Hi. split.
  - intros d Hbit Hch. destruct (Hc i d ltac:(lia) Hbit Hch) as [Hnone (pre & post & Hpp)].
    split; [exact Hnone|]. split.
    + rewrite Hm. apply (Hfree i d Hi Hbit Hch).
    + exists pre, post. rewrite Htr, Hpp. reflexivity.
  - intros Hkeep. apply Hb. intros [_ Hg]. apply gone_true in Hg.
    replace (S (i - 1)) with i in Hg by lia.
    destruct Hg as [Hg1 [d Hg2]]. destruct Hkeep; congruence.
Qed.

(** ** The events of a run *)

Lemma disconnect_sweep_trace (kb : nat) (prop : Z) (slots : list nat) :
  forall w w',
  disconnect_sweep closeusb slots w kb prop = Done w' ->
  exists tr, trace w' = trace w ++ tr /\ disconnects kb tr /\
             childrenmutex w' = childrenmutex w.
Proof.
  induction slots as [|i slots IH]; intros w w' Hrun; cbn [disconnect_sweep] in Hrun.
  - injection Hrun as <-. exists []. rewrite app_nil_r.
    split; [reflexivity|]. split; [constructor|reflexivity].
  - destruct (negb (presence_bit prop i =? 0)); [apply IH; exact Hrun|].
    destruct (children (keyboard w kb) (i - 1)%nat) as [subkb|];
      [|apply IH; exact Hrun].
    unfold dmutex_lock in Hrun.
    destruct (devmutex w subkb); try discriminate.
    apply IH in Hrun. destruct Hrun as (tr & Htr & Hdis & Hcm).
    exists (disconnect_block kb subkb ++ tr). split; [|split].
    + rewrite Htr. wsimpl. rewrite <- !app_assoc. reflexivity.
    + constructor. exact Hdis.
    + rewrite Hcm. reflexivity.
Qed.

Lemma get_property_frame (w : world) (kb : nat) (prop : Z) :
  keyboard (bragi_get_property usbrecv w kb prop).2 = keyboard w /\
  devmutex (bragi_get_property usbrecv w kb prop).2 = devmutex w /\
  childrenmutex (bragi_get_property usbrecv w kb prop).2 = childrenmutex w /\
  exists evs,
    trace (bragi_get_property usbrecv w kb prop).2 = trace w ++ evs /\
    forallb quiet evs = true /\
    sent_msgs evs = [get_request prop].
Proof.
  unfold bragi_get_property, usb_transact.
  change (array_init BRAGI_JUMBO_SIZE [BRAGI_MAGIC; BRAGI_GET; prop; 0])
    with (get_request prop).
  destruct (usbrecv (usb_count w) kb (get_request prop) BRAGI_JUMBO_SIZE) as [r|].
  - destruct (byte_at r 2 =? 0); cbn [snd]; wsimpl; repeat split;
      eexists; (split; [try rewrite <- app_assoc; reflexivity|]);
      split; reflexivity.
  - cbn [snd]. wsimpl. repeat split. eexists. split; [reflexivity|].
    split; reflexivity.
Qed.

(** Taking a slot: the children mutex is released first, then come the
    two property queries; the lifecycle mutex tables are not touched. *)
Lemma claim_subdev_trace (w : world) (kb i index : nat) :
  devmutex (claim_subdev usbrecv w kb i index) = devmutex w /\
  childrenmutex (claim_subdev usbrecv w kb i index)
  = <[kb := Unlocked]> (childrenmutex w) /\
  exists gets,
    trace (claim_subdev usbrecv w kb i index) = trace w ++ CUnlock kb :: gets /\
    forallb quiet gets = true /\
    sent_msgs gets = [get_request BRAGI_VID; get_request BRAGI_PID].
Proof.
  unfold claim_subdev.
  set (wA := cmutex_unlock _ kb).
  destruct (get_property_frame wA index BRAGI_VID)
    as (_ & HdB & HcB & evB & HtB & HqB & HsB).
  destruct (bragi_get_property usbrecv wA index BRAGI_VID) as [vid wB].
  cbn [snd] in *.
  destruct (get_property_frame wB index BRAGI_PID)
    as (_ & HdC & HcC & evC & HtC & HqC & HsC).
  destruct (bragi_get_property usbrecv wB index BRAGI_PID) as [pid wC].
  cbn [snd] in *. wsimpl.
  rewrite HdC, HdB, HcC, HcB, HtC, HtB. unfold wA. wsimpl.
  split; [reflexivity|]. split; [reflexivity|].
  exists (evB ++ evC ++ [ckb_info (SubkbIds (to_ushort vid) (to_ushort pid))]).
  split; [|split].
  - rewrite <- !app_assoc. reflexivity.
  - rewrite !forallb_app, HqB, HqC. reflexivity.
  - rewrite !sent_msgs_app, HsB, HsC. reflexivity.
Qed.

Lemma scanning_app (a b : list event) :
  scanning a -> scanning b -> scanning (a ++ b).
Proof. induction 1; intros Hb; cbn [app]; try constructor; auto. Qed.

Lemma find_free_slot_trace (kb i : nat) (indices : list nat) :
  forall w b w',
  find_free_slot usbrecv setupusb indices w kb i = (b, w') ->
  exists sc, scanning sc /\
    if b then
      exists index gets,
        trace w' = trace w ++ sc ++ [DTryLock index true; CUnlock kb]
                   ++ gets ++ [SetupUsb index] /\
        forallb quiet gets = true /\
        sent_msgs gets = [get_request BRAGI_VID; get_request BRAGI_PID] /\
        devmutex w' index = LockedHere /\
        childrenmutex w' kb = Unlocked
    else trace w' = trace w ++ sc /\ childrenmutex w' = childrenmutex w.
Proof.
  induction indices as [|index indices IH]; intros w b w' Hrun;
    cbn [find_free_slot] in Hrun.
  - injection Hrun as <- <-. exists []. split; [constructor|].
    rewrite app_nil_r. split; reflexivity.
  - unfold dmutex_trylock in Hrun.
    destruct (devmutex w index) eqn:Hm.
    + destruct (status _ >? DEV_STATUS_DISCONNECTED).
      * apply IH in Hrun. destruct Hrun as (sc & Hsc & Hres).
        exists (DTryLock index true :: DUnlock index :: sc).
        split; [constructor; exact Hsc|].
        destruct b.
        -- destruct Hres as (ix & gets & Htr & Hrest).
           exists ix, gets. split; [|exact Hrest].
           rewrite Htr. wsimpl. rewrite <- !app_assoc. reflexivity.
        -- destruct Hres as [Htr Hcm]. split; [|exact Hcm].
           rewrite Htr. wsimpl. rewrite <- !app_assoc. reflexivity.
      * injection Hrun as <- <-. exists []. split; [constructor|].
        set (w1 := emit _ _).
        destruct (claim_subdev_trace w1 kb i index)
          as (Hd & Hc & gets & Htr & Hq & Hs).
        exists index, gets. wsimpl. rewrite Htr, Hd, Hc. unfold w1. wsimpl.
        split; [rewrite <- !app_assoc; reflexivity|].
        split; [exact Hq|]. split; [exact Hs|].
        split; apply fn_lookup_insert.
    + apply IH in Hrun. destruct Hrun as (sc & Hsc & Hres).
      exists (DTryLock index false :: sc). split; [constructor; exact Hsc|].
      destruct b.
      * destruct Hres as (ix & gets & Htr & Hrest).
        exists ix, gets. split; [|exact Hrest].
        rewrite Htr. wsimpl. rewrite <- !app_assoc. reflexivity.
      * destruct Hres as [Htr Hcm]. split; [|exact Hcm].
        rewrite Htr. wsimpl. rewrite <- !app_assoc. reflexivity.
    + apply IH in Hrun. destruct Hrun as (sc & Hsc & Hres).
      exists (DTryLock index false :: sc). split; [constructor; exact Hsc|].
      destruct b.
      * destruct Hres as (ix & gets & Htr & Hrest).
        exists ix, gets. split; [|exact Hrest].
        rewrite Htr. wsimpl. rewrite <- !app_assoc. reflexivity.
      * destruct Hres as [Htr Hcm]. split; [|exact Hcm].
        rewrite Htr. wsimpl. rewrite <- !app_assoc. reflexivity.
Qed.

Lemma connect_sweep_trace (kb : nat) (prop : Z) (slots : list nat) :
  forall w b w',
  connect_sweep usbrecv setupusb slots w kb prop = (b, w') ->
  exists sc, scanning sc /\
    if b then
      exists index gets,
        trace w' = trace w ++ sc ++ [DTryLock index true; CUnlock kb]
                   ++ gets ++ [SetupUsb index] /\
        forallb quiet gets = true /\
        sent_msgs gets = [get_request BRAGI_VID; get_request BRAGI_PID] /\
        devmutex w' index = LockedHere /\
        childrenmutex w' kb = Unlocked
    else trace w' = trace w ++ sc /\ childrenmutex w' = childrenmutex w.
Proof.
  induction slots as [|i slots IH]; intros w b w' Hrun;
    cbn [connect_sweep] in Hrun.
  - injection Hrun as <- <-. exists []. split; [constructor|].
    rewrite app_nil_r. split; reflexivity.
  - destruct (presence_bit prop i =? 0); [apply IH; exact Hrun|].
    destruct (children (keyboard w kb) (i - 1)%nat); [apply IH; exact Hrun|].
    destruct (find_free_slot usbrecv setupusb (seq 1 (DEV_MAX - 1))
                (emit (ckb_info (FoundNew i)) w) kb i) as [[|] w2] eqn:Hfind;
      apply find_free_slot_trace in Hfind; destruct Hfind as (sc & Hsc & Hres).
    + injection Hrun as <- <-.
      exists (ckb_info (FoundNew i) :: sc). split; [constructor; exact Hsc|].
      destruct Hres as (ix & gets & Htr & Hrest).
      exists ix, gets. split; [|exact Hrest].
      rewrite Htr. wsimpl. rewrite <- !app_assoc. reflexivity.
    + apply IH in Hrun. destruct Hrun as (sc' & Hsc' & Hres').
      destruct Hres as [Htr Hcm].
      exists ((ckb_info (FoundNew i) :: sc) ++ ckb_err NoMoreFreeDevices :: sc').
      split.
      { apply scanning_app; [constructor; exact Hsc|constructor; exact Hsc']. }
      destruct b.
      * destruct Hres' as (ix & gets & Htr' & Hrest).
        exists ix, gets. split; [|exact Hrest].
        rewrite Htr'. wsimpl. rewrite Htr. wsimpl.
        rewrite <- !app_assoc. reflexivity.
      * destruct Hres' as [Htr' Hcm']. split.
        -- rewrite Htr'. wsimpl. rewrite Htr. wsimpl.
           rewrite <- !app_assoc. reflexivity.
        -- rewrite Hcm'. wsimpl. exact Hcm.
Qed.

Lemma disconnects_no_cmutex (kb : nat) (tr : list event) :
  disconnects kb tr -> List.filter is_cmutex_op tr = [].
Proof. induction 1; [reflexivity|]. cbn. assumption. Qed.

Lemma scanning_no_cmutex (tr : list event) :
  scanning tr -> List.filter is_cmutex_op tr = [].
Proof. induction 1; cbn; auto. Qed.

Lemma quiet_no_cmutex (tr : list event) :
  forallb quiet tr = true -> List.filter is_cmutex_op tr = [].
Proof.
  induction tr as [|e tr IH]; [reflexivity|]. cbn [forallb].
  intros Hq. apply andb_prop in Hq. destruct Hq as [He Htr].
  cbn [List.filter]. destruct e; cbn in He |- *; try discriminate; auto.
Qed.

(** C7. A run takes the children mutex of the dongle first and releases
    it once: at the end, or, when a slot is taken, right behind the
    successful trylock and before the first transaction.  A lifecycle
    mutex taken for an entry that is passed over is released at once; the
    one of the entry taken is still held when the run returns.  The run
    returns when the mutexes it waits for are free. *)
Theorem update_lock_discipline (w : world) (kb : nat) (prop : Z) :
  (childrenmutex w kb = Unlocked ->
   (forall j, children (keyboard w kb) j <> Some kb) ->
   (forall i d, (1 <= i <= 7)%nat -> presence_bit prop i = 0 ->
                children (keyboard w kb) (i - 1)%nat = Some d ->
                devmutex w d = Unlocked) ->
   exists w',
     bragi_update_dongle_subdevs usbrecv closeusb setupusb w kb prop = Done w') /\
  (forall w',
     bragi_update_dongle_subdevs usbrecv closeusb setupusb w kb prop = Done w' ->
     exists disc scans tail,
       trace w' = trace w ++ CLock kb :: disc ++ scans ++ tail /\
       disconnects kb disc /\
       scanning scans /\
       (tail = [CUnlock kb] \/
        exists index gets,
          tail = [DTryLock index true; CUnlock kb] ++ gets ++ [SetupUsb index] /\
          forallb quiet gets = true /\
          devmutex w' index = LockedHere) /\
       childrenmutex w' kb = Unlocked /\
       List.filter is_cmutex_op (CLock kb :: disc ++ scans ++ tail)
       = [CLock kb; CUnlock kb]).
Proof.
  unfold bragi_update_dongle_subdevs, cmutex_lock. split.
  - intros Hfree Hself Hdev. rewrite Hfree.
    set (w1 := emit _ _).
    destruct (disconnect_sweep_run kb prop 7 1 w1 ltac:(lia))
      as (w2 & tr & Hrun & _); [exact Hself| |].
    { intros i d Hi. apply Hdev. lia. }
    rewrite Hrun.
    destruct (connect_sweep usbrecv setupusb (seq 1 7) w2 kb prop) as [[|] w3];
      eexists; reflexivity.
  - intros w' Hrun. destruct (childrenmutex w kb); try discriminate.
    set (w1 := emit _ _) in Hrun.
    destruct (disconnect_sweep closeusb (seq 1 7) w1 kb prop) as [w2|w2] eqn:Hd;
      [|discriminate].
    apply disconnect_sweep_trace in Hd. destruct Hd as (disc & Htd & Hdis & Hcd).
    destruct (connect_sweep usbrecv setupusb (seq 1 7) w2 kb prop) as [b w3] eqn:Hc.
    apply connect_sweep_trace in Hc. destruct Hc as (sc & Hsc & Hres).
    pose proof (disconnects_no_cmutex kb disc Hdis) as Hf1.
    pose proof (scanning_no_cmutex sc Hsc) as Hf2.
    exists disc, sc. destruct b; injection Hrun as <-.
    + destruct Hres as (index & gets & Htr & Hq & _ & Hm & Hcm).
      exists ([DTryLock index true; CUnlock kb] ++ gets ++ [SetupUsb index]).
      split; [|split; [exact Hdis|split; [exact Hsc|split; [|split]]]].
      * rewrite Htr, Htd. unfold w1. wsimpl. rewrite <- !app_assoc. reflexivity.
      * right. exists index, gets. repeat split; assumption.
      * exact Hcm.
      * cbn [List.filter is_cmutex_op].
        rewrite !List.filter_app, Hf1, Hf2, (quiet_no_cmutex gets Hq). reflexivity.
    + destruct Hres as [Htr Hcm]. exists [CUnlock kb].
      split; [|split; [exact Hdis|split; [exact Hsc|split; [|split]]]].
      * wsimpl. rewrite Htr, Htd. unfold w1. wsimpl.
        rewrite <- !app_assoc. reflexivity.
      * left. reflexivity.
      * wsimpl. apply fn_lookup_insert.
      * cbn [List.filter is_cmutex_op].
        rewrite !List.filter_app, Hf1, Hf2. reflexivity.
Qed.

(** ** The connect sweep *)

Lemma same_pool_refl (w : world) : same_pool w w.
Proof. repeat split. Qed.

Lemma same_pool_trans (w1 w2 w3 : world) :
  same_pool w1 w2 -> same_pool w2 w3 -> same_pool w1 w3.
Proof.
  intros (Hk & Hd & Hc & Hu) (Hk' & Hd' & Hc' & Hu'). repeat split.
  - congruence.
  - intros d. rewrite Hd'. apply Hd.
  - congruence.
  - congruence.
Qed.

Lemma same_pool_emit (w : world) (e : event) : same_pool w (emit e w).
Proof. repeat split. Qed.

Lemma free_slot_same (w w' : world) (d : nat) :
  same_pool w w' -> free_slot w' d = free_slot w d.
Proof. intros (Hk & Hd & _). unfold free_slot. rewrite Hk, Hd. reflexivity. Qed.

Lemma scan_events_same (w w' : world) (indices : list nat) :
  same_pool w w' -> scan_events w' indices = scan_events w indices.
Proof.
  intros (_ & Hd & _). unfold scan_events.
  induction indices as [|d indices IH]; [reflexivity|].
  cbn [flat_map]. rewrite IH. unfold pass_events. rewrite Hd. reflexivity.
Qed.

Lemma no_slot_events_same (w w' : world) (kb : nat) (prop : Z) (slots : list nat) :
  same_pool w w' -> no_slot_events w' kb prop slots = no_slot_events w kb prop slots.
Proof.
  intros Hs. unfold no_slot_events.
  induction slots as [|i slots IH]; [reflexivity|].
  cbn [flat_map]. rewrite IH, (scan_events_same w w' _ Hs).
  destruct Hs as (-> & _). reflexivity.
Qed.

(** Entries that are not free are passed over and left as they were. *)
Lemma find_free_slot_app (kb i : nat) (pre : list nat) :
  forall w,
  (forall j, In j pre -> free_slot w j = false) ->
  exists w0,
    same_pool w w0 /\
    trace w0 = trace w ++ scan_events w pre /\
    forall rest,
      find_free_slot usbrecv setupusb (pre ++ rest) w kb i
      = find_free_slot usbrecv setupusb rest w0 kb i.
Proof.
  induction pre as [|d pre IH]; intros w Hpre.
  - exists w. split; [apply same_pool_refl|].
    split; [cbn; rewrite app_nil_r; reflexivity|]. reflexivity.
  - pose proof (Hpre d (or_introl eq_refl)) as Hd. unfold free_slot in Hd.
    assert (Hstep : exists w1,
      same_pool w w1 /\ trace w1 = trace w ++ pass_events w d /\
      forall rest,
        find_free_slot usbrecv setupusb ((d :: pre) ++ rest) w kb i
        = find_free_slot usbrecv setupusb (pre ++ rest) w1 kb i).
    { unfold pass_events. cbn [app find_free_slot]. unfold dmutex_trylock.
      destruct (devmutex w d) eqn:Hm.
      - exists (dmutex_unlock (emit (DTryLock d true)
                                    (with_devmutex d LockedHere w)) d).
        split; [|split].
        + repeat split. intros d'. wsimpl. apply relock_same. exact Hm.
        + wsimpl. rewrite <- app_assoc. reflexivity.
        + intros rest. wsimpl.
          apply negb_false_iff in Hd. rewrite Hd. reflexivity.
      - exists (emit (DTryLock d false) w).
        split; [apply same_pool_emit|]. split; reflexivity.
      - exists (emit (DTryLock d false) w).
        split; [apply same_pool_emit|]. split; reflexivity. }
    destruct Hstep as (w1 & Hs1 & Ht1 & Hrun1).
    destruct (IH w1) as (w0 & Hs0 & Ht0 & Hrun0).
    { intros j Hj. rewrite (free_slot_same w w1 j Hs1). apply Hpre. right. exact Hj. }
    exists w0. split; [exact (same_pool_trans _ _ _ Hs1 Hs0)|]. split.
    + rewrite Ht0, Ht1, (scan_events_same w w1 pre Hs1).
      unfold scan_events. cbn [flat_map]. rewrite <- app_assoc. reflexivity.
    + intros rest. rewrite Hrun1. apply Hrun0.
Qed.

Lemma connect_sweep_skip (kb : nat) (prop : Z) (pre rest : list nat) (w : world) :
  (forall j, In j pre -> wants prop (keyboard w kb) j = false) ->
  connect_sweep usbrecv setupusb (pre ++ rest) w kb prop
  = connect_sweep usbrecv setupusb rest w kb prop.
Proof.
  induction pre as [|j pre IH]; intros Hpre; [reflexivity|].
  cbn [app connect_sweep].
  pose proof (Hpre j (or_introl eq_refl)) as Hj. unfold wants in Hj.
  destruct (presence_bit prop j =? 0).
  - apply IH. intros j' Hj'. apply Hpre. right. exact Hj'.
  - destruct (children (keyboard w kb) (j - 1)%nat); [|discriminate].
    apply IH. intros j' Hj'. apply Hpre. right. exact Hj'.
Qed.

(** With no free slot in the pool every wanted sub-device is announced
    and reported, and the pool is left as it was. *)
Lemma connect_sweep_none (kb : nat) (prop : Z) (slots : list nat) :
  forall w,
  (forall j, (1 <= j < DEV_MAX)%nat -> free_slot w j = false) ->
  exists w',
    connect_sweep usbrecv setupusb slots w kb prop = (false, w') /\
    same_pool w w' /\
    trace w' = trace w ++ no_slot_events w kb prop slots.
Proof.
  induction slots as [|i slots IH]; intros w Hnone.
  - exists w. split; [reflexivity|]. split; [apply same_pool_refl|].
    cbn. rewrite app_nil_r. reflexivity.
  - cbn [connect_sweep]. unfold no_slot_events. cbn [flat_map].
    fold (no_slot_events w kb prop slots). unfold wants.
    destruct (presence_bit prop i =? 0); cbn [negb andb]; [apply IH; exact Hnone|].
    destruct (children (keyboard w kb) (i - 1)%nat); [apply IH; exact Hnone|].
    set (wF := emit (ckb_info (FoundNew i)) w).
    destruct (find_free_slot_app kb i (seq 1 (DEV_MAX - 1)) wF)
      as (w0 & Hs0 & Ht0 & Hrun0).
    { intros j Hj. apply in_seq in Hj.
      rewrite (free_slot_same w wF j (same_pool_emit w _)). apply Hnone. lia. }
    specialize (Hrun0 []). rewrite app_nil_r in Hrun0. rewrite Hrun0.
    cbn [find_free_slot].
    assert (Hs3 : same_pool w (emit (ckb_err NoMoreFreeDevices) w0)).
    { apply same_pool_trans with wF; [apply same_pool_emit|].
      apply same_pool_trans with w0; [exact Hs0|apply same_pool_emit]. }
    destruct (IH (emit (ckb_err NoMoreFreeDevices) w0)) as (w' & Hrun & Hs & Ht).
    { intros j Hj. rewrite (free_slot_same _ _ j Hs3). apply Hnone. exact Hj. }
    exists w'. split; [exact Hrun|].
    split; [exact (same_pool_trans _ _ _ Hs3 Hs)|].
    rewrite Ht, (no_slot_events_same _ _ kb prop slots Hs3).
    wsimpl. rewrite Ht0.
    rewrite (scan_events_same w wF _ (same_pool_emit w _)).
    unfold wF. wsimpl. rewrite <- !app_assoc. cbn [app].
    rewrite <- !app_assoc. reflexivity.
Qed.

Lemma claim_subdev_fields (w : world) (kb i index : nat) :
  claimed w (claim_subdev usbrecv w kb i index) kb i index.
Proof.
  unfold claimed, claim_subdev.
  set (wA := cmutex_unlock _ kb).
  destruct (get_property_frame wA index BRAGI_VID) as (HkB & _).
  destruct (bragi_get_property usbrecv wA index BRAGI_VID) as [vid wB].
  cbn [snd] in HkB.
  destruct (get_property_frame wB index BRAGI_PID) as (HkC & _).
  destruct (bragi_get_property usbrecv wB index BRAGI_PID) as [pid wC].
  cbn [snd] in HkC. wsimpl. rewrite HkC, HkB. unfold wA. wsimpl.
  clear HkB HkC wA wB wC.
  unfold insert, fn_insert.
  repeat split; intros;
    repeat match goal with
           | |- context [decide ?P] => destruct (decide P)
           end;
    subst; cbn; try reflexivity; try congruence;
    first [apply fn_lookup_insert | apply fn_lookup_insert_ne; congruence].
Qed.

Lemma seq_split (a n k : nat) :
  (k < n)%nat -> seq a n = seq a k ++ (a + k)%nat :: seq (S (a + k)) (n - S k).
Proof.
  intros Hk. replace n with (k + S (n - S k))%nat at 1 by lia.
  rewrite seq_app. reflexivity.
Qed.

(** Where Disconnected is the least status, an entry is free when its
    mutex can be taken and its status is Disconnected. *)
Lemma free_slot_disconnected (w : world) (index : nat) :
  DEV_STATUS_DISCONNECTED <= status (keyboard w index) ->
  free_slot w index = true <->
  devmutex w index = Unlocked /\
  status (keyboard w index) = DEV_STATUS_DISCONNECTED.
Proof.
  intros Hleast. unfold free_slot.
  destruct (devmutex w index).
  - destruct (Z.gtb_spec (status (keyboard w index)) DEV_STATUS_DISCONNECTED);
      cbn [negb]; split.
    + discriminate.
    + intros [_ Hs]. lia.
    + intros _. split; [reflexivity|lia].
    + reflexivity.
  - split; [discriminate|intros [Hm _]; discriminate Hm].
  - split; [discriminate|intros [Hm _]; discriminate Hm].
Qed.

Lemma free_slot_true (w : world) (index : nat) :
  free_slot w index = true ->
  devmutex w index = Unlocked /\
  (status (keyboard w index) >? DEV_STATUS_DISCONNECTED) = false.
Proof.
  unfold free_slot. destruct (devmutex w index); try discriminate.
  intros Hs. apply negb_true_iff in Hs. split; [reflexivity|exact Hs].
Qed.

(** C6. The connect sweep takes at most one slot.  For the first set bit
    [i] whose slot [i - 1] is empty, the first pool entry (of the indices
    1 .. DEV_MAX - 1 that the scan visits) whose lifecycle mutex can be
    taken and whose status is not beyond Disconnected becomes child [i]:
    Connecting, child of the dongle, with its packet size, in slot
    [i - 1]; the children mutex is released before the two property
    queries, [setupusb] comes last and the sweep is over.  With no free
    entry every wanted bit is announced and reported, one after the
    other, and the pool stays as it was. *)
Theorem connect_sweep_one_device (w : world) (kb : nat) (prop : Z) :
  (forall i index,
     (1 <= i <= 7)%nat ->
     wants prop (keyboard w kb) i = true ->
     (forall j, (1 <= j < i)%nat -> wants prop (keyboard w kb) j = false) ->
     (1 <= index < DEV_MAX)%nat ->
     free_slot w index = true ->
     (forall j, (1 <= j < index)%nat -> free_slot w j = false) ->
     exists wh gets,
       connect_sweep usbrecv setupusb (seq 1 7) w kb prop
       = (true, call_setupusb setupusb wh index) /\
       claimed w wh kb i index /\
       devmutex wh index = LockedHere /\
       (forall d, d <> index -> devmutex wh d = devmutex w d) /\
       childrenmutex wh kb = Unlocked /\
       trace wh = trace w ++ ckb_info (FoundNew i)
                  :: scan_events w (seq 1 (index - 1))
                  ++ [DTryLock index true; CUnlock kb] ++ gets /\
       forallb quiet gets = true /\
       sent_msgs gets = [get_request BRAGI_VID; get_request BRAGI_PID]) /\
  ((forall j, (1 <= j < DEV_MAX)%nat -> free_slot w j = false) ->
   exists w',
     connect_sweep usbrecv setupusb (seq 1 7) w kb prop = (false, w') /\
     same_pool w w' /\
     trace w' = trace w ++ no_slot_events w kb prop (seq 1 7)).
Proof.
  split; [|apply connect_sweep_none].
  intros i index Hi Hw Hfirst Hix Hfree Hbefore.
  rewrite (seq_split 1 7 (i - 1)) by lia.
  replace (1 + (i - 1))%nat with i by lia.
  rewrite connect_sweep_skip
    by (intros j Hj; apply in_seq in Hj; apply Hfirst; lia).
  cbn [connect_sweep]. unfold wants in Hw.
  destruct (presence_bit prop i =? 0); [discriminate|].
  destruct (children (keyboard w kb) (i - 1)%nat); [discriminate|]. clear Hw.
  set (wF := emit (ckb_info (FoundNew i)) w).
  pose proof (same_pool_emit w (ckb_info (FoundNew i))) as HsF. fold wF in HsF.
  rewrite (seq_split 1 (DEV_MAX - 1) (index - 1)) by lia.
  replace (1 + (index - 1))%nat with index by lia.
  destruct (find_free_slot_app kb i (seq 1 (index - 1)) wF)
    as (w0 & Hs0 & Ht0 & Hrun0).
  { intros j Hj. apply in_seq in Hj. rewrite (free_slot_same w wF j HsF).
    apply Hbefore. lia. }
  rewrite Hrun0. cbn [find_free_slot]. unfold dmutex_trylock.
  pose proof (same_pool_trans _ _ _ HsF Hs0) as Hs.
  rewrite <- (free_slot_same w w0 index Hs) in Hfree.
  apply free_slot_true in Hfree. destruct Hfree as [Hm Hst].
  rewrite Hm.
  set (w1 := emit (DTryLock index true) (with_devmutex index LockedHere w0)).
  change (keyboard w1 index) with (keyboard w0 index). rewrite Hst.
  destruct Hs as (Hk & Hd & Hc & Hu).
  destruct (claim_subdev_trace w1 kb i index) as (Hdh & Hch & gets & Hth & Hq & Hsm).
  pose proof (claim_subdev_fields w1 kb i index) as Hcl.
  exists (claim_subdev usbrecv w1 kb i index), gets.
  split; [reflexivity|]. split; [|split; [|split; [|split; [|split; [|split]]]]].
  - unfold claimed in *. change (keyboard w1) with (keyboard w0) in Hcl.
    rewrite Hk in Hcl. exact Hcl.
  - rewrite Hdh. unfold w1. wsimpl. apply fn_lookup_insert.
  - intros d Hne. rewrite Hdh. unfold w1. wsimpl.
    rewrite fn_lookup_insert_ne by congruence. apply Hd.
  - rewrite Hch. apply fn_lookup_insert.
  - rewrite Hth. unfold w1. wsimpl. rewrite Ht0.
    rewrite (scan_events_same w wF _ HsF). unfold wF. wsimpl.
    rewrite <- !app_assoc. reflexivity.
  - exact Hq.
  - exact Hsm.
Qed.

End Discovery.

(** * Further properties of the framer *)

Section FramerMore.
Context `{hdr : ckb_headers}.

Lemma ceil_div_mono (a b c : Z) : 0 < c -> a <= b -> ceil_div a c <= ceil_div b c.
Proof. intros Hc Hab. unfold ceil_div. apply Z.div_le_mono; lia. Qed.

Lemma continuation_count_mono (P L L' : Z) :
  4 <= P -> L <= L' -> continuation_count P L <= continuation_count P L'.
Proof.
  intros HP HL. unfold continuation_count.
  destruct (Z.ltb_spec (L - P + 7) 0), (Z.ltb_spec (L' - P + 7) 0); try lia.
  - apply ceil_div_nonneg; lia.
  - apply ceil_div_mono; lia.
Qed.

Lemma required_covers_buffer (P L : Z) :
  4 <= P -> L + 7 <= required_buffer_size P L /\ P <= required_buffer_size P L.
Proof.
  intros HP. rewrite required_buffer_size_count.
  pose proof (continuation_count_nonneg P L HP) as Hc0.
  unfold continuation_count in *.
  destruct (Z.ltb_spec (L - P + 7) 0) as [Hr|Hr]; [lia|].
  destruct (ceil_div_least (L - P + 7) (P - 3) ltac:(lia)) as [Hge _].
  nia.
Qed.

(** X1. The size computed holds the header and the payload, is at least one
    packet, and does not shrink when the payload grows. *)
Theorem buffer_size_holds_payload (kb : usbdevice) (L L' : Z) :
  4 <= out_ep_packet_size kb -> is_int (out_ep_packet_size kb) ->
  is_uint32 L -> is_uint32 L' -> L <= L' ->
  exists r r',
    bragi_calculate_buffer_size kb L = Some r /\
    bragi_calculate_buffer_size kb L' = Some r' /\
    L + 7 <= r /\ out_ep_packet_size kb <= r /\ r <= r'.
Proof.
  intros HP HPi HL HL' Hle.
  exists (required_buffer_size (out_ep_packet_size kb) L),
         (required_buffer_size (out_ep_packet_size kb) L').
  unfold bragi_calculate_buffer_size. rewrite !calculate_common_7 by assumption.
  split; [reflexivity|]. split; [reflexivity|].
  destruct (required_covers_buffer (out_ep_packet_size kb) L HP) as [H1 H2].
  split; [exact H1|]. split; [exact H2|].
  rewrite !required_buffer_size_count.
  pose proof (continuation_count_mono (out_ep_packet_size kb) L L' HP Hle).
  nia.
Qed.

Lemma chunk_events_sent_Forall (Q : list Z -> Prop) (u : transport) (kb : nat)
    (chunks : list (list Z)) :
  Forall Q chunks ->
  forall n response,
    Forall Q (sent_msgs (chunk_events u n kb response chunks).1.2).
Proof.
  induction 1 as [|c chunks Hc Hcs IH]; intros n response; cbn [chunk_events].
  - constructor.
  - destruct (u n kb c BRAGI_JUMBO_SIZE) as [r|].
    + specialize (IH (S n) (received response r)).
      destruct (chunk_events u (S n) kb (received response r) chunks)
        as [[ret evs] n'].
      cbn [fst snd] in *.
      change (UsbRecv kb c BRAGI_JUMBO_SIZE (Some r)
              :: report (received response r) ++ evs)
        with ([UsbRecv kb c BRAGI_JUMBO_SIZE (Some r)]
              ++ report (received response r) ++ evs).
      rewrite !sent_msgs_app.
      destruct (report_silent (received response r)) as (-> & _).
      constructor; assumption.
    + cbn. constructor; [exact Hc|constructor].
Qed.

Lemma write_events_sent_Forall (Q : list Z -> Prop) (u : transport) (n kb : nat)
    (pkt : list Z) (handle P L : Z) :
  Q (first_msg pkt handle L) ->
  Forall Q (map (continuation pkt P) (seq 1 (Z.to_nat (continuation_count P L)))) ->
  Forall Q (sent_msgs (write_events u n kb pkt handle P L).1.2).
Proof.
  intros Hf Hc. unfold write_events.
  destruct (u n kb (first_msg pkt handle L) BRAGI_JUMBO_SIZE) as [r|].
  - pose proof (chunk_events_sent_Forall Q u kb _ Hc (S n)
                  (received (array_init BRAGI_JUMBO_SIZE [0]) r)) as Hs.
    destruct (chunk_events u (S n) kb _ _) as [[ret evs] n'].
    cbn [fst snd] in *.
    change (sent_msgs (UsbRecv kb (first_msg pkt handle L) BRAGI_JUMBO_SIZE
                         (Some r) :: evs))
      with (first_msg pkt handle L :: sent_msgs evs).
    constructor; assumption.
  - cbn. constructor; [exact Hf|constructor].
Qed.

Lemma length_first_msg (pkt : list Z) (handle L : Z) :
  (7 <= length pkt)%nat -> length (first_msg pkt handle L) = length pkt.
Proof.
  intros Hp. unfold first_msg. rewrite !length_app, length_drop.
  cbn [length uint32_bytes]. lia.
Qed.

(** X2. In a debug build, and in a release build when the buffer has the
    required size, a call returns, whatever the transport answers: no
    store falls outside the buffer, and every pointer handed to the
    transport has at least [out_ep_packet_size] bytes of the buffer behind
    it. *)
Theorem write_to_handle_in_bounds (usbrecv : transport) (NDEBUG : bool)
    (fuel : nat) (w : world) (kb : nat) (pkt : list Z)
    (handle buf_len P L : Z) :
  out_ep_packet_size (keyboard w kb) = P ->
  7 <= P -> is_int P -> is_uint32 L ->
  NDEBUG = false \/ required_buffer_size P L <= buf_len ->
  buf_len <= Z.of_nat (length pkt) ->
  required_buffer_size P L / P <= Z.of_nat fuel ->
  exists ret pkt' w' tr,
    bragi_write_to_handle usbrecv NDEBUG fuel w kb pkt handle buf_len L
    = Some (Returned ret pkt' w') /\
    trace w' = trace w ++ tr /\
    Forall (fun out_msg => P <= Z.of_nat (length out_msg)) (sent_msgs tr).
Proof.
  intros HPeq HP HPi HL Hcheck Hbuf Hfuel. subst P.
  set (P := out_ep_packet_size (keyboard w kb)) in *.
  destruct (Z.le_gt_cases (required_buffer_size P L) buf_len) as [Hreq|Hsmall].
  - pose proof (continuation_count_nonneg P L ltac:(lia)) as Hc0.
    pose proof (required_buffer_size_count P L) as Hc.
    rewrite required_div in Hfuel by lia.
    destruct (write_to_handle_run usbrecv NDEBUG fuel w kb pkt handle buf_len L)
      as [pkt' Hrun]; try assumption; [fold P; lia|].
    fold P in Hrun.
    eexists _, pkt', _, _. split; [exact Hrun|]. split; [reflexivity|].
    apply write_events_sent_Forall.
    + rewrite length_first_msg by nia. nia.
    + apply Forall_forall. intros m Hm. apply in_map_iff in Hm.
      destruct Hm as (k & <- & Hk). apply in_seq in Hk.
      unfold continuation. rewrite length_app, length_drop. cbn [length]. nia.
  - destruct Hcheck as [->|Hreq]; [|lia].
    exists 0, pkt,
      (emit (ckb_fatal (BufferTooSmall (required_buffer_size P L))) w),
      [ckb_fatal (BufferTooSmall (required_buffer_size P L))].
    split; [|split; [reflexivity|]].
    + unfold bragi_write_to_handle, bragi_write_to_handle_common, buffer_check.
      fold P. rewrite calculate_common_7 by (fold P; (lia || assumption)).
      fold P. destruct (Z.gtb_spec (required_buffer_size P L) buf_len);
        [reflexivity|lia].
    + cbn. constructor.
Qed.

(** X3. A release build handed a buffer of fewer than 7 bytes stores the
    header outside of it. *)
Theorem write_to_handle_short_buffer (usbrecv : transport) (fuel : nat)
    (w : world) (kb : nat) (pkt : list Z) (handle buf_len L : Z) :
  (length pkt < 7)%nat ->
  bragi_write_to_handle usbrecv true fuel w kb pkt handle buf_len L
  = Some Undefined.
Proof.
  intros Hlen. unfold bragi_write_to_handle, bragi_write_to_handle_common.
  cbn [buffer_check].
  do 7 (destruct pkt as [|? pkt]; [reflexivity|]).
  cbn [length] in Hlen. lia.
Qed.

Lemma concat_windows (l : list Z) (a b c : nat) :
  concat (map (fun k => take b (drop (a + k * b) l)) (seq 0 c))
  = take (c * b) (drop a l).
Proof.
  induction c as [|c IH].
  - reflexivity.
  - rewrite seq_S, map_app, concat_app, IH. cbn [map concat Nat.add].
    rewrite app_nil_r.
    replace (a + c * b)%nat with (a + c * b)%nat by reflexivity.
    rewrite <- (drop_drop l (c * b) a).
    rewrite take_take_drop. f_equal. lia.
Qed.

(** A write whose transactions all get a response: what was handed to the
    transport. *)
Lemma write_to_handle_all_sent (usbrecv : transport) (NDEBUG : bool)
    (fuel : nat) (w : world) (kb : nat) (pkt : list Z)
    (handle buf_len P L : Z) :
  out_ep_packet_size (keyboard w kb) = P ->
  7 <= P -> is_int P -> is_uint32 L ->
  required_buffer_size P L <= buf_len ->
  buf_len <= Z.of_nat (length pkt) ->
  required_buffer_size P L / P <= Z.of_nat fuel ->
  (forall n m len, usbrecv n kb m len <> None) ->
  exists pkt' w' tr,
    bragi_write_to_handle usbrecv NDEBUG fuel w kb pkt handle buf_len L
    = Some (Returned 0 pkt' w') /\
    trace w' = trace w ++ tr /\
    sent_msgs tr
    = first_msg pkt handle L
      :: map (continuation pkt P) (seq 1 (Z.to_nat (continuation_count P L))).
Proof.
  intros HPeq HP HPi HL Hreq Hbuf Hfuel Hok. subst P.
  set (P := out_ep_packet_size (keyboard w kb)) in *.
  pose proof (continuation_count_nonneg P L ltac:(lia)) as Hc0.
  rewrite required_div in Hfuel by lia.
  destruct (write_to_handle_run usbrecv NDEBUG fuel w kb pkt handle buf_len L)
    as [pkt' Hrun]; try assumption; [fold P; lia|].
  fold P in Hrun.
  destruct (write_events_shape usbrecv (usb_count w) kb pkt handle P L)
    as [_ [(H0 & _ & Hsent)|(H1 & evs0 & m & Hev & Hnf)]].
  - eexists pkt', _, _. rewrite H0 in Hrun. split; [exact Hrun|].
    split; [reflexivity|exact Hsent].
  - exfalso. unfold write_events in Hev.
    destruct (usbrecv (usb_count w) kb (first_msg pkt handle L) BRAGI_JUMBO_SIZE)
      as [r|] eqn:E; [|apply Hok in E; exact E].
    pose proof (chunk_events_all_ok usbrecv kb
                  (map (continuation pkt P)
                       (seq 1 (Z.to_nat (continuation_count P L))))
                  Hok (S (usb_count w))
                  (received (array_init BRAGI_JUMBO_SIZE [0]) r)) as Hret.
    unfold write_events in H1. rewrite E in H1.
    destruct (chunk_events usbrecv (S (usb_count w)) kb _ _) as [[ret evs] n'].
    cbn [fst snd] in *. lia.
Qed.

(** X4. Round trip.  When every packet of a write gets a response, what the
    receiver puts together from the packets on the wire starts with the
    [L] payload bytes that the caller placed at offset 7 of the buffer. *)
Theorem write_to_handle_payload (usbrecv : transport) (NDEBUG : bool)
    (fuel : nat) (w : world) (kb : nat) (pkt : list Z)
    (handle buf_len P L : Z) :
  out_ep_packet_size (keyboard w kb) = P ->
  7 <= P -> is_int P -> is_uint32 L ->
  required_buffer_size P L <= buf_len ->
  buf_len <= Z.of_nat (length pkt) ->
  required_buffer_size P L / P <= Z.of_nat fuel ->
  (forall n m len, usbrecv n kb m len <> None) ->
  exists pkt' w' tr,
    bragi_write_to_handle usbrecv NDEBUG fuel w kb pkt handle buf_len L
    = Some (Returned 0 pkt' w') /\
    trace w' = trace w ++ tr /\
    take (Z.to_nat L) (reassemble (map (on_wire P) (sent_msgs tr)))
    = take (Z.to_nat L) (drop 7 pkt) /\
    length (take (Z.to_nat L) (drop 7 pkt)) = Z.to_nat L.
Proof.
  intros HPeq HP HPi HL Hreq Hbuf Hfuel Hok.
  destruct (write_to_handle_all_sent usbrecv NDEBUG fuel w kb pkt handle
              buf_len P L HPeq HP HPi HL Hreq Hbuf Hfuel Hok)
    as (pkt' & w' & tr & Hrun & Htr & Hsent).
  exists pkt', w', tr. split; [exact Hrun|]. split; [exact Htr|].
  pose proof (continuation_count_nonneg P L ltac:(lia)) as Hc0.
  destruct (required_covers_buffer P L ltac:(lia)) as [Hcov _].
  unfold is_uint32 in HL.
  set (c := Z.to_nat (continuation_count P L)) in *.
  assert (Hcover : (Z.to_nat L <= Z.to_nat (P - 7) + c * Z.to_nat (P - 3))%nat).
  { pose proof (loop_guard_iff P L (continuation_count P L) ltac:(lia) Hc0) as Hg.
    assert (Hnot : ~ continuation_count P L * (P - 3) + P < L + 7) by (rewrite Hg; lia).
    unfold c. nia. }
  split.
  - rewrite Hsent. cbn [map reassemble].
    rewrite on_wire_first by exact HP. cbn [wire_packet].
    rewrite map_map, map_map.
    rewrite <- (fmap_add_seq 1 0). change (fmap ?f ?l) with (map f l).
    rewrite map_map.
    rewrite (map_ext _ (fun k => take (Z.to_nat (P - 3))
                                   (drop (Z.to_nat P + k * Z.to_nat (P - 3)) pkt))).
    2:{ intros k. cbn [Nat.add].
        rewrite (on_wire_continuation pkt handle P L k) by lia.
        cbn [wire_packet app drop]. rewrite drop_0. do 2 f_equal.
        apply Nat2Z.inj. rewrite Nat2Z.inj_add, Nat2Z.inj_mul.
        rewrite !Z2Nat.id by lia. lia. }
    rewrite concat_windows.
    change ([BRAGI_MAGIC; BRAGI_WRITE_DATA; handle] ++ uint32_bytes L
            ++ take (Z.to_nat (P - 7)) (drop 7 pkt))
      with ([BRAGI_MAGIC; BRAGI_WRITE_DATA; handle; Z.land L 255;
             Z.land (Z.shiftr L 8) 255; Z.land (Z.shiftr L 16) 255;
             Z.land (Z.shiftr L 24) 255]
            ++ take (Z.to_nat (P - 7)) (drop 7 pkt)).
    rewrite drop_app_length' by reflexivity.
    replace (drop (Z.to_nat P) pkt)
      with (drop (Z.to_nat (P - 7)) (drop 7 pkt))
      by (rewrite drop_drop; f_equal; lia).
    rewrite take_take_drop, take_take. f_equal. lia.
  - rewrite length_take, length_drop. lia.
Qed.

(** ** What a write does to the buffer *)

Lemma store_frame (buf : list Z) (off v : Z) (buf' : list Z) :
  store buf off v = Some buf' ->
  length buf' = length buf /\
  forall j : nat, Z.of_nat j <> off -> buf' !! j = buf !! j.
Proof.
  unfold store. destruct (Z.leb_spec 0 off) as [H0|H0]; [|discriminate].
  destruct (off <? Z.of_nat (length buf)); [|discriminate].
  cbn [andb]. intros [= <-].
  split; [apply length_insert|].
  intros j Hj. apply list_lookup_insert_ne. lia.
Qed.

Lemma store_seq_frame (src : list Z) :
  forall (buf : list Z) (off : Z) (buf' : list Z),
  store_seq buf off src = Some buf' ->
  length buf' = length buf /\
  forall j : nat,
    ~ (off <= Z.of_nat j < off + Z.of_nat (length src)) -> buf' !! j = buf !! j.
Proof.
  induction src as [|b src IH]; intros buf off buf' H; cbn [store_seq] in H.
  - injection H as <-. split; [reflexivity|]. intros; reflexivity.
  - destruct (store buf off b) as [buf1|] eqn:E; [|discriminate].
    apply store_frame in E. destruct E as [El Ef].
    apply IH in H. destruct H as [Hl Hf].
    split; [congruence|]. intros j Hj. cbn [length] in Hj.
    rewrite Hf by lia. apply Ef. lia.
Qed.

Lemma continue_write_frame (usbrecv : transport) (kb : nat) (L P : Z)
    (fuel : nat) :
  forall (w : world) (pkt response : list Z) (off ret : Z) (pkt' : list Z)
         (w' : world),
  out_ep_packet_size (keyboard w kb) = P ->
  continue_write usbrecv fuel w kb pkt response off L 7
  = Some (Returned ret pkt' w') ->
  length pkt' = length pkt /\
  forall j : nat,
    (forall q, 1 <= q ->
               ~ (off + q * (P - 3) <= Z.of_nat j < off + q * (P - 3) + 3)) ->
    pkt' !! j = pkt !! j.
Proof.
  induction fuel as [|fuel IH]; intros w pkt response off ret pkt' w' HP Hrun;
    cbn [continue_write] in Hrun; [discriminate|].
  rewrite HP in Hrun.
  destruct (off + P <? L + 7).
  2:{ injection Hrun as _ <- _. split; [reflexivity|]. intros; reflexivity. }
  destruct (store_seq pkt (off + P - 3)
              [BRAGI_MAGIC; BRAGI_CONTINUE_WRITE; BRAGI_LIGHTING_HANDLE])
    as [pkt1|] eqn:Es; [|discriminate].
  apply store_seq_frame in Es. destruct Es as [Hl1 Hf1]. cbn [length] in Hf1.
  unfold usb_transact in Hrun.
  destruct (usbrecv (usb_count w) kb _ BRAGI_JUMBO_SIZE) as [r|].
  - apply IH in Hrun.
    + destruct Hrun as [Hl Hf]. split; [congruence|]. intros j Hj.
      rewrite Hf; [apply Hf1; specialize (Hj 1 ltac:(lia)); lia|].
      intros q Hq. specialize (Hj (q + 1) ltac:(lia)). lia.
    + rewrite (proj1 (check_success_frame _ _ _)). exact HP.
  - injection Hrun as _ <- _. split; [exact Hl1|]. intros j Hj.
    apply Hf1. specialize (Hj 1 ltac:(lia)). lia.
Qed.

(** X5. A call that returns has written to the buffer only at its first 7
    bytes and at the 3 bytes in front of a continuation: the buffer keeps
    its length, and every other byte is as the caller left it. *)
Theorem write_to_handle_buffer_frame (usbrecv : transport) (NDEBUG : bool)
    (fuel : nat) (w : world) (kb : nat) (pkt : list Z) (handle buf_len L : Z)
    (ret : Z) (pkt' : list Z) (w' : world) :
  bragi_write_to_handle usbrecv NDEBUG fuel w kb pkt handle buf_len L
  = Some (Returned ret pkt' w') ->
  length pkt' = length pkt /\
  forall j : nat, (7 <= j)%nat ->
    (forall q, 1 <= q ->
       ~ (q * (out_ep_packet_size (keyboard w kb) - 3) <= Z.of_nat j
          < q * (out_ep_packet_size (keyboard w kb) - 3) + 3)) ->
    pkt' !! j = pkt !! j.
Proof.
  unfold bragi_write_to_handle, bragi_write_to_handle_common. intros Hrun.
  destruct (buffer_check NDEBUG (keyboard w kb) buf_len L 7); [| |discriminate].
  - destruct (store_seq pkt 0 [BRAGI_MAGIC; BRAGI_WRITE_DATA; handle])
      as [pkt0|] eqn:E0; cbn [mbind option_bind] in Hrun; [|discriminate].
    unfold memcpy in Hrun.
    destruct (store_seq pkt0 3 (uint32_bytes L)) as [pkt1|] eqn:E1;
      [|discriminate].
    apply store_seq_frame in E0, E1.
    destruct E0 as [Hl0 Hf0], E1 as [Hl1 Hf1]. cbn [length uint32_bytes] in *.
    assert (Hhead : forall j : nat, (7 <= j)%nat -> pkt1 !! j = pkt !! j).
    { intros j Hj. rewrite Hf1 by lia. apply Hf0. lia. }
    unfold usb_transact in Hrun.
    destruct (usbrecv (usb_count w) kb pkt1 BRAGI_JUMBO_SIZE) as [r|].
    + apply (continue_write_frame usbrecv kb L
               (out_ep_packet_size (keyboard w kb))) in Hrun; [|reflexivity].
      destruct Hrun as [Hl Hf]. split; [congruence|]. intros j Hj Hwin.
      rewrite Hf; [apply Hhead; exact Hj|].
      intros q Hq. specialize (Hwin q Hq). lia.
    + injection Hrun as _ <- _. split; [congruence|]. intros j Hj _.
      apply Hhead. exact Hj.
  - injection Hrun as _ <- _. split; [reflexivity|]. intros; reflexivity.
Qed.

(** ** A packet size of 3 *)

Lemma continue_write_spin (usbrecv : transport) (kb : nat) (L : Z) (fuel : nat) :
  0 <= L ->
  (forall n m len, usbrecv n kb m len <> None) ->
  forall (w : world) (pkt response : list Z),
  out_ep_packet_size (keyboard w kb) = 3 ->
  (3 <= length pkt)%nat ->
  continue_write usbrecv fuel w kb pkt response 0 L 7 = None.
Proof.
  intros HL Hok.
  induction fuel as [|fuel IH]; intros w pkt response HP Hlen;
    cbn [continue_write]; [reflexivity|].
  rewrite HP. change (0 + 3 - 3) with 0. change (0 + 3) with 3.
  destruct (Z.ltb_spec 3 (L + 7)) as [_|Hge]; [|lia].
  destruct (store_seq pkt 0
              [BRAGI_MAGIC; BRAGI_CONTINUE_WRITE; BRAGI_LIGHTING_HANDLE])
    as [pkt1|] eqn:Es.
  2:{ rewrite store_seq_splice in Es by (cbn [length]; lia). discriminate. }
  apply store_seq_frame in Es. destruct Es as [Hl1 _].
  unfold usb_transact.
  destruct (usbrecv (usb_count w) kb _ BRAGI_JUMBO_SIZE) as [r|] eqn:Er;
    [|exfalso; exact (Hok _ _ _ Er)].
  apply IH.
  - rewrite (proj1 (check_success_frame _ _ _)). exact HP.
  - lia.
Qed.

(** X6. With a packet size of 3 a continuation has no room for payload.  A
    debug build divides by zero when it computes the size; a release build
    whose transport keeps answering never leaves the loop, sending from
    offset 0 again and again. *)
Theorem write_to_handle_packet_size_3 (usbrecv : transport) (w : world)
    (kb : nat) (pkt : list Z) (handle buf_len L : Z) :
  out_ep_packet_size (keyboard w kb) = 3 ->
  is_uint32 L ->
  (7 <= length pkt)%nat ->
  (forall n m len, usbrecv n kb m len <> None) ->
  bragi_calculate_buffer_size (keyboard w kb) L = None /\
  (forall fuel,
     bragi_write_to_handle usbrecv false fuel w kb pkt handle buf_len L
     = Some Undefined) /\
  (forall fuel,
     bragi_write_to_handle usbrecv true fuel w kb pkt handle buf_len L = None).
Proof.
  intros HP HL Hlen Hok. unfold is_uint32 in HL.
  assert (Hdiv : bragi_calculate_buffer_size_common (keyboard w kb) L 7 = None).
  { unfold bragi_calculate_buffer_size_common. rewrite HP.
    destruct (Z.leb_spec 0 (L - 3 + 7)); [reflexivity|lia]. }
  split; [exact Hdiv|]. split; intros fuel;
    unfold bragi_write_to_handle, bragi_write_to_handle_common, buffer_check.
  - rewrite Hdiv. reflexivity.
  - rewrite header_store by (reflexivity || exact Hlen).
    unfold usb_transact.
    destruct (usbrecv (usb_count w) kb _ BRAGI_JUMBO_SIZE) as [r|] eqn:Er;
      [|exfalso; exact (Hok _ _ _ Er)].
    apply continue_write_spin; [lia|exact Hok|exact HP|].
    rewrite !length_app, length_drop. cbn [length uint32_bytes]. lia.
Qed.

End FramerMore.

(** * Further properties of the codec *)

Section CodecMore.
Context `{hdr : ckb_headers}.

(** X7. "Error when return value < 0": [bragi_get_property] returns a negative
    value exactly when no response came or the status byte is not 0, and a
    16 bit value otherwise; [bragi_set_property] returns 0 exactly when a
    response with status 0 came, and -1 or -2 otherwise. *)
Theorem property_result_sign (usbrecv : transport) (w : world) (kb : nat)
    (prop val : Z) :
  is_ushort val ->
  (forall r,
     usbrecv (usb_count w) kb (get_request prop) BRAGI_JUMBO_SIZE = Some r ->
     is_uchar (byte_at r 3) /\ is_uchar (byte_at r 4)) ->
  ((bragi_get_property usbrecv w kb prop).1 < 0 <->
   usbrecv (usb_count w) kb (get_request prop) BRAGI_JUMBO_SIZE = None \/
   exists r,
     usbrecv (usb_count w) kb (get_request prop) BRAGI_JUMBO_SIZE = Some r /\
     byte_at r 2 <> 0) /\
  - 2 <= (bragi_get_property usbrecv w kb prop).1 < 2 ^ 16 /\
  ((bragi_set_property usbrecv w kb prop val).1 = 0 <->
   exists r,
     usbrecv (usb_count w) kb (set_request prop val) BRAGI_JUMBO_SIZE = Some r /\
     byte_at r 2 = 0) /\
  - 2 <= (bragi_set_property usbrecv w kb prop val).1 <= 0.
Proof.
  intros Hval Hbytes.
  unfold bragi_get_property, bragi_set_property, usb_transact.
  rewrite (set_request_bytes prop val Hval).
  change (array_init BRAGI_JUMBO_SIZE [BRAGI_MAGIC; BRAGI_GET; prop; 0])
    with (get_request prop).
  split; [|split; [|split]].
  - destruct (usbrecv (usb_count w) kb (get_request prop) BRAGI_JUMBO_SIZE)
      as [r|] eqn:E; cbn [fst].
    + destruct (Hbytes r eq_refl) as [H3 H4]. unfold is_uchar in *.
      destruct (Z.eqb_spec (byte_at r 2) 0) as [E2|E2]; cbn [fst].
      * unfold to_ushort. rewrite (Z.mod_small (byte_at r 4)) by lia.
        rewrite lor_bytes by lia. split; [lia|].
        intros [Hn|(r' & Hr' & Hst)]; [discriminate|].
        injection Hr' as <-. contradiction.
      * split; [|lia]. intros _. right. exists r. split; [reflexivity|exact E2].
    + split; [|lia]. intros _. left. reflexivity.
  - destruct (usbrecv (usb_count w) kb (get_request prop) BRAGI_JUMBO_SIZE)
      as [r|] eqn:E; cbn [fst]; [|lia].
    destruct (Hbytes r eq_refl) as [H3 H4]. unfold is_uchar in *.
    destruct (byte_at r 2 =? 0); cbn [fst]; [|lia].
    unfold to_ushort. rewrite (Z.mod_small (byte_at r 4)) by lia.
    rewrite lor_bytes by lia. lia.
  - destruct (usbrecv (usb_count w) kb (set_request prop val) BRAGI_JUMBO_SIZE)
      as [r|]; cbn [fst].
    + destruct (Z.eqb_spec (byte_at r 2) 0) as [E2|E2]; cbn [fst].
      * split; [|reflexivity]. intros _. exists r. split; [reflexivity|exact E2].
      * split; [discriminate|]. intros (r' & Hr' & Hst).
        injection Hr' as <-. contradiction.
    + split; [discriminate|]. intros (r' & Hr' & _). discriminate.
  - destruct (usbrecv (usb_count w) kb (set_request prop val) BRAGI_JUMBO_SIZE)
      as [r|]; cbn [fst]; [|lia].
    destruct (byte_at r 2 =? 0); cbn [fst]; lia.
Qed.

(** X8. Round trip of a value.  When a response carries, at bytes 3 and 4, the
    two bytes that [bragi_set_property] put at bytes 4 and 5 of its request
    for [val], [bragi_get_property] returns [val]. *)
Theorem set_get_roundtrip (u u' : transport) (w w' : world) (kb kb' : nat)
    (prop prop' val : Z) (req r : list Z) :
  is_ushort val ->
  sent_msgs (trace (bragi_set_property u w kb prop val).2)
  = sent_msgs (trace w) ++ [req] ->
  u' (usb_count w') kb' (get_request prop') BRAGI_JUMBO_SIZE = Some r ->
  byte_at r 2 = 0 ->
  byte_at r 3 = byte_at req 4 ->
  byte_at r 4 = byte_at req 5 ->
  (bragi_get_property u' w' kb' prop').1 = val.
Proof.
  intros Hval Hreq Hr Hst H3 H4.
  assert (Hreq' : req = set_request prop val).
  { unfold bragi_set_property, usb_transact in Hreq.
    rewrite (set_request_bytes prop val Hval) in Hreq.
    destruct (u (usb_count w) kb (set_request prop val) BRAGI_JUMBO_SIZE)
      as [r0|]; [destruct (byte_at r0 2 =? 0)|]; cbn [snd trace emit] in Hreq;
      rewrite ?sent_msgs_app in Hreq; cbn in Hreq;
      rewrite ?app_nil_r in Hreq;
      apply app_inv_head in Hreq; injection Hreq as Hreq; symmetry; exact Hreq. }
  subst req. unfold set_request in H3, H4. cbn in H3, H4.
  unfold bragi_get_property, usb_transact.
  change (array_init BRAGI_JUMBO_SIZE [BRAGI_MAGIC; BRAGI_GET; prop'; 0])
    with (get_request prop').
  rewrite Hr, Hst. cbn [Z.eqb fst]. rewrite H3, H4.
  unfold is_ushort in Hval. change (2 ^ 16) with 65536 in Hval.
  unfold to_ushort. rewrite (Z.mod_small (val / 256))
    by (change (2 ^ 16) with 65536; Z.div_mod_to_equations; lia).
  rewrite lor_bytes
    by (change (2 ^ 8) with 256; Z.div_mod_to_equations; lia).
  Z.div_mod_to_equations. lia.
Qed.

End CodecMore.

(** * Further properties of the discovery *)

Section DiscoveryMore.
Context `{hdr : ckb_headers}.
Variable usbrecv : transport.
Variable closeusb : nat -> usbdevice -> usbdevice.
Variable setupusb : nat -> usbdevice -> usbdevice.

Ltac wsimpl :=
  unfold cmutex_unlock, dmutex_unlock, call_setupusb, emit, with_dev,
         with_devmutex, with_childrenmutex in *;
  cbn [keyboard devmutex childrenmutex usb_count trace] in *.

(** ** Mutexes held elsewhere *)

Lemma respects_refl (kb : nat) (w : world) : respects kb w w.
Proof. intros d Hd. split; [exact Hd|reflexivity]. Qed.

Lemma respects_trans (kb : nat) (w1 w2 w3 : world) :
  respects kb w1 w2 -> respects kb w2 w3 -> respects kb w1 w3.
Proof.
  intros H12 H23 d Hd. destruct (H12 d Hd) as [Hm Hk].
  destruct (H23 d Hm) as [Hm' Hk']. split; [exact Hm'|].
  intros Hne. rewrite (Hk' Hne). apply Hk. exact Hne.
Qed.

Lemma respects_same_pool (kb : nat) (w w' : world) :
  same_pool w w' -> respects kb w w'.
Proof.
  intros (Hk & Hd & _) d Hl. split; [rewrite Hd; exact Hl|].
  intros _. rewrite Hk. reflexivity.
Qed.

Lemma disconnect_sweep_respects (kb : nat) (prop : Z) (slots : list nat) :
  forall w,
  match disconnect_sweep closeusb slots w kb prop with
  | Done w' | Blocked w' => respects kb w w'
  end.
Proof.
  induction slots as [|i slots IH]; intros w; cbn [disconnect_sweep].
  - apply respects_refl.
  - destruct (negb (presence_bit prop i =? 0)); [apply IH|].
    destruct (children (keyboard w kb) (i - 1)%nat) as [subkb|]; [|apply IH].
    unfold dmutex_lock. destruct (devmutex w subkb) eqn:Hm;
      try apply respects_refl.
    set (w5 := dmutex_unlock _ subkb).
    assert (H5 : respects kb w w5).
    { intros d Hd. assert (Hne : subkb <> d) by congruence.
      unfold w5. wsimpl. split.
      - rewrite !fn_lookup_insert_ne by exact Hne. exact Hd.
      - intros Hkb. rewrite !fn_lookup_insert_ne by congruence. reflexivity. }
    specialize (IH w5).
    destruct (disconnect_sweep closeusb slots w5 kb prop);
      exact (respects_trans kb _ _ _ H5 IH).
Qed.

Lemma claim_respects (kb i index : nat) (w : world) :
  devmutex w index = Unlocked ->
  respects kb w
    (call_setupusb setupusb
       (claim_subdev usbrecv
          (emit (DTryLock index true) (with_devmutex index LockedHere w))
          kb i index) index).
Proof.
  intros Hm d Hd. assert (Hne : index <> d) by congruence.
  set (w1 := emit _ _).
  destruct (claim_subdev_trace usbrecv w1 kb i index) as (Hdm & _).
  destruct (claim_subdev_fields usbrecv w1 kb i index)
    as (_ & _ & _ & _ & _ & _ & _ & _ & Hother).
  wsimpl. split.
  - rewrite Hdm. unfold w1. wsimpl.
    rewrite fn_lookup_insert_ne by exact Hne. exact Hd.
  - intros Hkb. rewrite fn_lookup_insert_ne by exact Hne.
    rewrite Hother by congruence. reflexivity.
Qed.

(** What a scan that takes a slot took, and what one that takes none
    leaves. *)
Lemma find_free_slot_taken (kb i : nat) (indices : list nat) :
  forall w b w',
  find_free_slot usbrecv setupusb indices w kb i = (b, w') ->
  if b then
    exists index w0,
      In index indices /\ free_slot w index = true /\ same_pool w w0 /\
      w' = call_setupusb setupusb
             (claim_subdev usbrecv
                (emit (DTryLock index true) (with_devmutex index LockedHere w0))
                kb i index) index
  else same_pool w w'.
Proof.
  induction indices as [|index indices IH]; intros w b w' Hrun;
    cbn [find_free_slot] in Hrun.
  - injection Hrun as <- <-. apply same_pool_refl.
  - assert (Hpass : forall w1,
              same_pool w w1 -> free_slot w index = false ->
              find_free_slot usbrecv setupusb indices w1 kb i = (b, w') ->
              if b then
                exists index0 w0,
                  In index0 (index :: indices) /\ free_slot w index0 = true /\
                  same_pool w w0 /\
                  w' = call_setupusb setupusb
                         (claim_subdev usbrecv
                            (emit (DTryLock index0 true)
                                  (with_devmutex index0 LockedHere w0))
                            kb i index0) index0
              else same_pool w w').
    { intros w1 Hs1 _ Hrun1. apply IH in Hrun1. destruct b.
      - destruct Hrun1 as (ix & w0 & Hin & Hfree & Hs0 & Hw').
        exists ix, w0. split; [right; exact Hin|].
        split; [rewrite <- (free_slot_same w w1 ix Hs1); exact Hfree|].
        split; [exact (same_pool_trans _ _ _ Hs1 Hs0)|exact Hw'].
      - exact (same_pool_trans _ _ _ Hs1 Hrun1). }
    unfold dmutex_trylock in Hrun. unfold free_slot in Hpass.
    destruct (devmutex w index) eqn:Hm.
    + change (keyboard (emit (DTryLock index true)
                          (with_devmutex index LockedHere w)) index)
        with (keyboard w index) in Hrun.
      destruct (status (keyboard w index) >? DEV_STATUS_DISCONNECTED) eqn:Hst.
      * apply (Hpass (dmutex_unlock (emit (DTryLock index true)
                                       (with_devmutex index LockedHere w)) index));
          [|reflexivity|exact Hrun].
        repeat split. intros d. wsimpl. apply relock_same. exact Hm.
      * injection Hrun as <- <-. exists index, w.
        split; [left; reflexivity|]. split.
        { unfold free_slot. rewrite Hm, Hst. reflexivity. }
        split; [apply same_pool_refl|reflexivity].
    + apply (Hpass (emit (DTryLock index false) w));
        [apply same_pool_emit|reflexivity|exact Hrun].
    + apply (Hpass (emit (DTryLock index false) w));
        [apply same_pool_emit|reflexivity|exact Hrun].
Qed.

Lemma claimed_same_pool (w w0 wh : world) (kb i index : nat) :
  same_pool w w0 -> claimed w0 wh kb i index -> claimed w wh kb i index.
Proof. intros (Hk & _). unfold claimed. rewrite Hk. trivial. Qed.

Lemma connect_sweep_taken (kb : nat) (prop : Z) (slots : list nat) :
  forall w b w',
  connect_sweep usbrecv setupusb slots w kb prop = (b, w') ->
  if b then
    exists i index w0,
      In i slots /\ wants prop (keyboard w kb) i = true /\
      (1 <= index < DEV_MAX)%nat /\ free_slot w index = true /\
      same_pool w w0 /\
      w' = call_setupusb setupusb
             (claim_subdev usbrecv
                (emit (DTryLock index true) (with_devmutex index LockedHere w0))
                kb i index) index
  else same_pool w w'.
Proof.
  induction slots as [|i slots IH]; intros w b w' Hrun;
    cbn [connect_sweep] in Hrun.
  - injection Hrun as <- <-. apply same_pool_refl.
  - assert (Hnext : forall w1,
              same_pool w w1 ->
              connect_sweep usbrecv setupusb slots w1 kb prop = (b, w') ->
              if b then
                exists i0 index w0,
                  In i0 (i :: slots) /\ wants prop (keyboard w kb) i0 = true /\
                  (1 <= index < DEV_MAX)%nat /\ free_slot w index = true /\
                  same_pool w w0 /\
                  w' = call_setupusb setupusb
                         (claim_subdev usbrecv
                            (emit (DTryLock index true)
                                  (with_devmutex index LockedHere w0))
                            kb i0 index) index
              else same_pool w w').
    { intros w1 Hs1 Hrun1. apply IH in Hrun1. destruct b.
      - destruct Hrun1 as (i0 & ix & w0 & Hin & Hw & Hix & Hfree & Hs0 & Hw').
        exists i0, ix, w0. split; [right; exact Hin|].
        split; [destruct Hs1 as (Hk & _); rewrite <- Hk; exact Hw|].
        split; [exact Hix|].
        split; [rewrite <- (free_slot_same w w1 ix Hs1); exact Hfree|].
        split; [exact (same_pool_trans _ _ _ Hs1 Hs0)|exact Hw'].
      - exact (same_pool_trans _ _ _ Hs1 Hrun1). }
    destruct (presence_bit prop i =? 0) eqn:Hbit;
      [apply (Hnext w (same_pool_refl w) Hrun)|].
    destruct (children (keyboard w kb) (i - 1)%nat) eqn:Hch;
      [apply (Hnext w (same_pool_refl w) Hrun)|].
    set (wF := emit (ckb_info (FoundNew i)) w) in Hrun.
    destruct (find_free_slot usbrecv setupusb (seq 1 (DEV_MAX - 1)) wF kb i)
      as [[|] w2] eqn:Hfind; apply find_free_slot_taken in Hfind.
    + injection Hrun as <- <-.
      destruct Hfind as (ix & w0 & Hin & Hfree & Hs0 & Hw').
      apply in_seq in Hin.
      exists i, ix, w0. split; [left; reflexivity|].
      split; [unfold wants; rewrite Hbit, Hch; reflexivity|].
      split; [lia|].
      split; [rewrite <- (free_slot_same w wF ix (same_pool_emit w _)); exact Hfree|].
      split; [exact (same_pool_trans _ _ _ (same_pool_emit w _) Hs0)|exact Hw'].
    + apply (Hnext (emit (ckb_err NoMoreFreeDevices) w2)); [|exact Hrun].
      apply same_pool_trans with wF; [apply same_pool_emit|].
      apply same_pool_trans with w2; [exact Hfind|apply same_pool_emit].
Qed.

(** X9. A connect sweep takes a slot only for a set bit whose slot is empty,
    and takes only a pool entry of the indices 1 .. DEV_MAX - 1 that was
    free (never entry 0, never one that is locked or in use); a sweep that
    takes none leaves pool and mutexes as they were. *)
Theorem connect_sweep_takes_free (w : world) (kb : nat) (prop : Z)
    (b : bool) (w' : world) :
  connect_sweep usbrecv setupusb (seq 1 7) w kb prop = (b, w') ->
  if b then
    exists i index wh,
      (1 <= i <= 7)%nat /\ wants prop (keyboard w kb) i = true /\
      (1 <= index < DEV_MAX)%nat /\ free_slot w index = true /\
      w' = call_setupusb setupusb wh index /\
      claimed w wh kb i index
  else same_pool w w'.
Proof.
  intros Hrun. apply connect_sweep_taken in Hrun. destruct b; [|exact Hrun].
  destruct Hrun as (i & index & w0 & Hin & Hw & Hix & Hfree & Hs0 & Hw').
  apply in_seq in Hin.
  eexists i, index, _. split; [lia|]. split; [exact Hw|]. split; [exact Hix|].
  split; [exact Hfree|]. split; [exact Hw'|].
  apply (claimed_same_pool w w0); [exact Hs0|].
  pose proof (claim_subdev_fields usbrecv
                (emit (DTryLock index true) (with_devmutex index LockedHere w0))
                kb i index) as Hcl.
  exact Hcl.
Qed.

Lemma connect_sweep_respects (kb : nat) (prop : Z) (w : world) (b : bool)
    (w' : world) :
  connect_sweep usbrecv setupusb (seq 1 7) w kb prop = (b, w') ->
  respects kb w w'.
Proof.
  intros Hrun. apply connect_sweep_taken in Hrun. destruct b.
  - destruct Hrun as (i & index & w0 & _ & _ & _ & Hfree & Hs0 & ->).
    apply respects_trans with w0; [apply respects_same_pool; exact Hs0|].
    apply claim_respects.
    rewrite <- (free_slot_same w w0 index Hs0) in Hfree.
    apply free_slot_true in Hfree. exact (proj1 Hfree).
  - apply respects_same_pool. exact Hrun.
Qed.

(** X10. Whatever a run does, and whether it returns or blocks, a pool entry
    whose lifecycle mutex is held elsewhere keeps that mutex held elsewhere
    and, unless it is the dongle itself, is not written to. *)
Theorem update_respects_locks (w : world) (kb : nat) (prop : Z) :
  match bragi_update_dongle_subdevs usbrecv closeusb setupusb w kb prop with
  | Done w' | Blocked w' => respects kb w w'
  end.
Proof.
  unfold bragi_update_dongle_subdevs, cmutex_lock.
  destruct (childrenmutex w kb); try apply respects_refl.
  set (w1 := emit _ _).
  assert (H1 : respects kb w w1)
    by (intros d Hd; split; [exact Hd|reflexivity]).
  pose proof (disconnect_sweep_respects kb prop (seq 1 7) w1) as H2.
  destruct (disconnect_sweep closeusb (seq 1 7) w1 kb prop) as [w2|w2];
    [|exact (respects_trans kb _ _ _ H1 H2)].
  destruct (connect_sweep usbrecv setupusb (seq 1 7) w2 kb prop) as [b w3] eqn:Hc.
  apply connect_sweep_respects in Hc.
  pose proof (respects_trans kb _ _ _ (respects_trans kb _ _ _ H1 H2) Hc) as H3.
  destruct b; [exact H3|].
  apply (respects_trans kb _ _ _ H3).
  intros d Hd. split; [exact Hd|reflexivity].
Qed.

(** ** A run that blocks *)

Lemma disconnect_sweep_blocked (kb : nat) (prop : Z) (slots : list nat) :
  forall w w',
  disconnect_sweep closeusb slots w kb prop = Blocked w' ->
  childrenmutex w' = childrenmutex w /\
  exists i d, In i slots /\ presence_bit prop i = 0 /\
              children (keyboard w' kb) (i - 1)%nat = Some d /\
              devmutex w' d <> Unlocked.
Proof.
  induction slots as [|i slots IH]; intros w w' Hrun;
    cbn [disconnect_sweep] in Hrun; [discriminate|].
  assert (Hnext : forall w1,
            childrenmutex w1 = childrenmutex w ->
            disconnect_sweep closeusb slots w1 kb prop = Blocked w' ->
            childrenmutex w' = childrenmutex w /\
            exists i0 d, In i0 (i :: slots) /\ presence_bit prop i0 = 0 /\
                         children (keyboard w' kb) (i0 - 1)%nat = Some d /\
                         devmutex w' d <> Unlocked).
  { intros w1 Hc1 Hrun1. apply IH in Hrun1.
    destruct Hrun1 as (Hc & i0 & d & Hin & Hrest).
    split; [congruence|]. exists i0, d. split; [right; exact Hin|exact Hrest]. }
  destruct (Z.eqb_spec (presence_bit prop i) 0) as [Hbit|Hbit]; cbn [negb] in Hrun;
    [|apply (Hnext w eq_refl Hrun)].
  destruct (children (keyboard w kb) (i - 1)%nat) as [subkb|] eqn:Hch;
    [|apply (Hnext w eq_refl Hrun)].
  unfold dmutex_lock in Hrun. destruct (devmutex w subkb) eqn:Hm.
  - refine (Hnext _ _ Hrun). reflexivity.
  - injection Hrun as <-. split; [reflexivity|].
    exists i, subkb. split; [left; reflexivity|]. split; [exact Hbit|].
    split; [exact Hch|]. rewrite Hm. discriminate.
  - injection Hrun as <-. split; [reflexivity|].
    exists i, subkb. split; [left; reflexivity|]. split; [exact Hbit|].
    split; [exact Hch|]. rewrite Hm. discriminate.
Qed.

(** X11. A run that does not return waits either for the children mutex of the
    dongle, having done nothing, or for the lifecycle mutex of a departed
    child, and then it waits with the children mutex of the dongle held. *)
Theorem update_blocked_holding (w : world) (kb : nat) (prop : Z) (w' : world) :
  bragi_update_dongle_subdevs usbrecv closeusb setupusb w kb prop = Blocked w' ->
  (childrenmutex w kb <> Unlocked /\ w' = w) \/
  (childrenmutex w kb = Unlocked /\
   childrenmutex w' kb = LockedHere /\
   exists i d, (1 <= i <= 7)%nat /\ presence_bit prop i = 0 /\
               children (keyboard w' kb) (i - 1)%nat = Some d /\
               devmutex w' d <> Unlocked).
Proof.
  unfold bragi_update_dongle_subdevs, cmutex_lock. intros Hrun.
  destruct (childrenmutex w kb) eqn:Hcm.
  - right. split; [reflexivity|].
    set (w1 := emit _ _) in Hrun.
    destruct (disconnect_sweep closeusb (seq 1 7) w1 kb prop) as [w2|w2] eqn:Hd.
    + destruct (connect_sweep usbrecv setupusb (seq 1 7) w2 kb prop) as [[|] w3];
        discriminate.
    + injection Hrun as <-. apply disconnect_sweep_blocked in Hd.
      destruct Hd as (Hc & i & d & Hin & Hrest). apply in_seq in Hin.
      split; [rewrite Hc; unfold w1; wsimpl; apply fn_lookup_insert|].
      exists i, d. split; [lia|exact Hrest].
  - left. injection Hrun as <-. split; [discriminate|reflexivity].
  - left. injection Hrun as <-. split; [discriminate|reflexivity].
Qed.

(** ** Property queries that fail *)

Lemma get_property_no_answer (w : world) (kb : nat) (prop : Z) :
  usbrecv (usb_count w) kb (get_request prop) BRAGI_JUMBO_SIZE = None ->
  bragi_get_property usbrecv w kb prop
  = (-1, mk_world (keyboard w) (devmutex w) (childrenmutex w) (S (usb_count w))
           (trace w ++ [UsbRecv kb (get_request prop) BRAGI_JUMBO_SIZE None])).
Proof.
  intros H. unfold bragi_get_property, usb_transact.
  change (array_init BRAGI_JUMBO_SIZE [BRAGI_MAGIC; BRAGI_GET; prop; 0])
    with (get_request prop).
  rewrite H. reflexivity.
Qed.

(** X12. The results of the two property queries are not checked.  When
    neither gets a response, the free entry is taken all the same and goes
    to [setupusb] with vendor and product 0xFFFF, the 16 bits of -1. *)
Theorem claim_with_failed_queries (w : world) (kb i index : nat)
    (rest : list nat) :
  free_slot w index = true ->
  usbrecv (usb_count w) index (get_request BRAGI_VID) BRAGI_JUMBO_SIZE = None ->
  usbrecv (S (usb_count w)) index (get_request BRAGI_PID) BRAGI_JUMBO_SIZE = None ->
  exists wh,
    find_free_slot usbrecv setupusb (index :: rest) w kb i
    = (true, call_setupusb setupusb wh index) /\
    vendor (keyboard wh index) = 65535 /\
    product (keyboard wh index) = 65535 /\
    status (keyboard wh index) = DEV_STATUS_CONNECTING /\
    sent_msgs (trace wh)
    = sent_msgs (trace w) ++ [get_request BRAGI_VID; get_request BRAGI_PID].
Proof.
  intros Hfree Hvid Hpid. apply free_slot_true in Hfree.
  destruct Hfree as [Hm Hst].
  cbn [find_free_slot]. unfold dmutex_trylock. rewrite Hm.
  change (keyboard (emit (DTryLock index true)
                      (with_devmutex index LockedHere w)) index)
    with (keyboard w index).
  rewrite Hst.
  set (w1 := emit (DTryLock index true) (with_devmutex index LockedHere w)).
  exists (claim_subdev usbrecv w1 kb i index). split; [reflexivity|].
  destruct (claim_subdev_fields usbrecv w1 kb i index) as (Hs & _).
  split; [|split; [|split; [exact Hs|]]]; clear Hs.
  all: unfold claim_subdev; set (wA := cmutex_unlock _ kb).
  all: assert (HcA : usb_count wA = usb_count w) by reflexivity.
  all: assert (HtA : trace wA = (trace w ++ [DTryLock index true]) ++ [CUnlock kb])
         by reflexivity.
  all: clearbody wA.
  all: rewrite (get_property_no_answer wA index BRAGI_VID)
         by (rewrite HcA; exact Hvid).
  all: cbv beta iota zeta.
  all: rewrite get_property_no_answer
         by (cbn [usb_count]; rewrite HcA; exact Hpid).
  all: cbv beta iota zeta; wsimpl.
  - rewrite fn_lookup_insert. cbn [vendor set_product].
    rewrite fn_lookup_insert. reflexivity.
  - rewrite fn_lookup_insert. reflexivity.
  - rewrite HtA, !sent_msgs_app. cbn. rewrite !app_nil_r, <- app_assoc.
    reflexivity.
Qed.
(** ** How the sweeps compose *)

Lemma disconnect_sweep_idle (kb : nat) (prop : Z) (slots : list nat) (w : world) :
  (forall i, In i slots -> gone prop (keyboard w kb) i = false) ->
  disconnect_sweep closeusb slots w kb prop = Done w.
Proof.
  induction slots as [|i slots IH]; intros Hidle; [reflexivity|].
  cbn [disconnect_sweep].
  pose proof (Hidle i (or_introl eq_refl)) as Hg. unfold gone in Hg.
  destruct (presence_bit prop i =? 0); cbn [negb].
  - destruct (children (keyboard w kb) (i - 1)%nat); [discriminate|].
    apply IH. intros j Hj. apply Hidle. right. exact Hj.
  - apply IH. intros j Hj. apply Hidle. right. exact Hj.
Qed.

(** X13. A second disconnect sweep with the same mask finds nothing to do. *)
Theorem disconnect_sweep_twice (w : world) (kb : nat) (prop : Z) :
  (forall j, children (keyboard w kb) j <> Some kb) ->
  (forall i d, (1 <= i <= 7)%nat -> presence_bit prop i = 0 ->
               children (keyboard w kb) (i - 1)%nat = Some d ->
               devmutex w d = Unlocked) ->
  exists w',
    disconnect_sweep closeusb (seq 1 7) w kb prop = Done w' /\
    disconnect_sweep closeusb (seq 1 7) w' kb prop = Done w'.
Proof.
  intros Hself Hfree.
  destruct (disconnect_sweep_run closeusb kb prop 7 1 w ltac:(lia) Hself)
    as (w' & tr & Hrun & Htr & Hm & Hb & Hc).
  { intros i d Hi. apply Hfree. lia. }
  exists w'. split; [exact Hrun|].
  apply disconnect_sweep_idle. intros i Hi. apply in_seq in Hi.
  destruct (gone prop (keyboard w' kb) i) eqn:Hg; [|reflexivity].
  apply gone_true in Hg. destruct Hg as [Hbit [d Hd]].
  assert (Hnone : children (keyboard w' kb) (i - 1)%nat = None).
  { destruct (children (keyboard w kb) (i - 1)%nat) as [d0|] eqn:Hch.
    - apply (Hc i d0); [lia|assumption..].
    - rewrite Hb; [exact Hch|]. intros [_ Hg]. apply gone_true in Hg.
      replace (S (i - 1)) with i in Hg by lia.
      destruct Hg as [_ [d1 Hd1]]. congruence. }
  congruence.
Qed.

Lemma disconnect_sweep_dongle (kb : nat) (prop : Z) (slots : list nat) :
  forall w w',
  (forall j, children (keyboard w kb) j <> Some kb) ->
  disconnect_sweep closeusb slots w kb prop = Done w' ->
  status (keyboard w' kb) = status (keyboard w kb).
Proof.
  induction slots as [|i slots IH]; intros w w' Hself Hrun;
    cbn [disconnect_sweep] in Hrun.
  - injection Hrun as <-. reflexivity.
  - destruct (negb (presence_bit prop i =? 0)); [apply IH; assumption|].
    destruct (children (keyboard w kb) (i - 1)%nat) as [subkb|] eqn:Hch;
      [|apply IH; assumption].
    assert (Hne : subkb <> kb) by (intros ->; exact (Hself _ Hch)).
    unfold dmutex_lock in Hrun. destruct (devmutex w subkb); try discriminate.
    set (w5 := dmutex_unlock _ subkb) in Hrun.
    assert (Hk5 : keyboard w5 kb = set_child (i - 1)%nat None (keyboard w kb)).
    { unfold w5. wsimpl. rewrite fn_lookup_insert.
      rewrite fn_lookup_insert_ne by exact Hne. reflexivity. }
    apply IH in Hrun.
    + rewrite Hrun, Hk5. reflexivity.
    + intros j. rewrite Hk5. cbn [children set_child].
      unfold insert, fn_insert. destruct (decide _); [discriminate|apply Hself].
Qed.

(** X14. A run brings the children in line with the mask, one new child at a
    time: it returns, every slot whose bit is clear is empty afterwards,
    and every child whose bit is set is still in its slot. *)
Theorem update_reconciles (w : world) (kb : nat) (prop : Z) :
  childrenmutex w kb = Unlocked ->
  (forall j, children (keyboard w kb) j <> Some kb) ->
  (forall i d, (1 <= i <= 7)%nat -> presence_bit prop i = 0 ->
               children (keyboard w kb) (i - 1)%nat = Some d ->
               devmutex w d = Unlocked) ->
  status (keyboard w kb) > DEV_STATUS_DISCONNECTED ->
  exists w',
    bragi_update_dongle_subdevs usbrecv closeusb setupusb w kb prop = Done w' /\
    forall i, (1 <= i <= 7)%nat ->
      (presence_bit prop i = 0 ->
       children (keyboard w' kb) (i - 1)%nat = None) /\
      (forall d, presence_bit prop i <> 0 ->
                 children (keyboard w kb) (i - 1)%nat = Some d ->
                 children (keyboard w' kb) (i - 1)%nat = Some d).
Proof.
  intros Hcm Hself Hfree Hst.
  unfold bragi_update_dongle_subdevs, cmutex_lock. rewrite Hcm.
  set (w1 := emit (CLock kb) (with_childrenmutex kb LockedHere w)).
  destruct (disconnect_sweep_run closeusb kb prop 7 1 w1 ltac:(lia) Hself)
    as (w2 & tr & Hrun & Htr & Hm & Hb & Hc).
  { intros i d Hi. apply Hfree. lia. }
  rewrite Hrun.
  pose proof (disconnect_sweep_dongle kb prop (seq 1 7) w1 w2 Hself Hrun) as Hst2.
  change (keyboard w1 kb) with (keyboard w kb) in *.
  (* the children after the first loop *)
  assert (Hclear : forall i, (1 <= i <= 7)%nat -> presence_bit prop i = 0 ->
                     children (keyboard w2 kb) (i - 1)%nat = None).
  { intros i Hi Hbit.
    destruct (children (keyboard w kb) (i - 1)%nat) as [d|] eqn:Hch.
    - apply (Hc i d); [lia|assumption..].
    - rewrite Hb; [exact Hch|]. intros [_ Hg]. apply gone_true in Hg.
      replace (S (i - 1)) with i in Hg by lia.
      destruct Hg as [_ [d Hd]]. congruence. }
  assert (Hkeep : forall i d, (1 <= i <= 7)%nat -> presence_bit prop i <> 0 ->
                    children (keyboard w kb) (i - 1)%nat = Some d ->
                    children (keyboard w2 kb) (i - 1)%nat = Some d).
  { intros i d Hi Hbit Hch. rewrite Hb; [exact Hch|].
    intros [_ Hg]. apply gone_true in Hg.
    replace (S (i - 1)) with i in Hg by lia. destruct Hg as [Hg _]. contradiction. }
  destruct (connect_sweep usbrecv setupusb (seq 1 7) w2 kb prop) as [b w3] eqn:Hcs.
  apply connect_sweep_taken in Hcs. destruct b.
  - destruct Hcs as (i0 & index & w0 & Hin & Hw & Hix & Hfr & Hs0 & ->).
    apply in_seq in Hin.
    eexists. split; [reflexivity|].
    apply free_slot_true in Hfr. destruct Hfr as [_ Hfst].
    assert (Hne : index <> kb).
    { intros ->. rewrite Hst2 in Hfst.
      destruct (Z.gtb_spec (status (keyboard w kb)) DEV_STATUS_DISCONNECTED);
        [discriminate|lia]. }
    pose proof (claim_subdev_fields usbrecv
                  (emit (DTryLock index true) (with_devmutex index LockedHere w0))
                  kb i0 index) as Hcl.
    apply (claimed_same_pool w2 w0) in Hcl; [|exact Hs0].
    destruct Hcl as (_ & _ & _ & _ & _ & _ & _ & Hothers & _).
    unfold wants in Hw.
    destruct (Z.eqb_spec (presence_bit prop i0) 0) as [|Hbit0]; [discriminate|].
    destruct (children (keyboard w2 kb) (i0 - 1)%nat) eqn:Hch0; [discriminate|].
    intros i Hi.
    assert (Hsame : (i - 1)%nat <> (i0 - 1)%nat ->
              children (keyboard (call_setupusb setupusb
                 (claim_subdev usbrecv
                    (emit (DTryLock index true)
                          (with_devmutex index LockedHere w0)) kb i0 index)
                 index) kb) (i - 1)%nat
              = children (keyboard w2 kb) (i - 1)%nat).
    { intros Hslot. unfold call_setupusb, emit, with_dev.
      cbn [keyboard]. rewrite fn_lookup_insert_ne by exact Hne.
      apply Hothers. exact Hslot. }
    split.
    + intros Hbit. rewrite Hsame; [apply Hclear; assumption|].
      intros Heq. assert (i = i0) by lia. subst i0. contradiction.
    + intros d Hbit Hch. pose proof (Hkeep i d Hi Hbit Hch) as Hk2.
      rewrite Hsame; [exact Hk2|]. intros Heq. rewrite Heq in Hk2. congruence.
  - eexists. split; [reflexivity|]. destruct Hcs as (Hk & _).
    intros i Hi. unfold cmutex_unlock, emit, with_childrenmutex.
    cbn [keyboard]. rewrite Hk. split.
    + intros Hbit. apply Hclear; assumption.
    + intros d Hbit Hch. apply (Hkeep i d Hi Hbit Hch).
Qed.

(** ** The bits of the mask that are read *)

Lemma presence_bit_mask (prop : Z) (i : nat) :
  (1 <= i <= 7)%nat -> presence_bit (Z.land prop 254) i = presence_bit prop i.
Proof.
  intros Hi. unfold presence_bit. apply Z.bits_inj'. intros n Hn.
  rewrite !Z.land_spec, !Z.shiftr_spec by lia. rewrite Z.land_spec.
  destruct (Z.eq_dec n 0) as [->|Hne].
  - assert (Hc : (i = 1 \/ i = 2 \/ i = 3 \/ i = 4 \/ i = 5 \/ i = 6 \/ i = 7)%nat)
      by lia.
    destruct Hc as [->|[->|[->|[->|[->|[->| ->]]]]]]; cbn;
      rewrite andb_true_r; reflexivity.
  - assert (H1 : Z.testbit 1 n = false)
      by (destruct n as [|p|p]; [lia|destruct p; reflexivity|reflexivity]).
    rewrite H1, !andb_false_r. reflexivity.
Qed.

Lemma disconnect_sweep_mask (kb : nat) (prop : Z) (slots : list nat) :
  (forall i, In i slots -> (1 <= i <= 7)%nat) ->
  forall w,
  disconnect_sweep closeusb slots w kb (Z.land prop 254)
  = disconnect_sweep closeusb slots w kb prop.
Proof.
  induction slots as [|i slots IH]; intros Hin w; [reflexivity|].
  cbn [disconnect_sweep].
  rewrite presence_bit_mask by (apply Hin; left; reflexivity).
  assert (IH' := IH (fun j Hj => Hin j (or_intror Hj))).
  destruct (negb (presence_bit prop i =? 0)); [apply IH'|].
  destruct (children (keyboard w kb) (i - 1)%nat); [|apply IH'].
  destruct (dmutex_lock w n); [apply IH'|reflexivity].
Qed.

Lemma connect_sweep_mask (kb : nat) (prop : Z) (slots : list nat) :
  (forall i, In i slots -> (1 <= i <= 7)%nat) ->
  forall w,
  connect_sweep usbrecv setupusb slots w kb (Z.land prop 254)
  = connect_sweep usbrecv setupusb slots w kb prop.
Proof.
  induction slots as [|i slots IH]; intros Hin w; [reflexivity|].
  cbn [connect_sweep].
  rewrite presence_bit_mask by (apply Hin; left; reflexivity).
  assert (IH' := IH (fun j Hj => Hin j (or_intror Hj))).
  destruct (presence_bit prop i =? 0); [apply IH'|].
  destruct (children (keyboard w kb) (i - 1)%nat); [apply IH'|].
  destruct (find_free_slot usbrecv setupusb _ _ kb i) as [[|] w2];
    [reflexivity|apply IH'].
Qed.

(** X15. Of the mask only the bits 1 to 7 are read: bit 0 and the bits from 8
    on, the sign bit among them, make no difference to a run. *)
Theorem update_mask_bits (w : world) (kb : nat) (prop : Z) :
  bragi_update_dongle_subdevs usbrecv closeusb setupusb w kb (Z.land prop 254)
  = bragi_update_dongle_subdevs usbrecv closeusb setupusb w kb prop.
Proof.
  assert (Hseq : forall i, In i (seq 1 7) -> (1 <= i <= 7)%nat)
    by (intros i Hi; apply in_seq in Hi; lia).
  unfold bragi_update_dongle_subdevs.
  destruct (cmutex_lock w kb) as [w1|]; [|reflexivity].
  rewrite disconnect_sweep_mask by exact Hseq.
  destruct (disconnect_sweep closeusb (seq 1 7) w1 kb prop) as [w2|w2];
    [|reflexivity].
  rewrite connect_sweep_mask by exact Hseq. reflexivity.
Qed.

End DiscoveryMore.

(** * The theorems at concrete inputs *)

#[local] Existing Instance ckb_next.

(** The examples of the specification. *)
Example buffer_size_64_100 :
  bragi_calculate_buffer_size (sample_device 64 no_children) 100 = Some 128.
Proof. reflexivity. Qed.

Example buffer_size_64_400 :
  bragi_calculate_buffer_size (sample_device 64 no_children) 400 = Some 448.
Proof. reflexivity. Qed.

Example buffer_size_fits :
  bragi_calculate_buffer_size (sample_device 64 no_children) 57 = Some 64.
Proof. reflexivity. Qed.

Lemma bragi_calculate_buffer_size_witness :
  (8 <= 64 /\ is_int 64 /\ is_uint32 400) /\
  bragi_calculate_buffer_size (sample_device 64 no_children) 400
  = Some (required_buffer_size 64 400) /\
  (400 - 64 + 7 < 0 -> required_buffer_size 64 400 = 64) /\
  (0 <= 400 - 64 + 7 ->
   required_buffer_size 64 400 = (1 + ceil_div (400 - 64 + 7) (64 - 3)) * 64) /\
  exists n, required_buffer_size 64 400 = n * 64 /\ covers 64 400 n /\
            forall m, covers 64 400 m -> n <= m.
Proof.
  assert (H1 : 8 <= 64) by lia.
  assert (H2 : is_int 64) by (unfold is_int; lia).
  assert (H3 : is_uint32 400) by (unfold is_uint32; lia).
  split; [auto|].
  exact (bragi_calculate_buffer_size_spec (sample_device 64 no_children) 400 H1 H2 H3).
Defined.

(** A write of 10 bytes with packets of 8 bytes: three packets, at the
    offsets 0, 5 and 10 of the buffer; the continuation packets carry
    handle 0 although the caller's handle is 1. *)
Example write_8_10_packets :
  match bragi_write_to_handle always_ok false 3 (sample_world 8) 1%nat
          sample_buffer 1 24 10 with
  | Some (Returned ret _ w') =>
      ret = 0 /\
      map (on_wire 8) (sent_msgs (trace w'))
      = [ [8; 6; 1; 10; 0; 0; 0; 1];
          [8; 7; 0; 2; 3; 4; 5; 6];
          [8; 7; 0; 7; 8; 9; 10; 0] ]
  | _ => False
  end.
Proof. vm_compute. split; reflexivity. Qed.

Lemma write_to_handle_packets_witness :
  (out_ep_packet_size (keyboard (sample_world 8) 1%nat) = 8 /\
   7 <= 8 /\ is_int 8 /\ is_uint32 10 /\
   required_buffer_size 8 10 <= 24 /\
   24 <= Z.of_nat (length sample_buffer) /\
   required_buffer_size 8 10 / 8 <= Z.of_nat 3 /\
   (forall n m len, always_ok n 1%nat m len <> None)) /\
  exists pkt' w' tr,
    bragi_write_to_handle always_ok false 3 (sample_world 8) 1%nat
      sample_buffer 1 24 10 = Some (Returned 0 pkt' w') /\
    trace w' = trace (sample_world 8) ++ tr /\
    Z.of_nat (length (sent_msgs tr)) = required_buffer_size 8 10 / 8 /\
    map (on_wire 8) (sent_msgs tr)
    = map (wire_packet sample_buffer 1 8 10) (seq 0 (length (sent_msgs tr))) /\
    le_value (uint32_bytes 10) = 10.
Proof.
  assert (H1 : out_ep_packet_size (keyboard (sample_world 8) 1%nat) = 8)
    by reflexivity.
  assert (H2 : 7 <= 8) by lia.
  assert (H3 : is_int 8) by (unfold is_int; lia).
  assert (H4 : is_uint32 10) by (unfold is_uint32; lia).
  assert (H5 : required_buffer_size 8 10 <= 24) by (vm_compute; discriminate).
  assert (H6 : 24 <= Z.of_nat (length sample_buffer)) by (vm_compute; discriminate).
  assert (H7 : required_buffer_size 8 10 / 8 <= Z.of_nat 3)
    by (vm_compute; discriminate).
  assert (H8 : forall n m len, always_ok n 1%nat m len <> None)
    by (intros n m len; discriminate).
  split; [repeat split; assumption|].
  exact (write_to_handle_packets always_ok false 3 (sample_world 8) 1%nat
           sample_buffer 1 24 8 10 H1 H2 H3 H4 H5 H6 H7 H8).
Defined.

(** C3 does not hold as stated.  A release build handed 16 bytes where 24
    are required sends its three packets and returns 0; a debug build
    sends nothing, and returns 0 as well, the value of a successful
    write. *)
Lemma write_to_handle_undersized_counterexample :
  bragi_calculate_buffer_size (keyboard (sample_world 8) 1%nat) 10 = Some 24 /\
  match bragi_write_to_handle always_ok true 3 (sample_world 8) 1%nat
          (take 16 sample_buffer) 1 16 10 with
  | Some (Returned ret _ w') =>
      ret = 0 /\ length (sent_msgs (trace w')) = 3%nat
  | _ => False
  end /\
  match bragi_write_to_handle always_ok false 3 (sample_world 8) 1%nat
          (take 16 sample_buffer) 1 16 10,
        bragi_write_to_handle always_ok false 3 (sample_world 8) 1%nat
          sample_buffer 1 24 10 with
  | Some (Returned ret _ _), Some (Returned ret' _ _) => ret = 0 /\ ret' = 0
  | _, _ => False
  end.
Proof. vm_compute. repeat split; reflexivity. Qed.

Lemma write_to_handle_undersized_witness :
  (bragi_calculate_buffer_size (keyboard (sample_world 8) 1%nat) 10 = Some 24 /\
   16 < 24) /\
  (exists ret,
     bragi_write_to_handle always_ok false 3 (sample_world 8) 1%nat
       (take 16 sample_buffer) 1 16 10
     = Some (Returned ret (take 16 sample_buffer)
               (emit (ckb_fatal (BufferTooSmall 24)) (sample_world 8)))) /\
  forall buf_len',
    bragi_write_to_handle always_ok true 3 (sample_world 8) 1%nat
      (take 16 sample_buffer) 1 16 10
    = bragi_write_to_handle always_ok true 3 (sample_world 8) 1%nat
        (take 16 sample_buffer) 1 buf_len' 10.
Proof.
  assert (H1 : bragi_calculate_buffer_size (keyboard (sample_world 8) 1%nat) 10
               = Some 24) by reflexivity.
  assert (H2 : 16 < 24) by lia.
  split; [exact (conj H1 H2)|].
  exact (write_to_handle_undersized always_ok 3 (sample_world 8) 1%nat
           (take 16 sample_buffer) 1 16 10 24 H1 H2).
Defined.

(** A transport failure on the second packet: two transactions, the
    result is 1. *)
Example write_8_10_failure :
  match bragi_write_to_handle fails_second false 3 (sample_world 8) 1%nat
          sample_buffer 1 24 10 with
  | Some (Returned ret _ w') =>
      ret = 1 /\ length (sent_msgs (trace w')) = 2%nat /\
      existsb is_failure (trace w') = true
  | _ => False
  end.
Proof. vm_compute. repeat split; reflexivity. Qed.

(** Status 5 on the first two packets and no response to the third: the
    status of the continuation packet is reported, the third packet is
    still tried, and its failure gives 1. *)
Example write_8_10_noisy_failure :
  match bragi_write_to_handle fails_third_noisy false 3 (sample_world 8) 1%nat
          sample_buffer 1 24 10 with
  | Some (Returned ret _ w') =>
      ret = 1 /\ length (sent_msgs (trace w')) = 3%nat /\
      reported (trace w') = [5]
  | _ => False
  end.
Proof. vm_compute. repeat split; reflexivity. Qed.

Lemma write_to_handle_transport_failure_witness :
  (out_ep_packet_size (keyboard (sample_world 8) 1%nat) = 8 /\
   7 <= 8 /\ is_int 8 /\ is_uint32 10 /\
   required_buffer_size 8 10 <= 24 /\
   24 <= Z.of_nat (length sample_buffer) /\
   required_buffer_size 8 10 / 8 <= Z.of_nat 3) /\
  exists ret pkt' w' tr,
    bragi_write_to_handle fails_second false 3 (sample_world 8) 1%nat
      sample_buffer 1 24 10 = Some (Returned ret pkt' w') /\
    trace w' = trace (sample_world 8) ++ tr /\
    ((ret = 0 /\ existsb is_failure tr = false /\
      Z.of_nat (length (sent_msgs tr)) = required_buffer_size 8 10 / 8) \/
     (ret = 1 /\
      exists tr0 m, tr = tr0 ++ [UsbRecv 1%nat m BRAGI_JUMBO_SIZE None] /\
                    existsb is_failure tr0 = false)) /\
    reported tr
    = nonzero (drop 1 (statuses (array_init BRAGI_JUMBO_SIZE [0]) tr)) /\
    ((forall n m len in_msg,
        (usb_count (sample_world 8) < n)%nat ->
        fails_second n 1%nat m len = Some in_msg ->
        (3 <= length in_msg)%nat) ->
     reported tr = bad_statuses (drop 1 tr)) /\
    forall usbrecv' : transport,
      (forall n m len,
         fails_second n 1%nat m len = None <-> usbrecv' n 1%nat m len = None) ->
      exists pkt'' w'' tr',
        bragi_write_to_handle usbrecv' false 3 (sample_world 8) 1%nat
          sample_buffer 1 24 10 = Some (Returned ret pkt'' w'') /\
        trace w'' = trace (sample_world 8) ++ tr' /\
        sent_msgs tr' = sent_msgs tr.
Proof.
  assert (H1 : out_ep_packet_size (keyboard (sample_world 8) 1%nat) = 8)
    by reflexivity.
  assert (H2 : 7 <= 8) by lia.
  assert (H3 : is_int 8) by (unfold is_int; lia).
  assert (H4 : is_uint32 10) by (unfold is_uint32; lia).
  assert (H5 : required_buffer_size 8 10 <= 24) by (vm_compute; discriminate).
  assert (H6 : 24 <= Z.of_nat (length sample_buffer)) by (vm_compute; discriminate).
  assert (H7 : required_buffer_size 8 10 / 8 <= Z.of_nat 3)
    by (vm_compute; discriminate).
  split; [repeat split; assumption|].
  exact (write_to_handle_transport_failure fails_second false 3 (sample_world 8)
           1%nat sample_buffer 1 24 8 10 H1 H2 H3 H4 H5 H6 H7).
Defined.

(** Non-zero statuses everywhere: the write goes through, returns 0, and
    the two continuation statuses are reported, the first one is not. *)
Example write_8_10_statuses :
  match bragi_write_to_handle (status_first 9) false 3 (sample_world 8) 1%nat
          sample_buffer 1 24 10 with
  | Some (Returned ret _ w') =>
      ret = 0 /\ length (sent_msgs (trace w')) = 3%nat /\
      reported (trace w') = [3; 3]
  | _ => False
  end.
Proof. vm_compute. repeat split; reflexivity. Qed.

Lemma write_to_handle_first_status_witness :
  (out_ep_packet_size (keyboard (sample_world 8) 1%nat) = 8 /\
   7 <= 8 /\ is_int 8 /\ is_uint32 10 /\
   required_buffer_size 8 10 <= 24 /\
   24 <= Z.of_nat (length sample_buffer) /\
   required_buffer_size 8 10 / 8 <= Z.of_nat 3 /\
   status_first 0 (usb_count (sample_world 8)) 1%nat
     (first_msg sample_buffer 1 10) BRAGI_JUMBO_SIZE = Some [0; 0; 0] /\
   status_first 9 (usb_count (sample_world 8)) 1%nat
     (first_msg sample_buffer 1 10) BRAGI_JUMBO_SIZE = Some [0; 0; 9] /\
   (forall n m len, (usb_count (sample_world 8) < n)%nat ->
                    status_first 0 n 1%nat m len = status_first 9 n 1%nat m len) /\
   (forall n m len in_msg,
      (usb_count (sample_world 8) < n)%nat ->
      status_first 0 n 1%nat m len = Some in_msg -> (3 <= length in_msg)%nat)) /\
  exists ret pkt' pkt'' w' w'' tr1,
    bragi_write_to_handle (status_first 0) false 3 (sample_world 8) 1%nat
      sample_buffer 1 24 10 = Some (Returned ret pkt' w') /\
    bragi_write_to_handle (status_first 9) false 3 (sample_world 8) 1%nat
      sample_buffer 1 24 10 = Some (Returned ret pkt'' w'') /\
    trace w' = trace (sample_world 8)
               ++ UsbRecv 1%nat (first_msg sample_buffer 1 10) BRAGI_JUMBO_SIZE
                    (Some [0; 0; 0]) :: tr1 /\
    trace w'' = trace (sample_world 8)
                ++ UsbRecv 1%nat (first_msg sample_buffer 1 10) BRAGI_JUMBO_SIZE
                     (Some [0; 0; 9]) :: tr1 /\
    (forall e, head tr1 = Some e -> is_usb e = true) /\
    ((ret = 0 /\ existsb is_failure tr1 = false) \/
     (ret = 1 /\ existsb is_failure tr1 = true)) /\
    reported tr1 = bad_statuses tr1.
Proof.
  assert (H1 : out_ep_packet_size (keyboard (sample_world 8) 1%nat) = 8)
    by reflexivity.
  assert (H2 : 7 <= 8) by lia.
  assert (H3 : is_int 8) by (unfold is_int; lia).
  assert (H4 : is_uint32 10) by (unfold is_uint32; lia).
  assert (H5 : required_buffer_size 8 10 <= 24) by (vm_compute; discriminate).
  assert (H6 : 24 <= Z.of_nat (length sample_buffer)) by (vm_compute; discriminate).
  assert (H7 : required_buffer_size 8 10 / 8 <= Z.of_nat 3)
    by (vm_compute; discriminate).
  assert (H8 : status_first 0 (usb_count (sample_world 8)) 1%nat
                 (first_msg sample_buffer 1 10) BRAGI_JUMBO_SIZE = Some [0; 0; 0])
    by reflexivity.
  assert (H9 : status_first 9 (usb_count (sample_world 8)) 1%nat
                 (first_msg sample_buffer 1 10) BRAGI_JUMBO_SIZE = Some [0; 0; 9])
    by reflexivity.
  assert (H10 : forall n m len, (usb_count (sample_world 8) < n)%nat ->
                  status_first 0 n 1%nat m len = status_first 9 n 1%nat m len).
  { intros n m len Hn. destruct n; [inversion Hn|reflexivity]. }
  assert (H11 : forall n m len in_msg,
                  (usb_count (sample_world 8) < n)%nat ->
                  status_first 0 n 1%nat m len = Some in_msg ->
                  (3 <= length in_msg)%nat).
  { intros n m len in_msg Hn Hr. destruct n; [inversion Hn|].
    injection Hr as <-. cbn [length]. lia. }
  split; [exact (conj H1 (conj H2 (conj H3 (conj H4 (conj H5 (conj H6 (conj H7
                   (conj H8 (conj H9 (conj H10 H11))))))))))|].
  destruct (write_to_handle_first_status (status_first 0) (status_first 9) false 3
              (sample_world 8) 1%nat sample_buffer 1 24 8 10 [0; 0; 0] [0; 0; 9]
              H1 H2 H3 H4 H5 H6 H7 H8 H9 H10)
    as (ret & pkt' & pkt'' & w' & w'' & tr1 & tr1' & R1 & R2 & T1 & T2 & _ & Hh
        & Hr & Hfull).
  destruct (Hfull H11) as [Heq Hbad]. subst tr1'.
  exists ret, pkt', pkt'', w', w'', tr1.
  exact (conj R1 (conj R2 (conj T1 (conj T2 (conj Hh (conj Hr Hbad)))))).
Defined.

(** C10 does not hold as stated.  The two transports differ in the status
    byte of their first answer only, and answer every continuation with
    two bytes.  Those leave byte 2 of the response array as the first
    answer set it, and [bragi_check_success] reads the array: the status 9
    of the first response is reported, once for each continuation. *)
Lemma write_to_handle_first_status_counterexample :
  (forall n m len, (0 < n)%nat ->
                   short_after 0 n 1%nat m len = short_after 9 n 1%nat m len) /\
  match bragi_write_to_handle (short_after 0) false 3 (sample_world 8) 1%nat
          sample_buffer 1 24 10,
        bragi_write_to_handle (short_after 9) false 3 (sample_world 8) 1%nat
          sample_buffer 1 24 10 with
  | Some (Returned ret _ w'), Some (Returned ret' _ w'') =>
      ret = 0 /\ ret' = 0 /\
      sent_msgs (trace w') = sent_msgs (trace w'') /\
      reported (trace w') = [] /\
      reported (trace w'') = [9; 9]
  | _, _ => False
  end.
Proof.
  split.
  - intros n m len Hn. destruct n; [inversion Hn|reflexivity].
  - vm_compute. repeat split; reflexivity.
Qed.

(** The examples of the specification for the codec. *)
Example get_property_1234 :
  (bragi_get_property answers_1234 (sample_world 64) 1%nat 5).1 = 4660.
Proof. reflexivity. Qed.

Example set_property_1234 :
  take 6 (set_request 5 4660) = [8; 1; 5; 0; 52; 18] /\
  sent_msgs (trace (bragi_set_property always_ok (sample_world 64) 1%nat 5 4660).2)
  = [set_request 5 4660].
Proof. split; reflexivity. Qed.

Lemma property_codec_witness :
  is_ushort 4660 /\
  bragi_get_property answers_1234 (sample_world 64) 1%nat 5
  = (52 + 256 * 18,
     after (sample_world 64)
       [UsbRecv 1%nat (get_request 5) BRAGI_JUMBO_SIZE (Some [0; 0; 0; 52; 18])]
       1%nat) /\
  bragi_set_property answers_1234 (sample_world 64) 1%nat 5 4660
  = (0, after (sample_world 64)
          [UsbRecv 1%nat (set_request 5 4660) BRAGI_JUMBO_SIZE
                   (Some [0; 0; 0; 52; 18])] 1%nat).
Proof.
  assert (H1 : is_ushort 4660) by (unfold is_ushort; lia).
  split; [exact H1|].
  destruct (property_codec answers_1234 (sample_world 64) 1%nat 5 4660 H1)
    as (_ & _ & Hget & _ & _ & Hset).
  split.
  - apply (Hget [0; 0; 0; 52; 18]); [reflexivity|reflexivity| |];
      unfold is_uchar; cbn; lia.
  - apply (Hset [0; 0; 0; 52; 18]); reflexivity.
Defined.

(** The discovery examples of the specification.  Bits 3 and 5 are set and
    the dongle has no children: entry 4, the first free one, becomes child
    3 in slot 2, and bit 5 is left for a later run. *)
Example update_fresh_pool :
  match bragi_update_dongle_subdevs answers_1234 sample_closeusb sample_setupusb
          pool_fresh 1%nat 40 with
  | Done w' =>
      children (keyboard w' 1%nat) 2%nat = Some 4%nat /\
      children (keyboard w' 1%nat) 4%nat = None /\
      bragi_child_id (keyboard w' 4%nat) = 3 /\
      parent (keyboard w' 4%nat) = Some 1%nat /\
      vendor (keyboard w' 4%nat) = 4660 /\
      devmutex w' 4%nat = LockedHere /\
      devmutex w' 3%nat = Unlocked /\
      childrenmutex w' 1%nat = Unlocked /\
      List.filter (fun e => negb (is_usb e)) (trace w')
      = [CLock 1%nat; ckb_info (FoundNew 3);
         DTryLock 1%nat true; DUnlock 1%nat; DTryLock 2%nat false;
         DTryLock 3%nat true; DUnlock 3%nat; DTryLock 4%nat true;
         CUnlock 1%nat; ckb_info (SubkbIds 4660 4660); SetupUsb 4%nat]
  | Blocked _ => False
  end.
Proof. vm_compute. repeat split; reflexivity. Qed.

(** Bit 2 is clear and slot 1 holds entry 5: it is closed and the slot is
    emptied; slot 2, whose bit 3 is set, keeps entry 6. *)
Example update_child_gone :
  match bragi_update_dongle_subdevs answers_1234 sample_closeusb sample_setupusb
          pool_children 1%nat 8 with
  | Done w' =>
      children (keyboard w' 1%nat) 1%nat = None /\
      children (keyboard w' 1%nat) 2%nat = Some 6%nat /\
      devmutex w' 5%nat = Unlocked /\
      trace w' = [CLock 1%nat] ++ disconnect_block 1 5 ++ [CUnlock 1%nat]
  | Blocked _ => False
  end.
Proof. vm_compute. repeat split; reflexivity. Qed.

Ltac small_nat j :=
  repeat (destruct j as [|j]; try lia; try (cbn; reflexivity)).

Lemma connect_sweep_one_device_witness :
  ((1 <= 3 <= 7)%nat /\
   wants 40 (keyboard pool_fresh 1%nat) 3 = true /\
   (forall j, (1 <= j < 3)%nat -> wants 40 (keyboard pool_fresh 1%nat) j = false) /\
   (1 <= 4 < DEV_MAX)%nat /\
   free_slot pool_fresh 4 = true /\
   (forall j, (1 <= j < 4)%nat -> free_slot pool_fresh j = false)) /\
  (exists wh gets,
     connect_sweep answers_1234 sample_setupusb (seq 1 7) pool_fresh 1%nat 40
     = (true, call_setupusb sample_setupusb wh 4%nat) /\
     claimed pool_fresh wh 1%nat 3%nat 4%nat /\
     devmutex wh 4%nat = LockedHere /\
     (forall d, d <> 4%nat -> devmutex wh d = devmutex pool_fresh d) /\
     childrenmutex wh 1%nat = Unlocked /\
     trace wh = trace pool_fresh ++ ckb_info (FoundNew 3)
                :: scan_events pool_fresh (seq 1 (4 - 1))
                ++ [DTryLock 4%nat true; CUnlock 1%nat] ++ gets /\
     forallb quiet gets = true /\
     sent_msgs gets = [get_request BRAGI_VID; get_request BRAGI_PID]) /\
  (forall j, (1 <= j < DEV_MAX)%nat -> free_slot pool_full j = false) /\
  (exists w',
     connect_sweep answers_1234 sample_setupusb (seq 1 7) pool_full 1%nat 40
     = (false, w') /\
     same_pool pool_full w' /\
     trace w' = trace pool_full ++ no_slot_events pool_full 1%nat 40 (seq 1 7)).
Proof.
  assert (H1 : (1 <= 3 <= 7)%nat) by lia.
  assert (H2 : wants 40 (keyboard pool_fresh 1%nat) 3 = true) by reflexivity.
  assert (H3 : forall j, (1 <= j < 3)%nat ->
                 wants 40 (keyboard pool_fresh 1%nat) j = false)
    by (intros j Hj; small_nat j).
  assert (H4 : (1 <= 4 < DEV_MAX)%nat) by (cbn; lia).
  assert (H5 : free_slot pool_fresh 4 = true) by reflexivity.
  assert (H6 : forall j, (1 <= j < 4)%nat -> free_slot pool_fresh j = false)
    by (intros j Hj; small_nat j).
  assert (H7 : forall j, (1 <= j < DEV_MAX)%nat -> free_slot pool_full j = false)
    by (intros j Hj; reflexivity).
  destruct (connect_sweep_one_device answers_1234 sample_setupusb pool_fresh
              1%nat 40) as [HA _].
  destruct (connect_sweep_one_device answers_1234 sample_setupusb pool_full
              1%nat 40) as [_ HB].
  split; [exact (conj H1 (conj H2 (conj H3 (conj H4 (conj H5 H6)))))|].
  split; [exact (HA 3%nat 4%nat H1 H2 H3 H4 H5 H6)|].
  split; [exact H7|exact (HB H7)].
Defined.

Lemma update_lock_discipline_witness :
  (childrenmutex pool_fresh 1%nat = Unlocked /\
   (forall j, children (keyboard pool_fresh 1%nat) j <> Some 1%nat) /\
   (forall i d, (1 <= i <= 7)%nat -> presence_bit 40 i = 0 ->
                children (keyboard pool_fresh 1%nat) (i - 1)%nat = Some d ->
                devmutex pool_fresh d = Unlocked)) /\
  exists w',
    bragi_update_dongle_subdevs answers_1234 sample_closeusb sample_setupusb
      pool_fresh 1%nat 40 = Done w' /\
    exists disc scans tail,
      trace w' = trace pool_fresh ++ CLock 1%nat :: disc ++ scans ++ tail /\
      disconnects 1%nat disc /\
      scanning scans /\
      (tail = [CUnlock 1%nat] \/
       exists index gets,
         tail = [DTryLock index true; CUnlock 1%nat] ++ gets ++ [SetupUsb index] /\
         forallb quiet gets = true /\
         devmutex w' index = LockedHere) /\
      childrenmutex w' 1%nat = Unlocked /\
      List.filter is_cmutex_op (CLock 1%nat :: disc ++ scans ++ tail)
      = [CLock 1%nat; CUnlock 1%nat].
Proof.
  assert (H1 : childrenmutex pool_fresh 1%nat = Unlocked) by reflexivity.
  assert (H2 : forall j, children (keyboard pool_fresh 1%nat) j <> Some 1%nat)
    by (intros j; discriminate).
  assert (H3 : forall i d, (1 <= i <= 7)%nat -> presence_bit 40 i = 0 ->
                 children (keyboard pool_fresh 1%nat) (i - 1)%nat = Some d ->
                 devmutex pool_fresh d = Unlocked)
    by (intros i d _ _ Hc; discriminate Hc).
  destruct (update_lock_discipline answers_1234 sample_closeusb sample_setupusb
              pool_fresh 1%nat 40) as [Hlive Hsafe].
  split; [exact (conj H1 (conj H2 H3))|].
  destruct (Hlive H1 H2 H3) as [w' Hrun].
  exists w'. split; [exact Hrun|exact (Hsafe w' Hrun)].
Defined.

Lemma disconnect_sweep_closes_witness :
  ((forall j, children (keyboard pool_children 1%nat) j <> Some 1%nat) /\
   (forall i d, (1 <= i <= 7)%nat -> presence_bit 8 i = 0 ->
                children (keyboard pool_children 1%nat) (i - 1)%nat = Some d ->
                devmutex pool_children d = Unlocked)) /\
  exists w',
    disconnect_sweep sample_closeusb (seq 1 7) pool_children 1%nat 8 = Done w' /\
    forall i, (1 <= i <= 7)%nat ->
      (forall d, presence_bit 8 i = 0 ->
                 children (keyboard pool_children 1%nat) (i - 1)%nat = Some d ->
                 children (keyboard w' 1%nat) (i - 1)%nat = None /\
                 devmutex w' d = Unlocked /\
                 exists pre post,
                   trace w' = trace pool_children ++ pre
                              ++ disconnect_block 1%nat d ++ post) /\
      (presence_bit 8 i <> 0 \/
       children (keyboard pool_children 1%nat) (i - 1)%nat = None ->
       children (keyboard w' 1%nat) (i - 1)%nat
       = children (keyboard pool_children 1%nat) (i - 1)%nat).
Proof.
  assert (H1 : forall j, children (keyboard pool_children 1%nat) j <> Some 1%nat)
    by (intros j; repeat (destruct j as [|j]; try discriminate)).
  assert (H2 : forall i d, (1 <= i <= 7)%nat -> presence_bit 8 i = 0 ->
                 children (keyboard pool_children 1%nat) (i - 1)%nat = Some d ->
                 devmutex pool_children d = Unlocked)
    by (intros; reflexivity).
  split; [split; assumption|].
  exact (disconnect_sweep_closes sample_closeusb pool_children 1%nat 8 H1 H2).
Defined.

Lemma update_populated_noop_witness :
  (childrenmutex pool_children 1%nat = Unlocked /\
   (forall i, (1 <= i <= 7)%nat ->
              presence_bit 12 i <> 0 <->
              children (keyboard pool_children 1%nat) (i - 1)%nat <> None)) /\
  exists w',
    bragi_update_dongle_subdevs answers_1234 sample_closeusb sample_setupusb
      pool_children 1%nat 12 = Done w' /\
    keyboard w' = keyboard pool_children /\
    devmutex w' = devmutex pool_children /\
    (forall d, childrenmutex w' d = childrenmutex pool_children d) /\
    usb_count w' = usb_count pool_children /\
    trace w' = trace pool_children ++ [CLock 1%nat; CUnlock 1%nat].
Proof.
  assert (H1 : childrenmutex pool_children 1%nat = Unlocked) by reflexivity.
  assert (H2 : forall i, (1 <= i <= 7)%nat ->
                 presence_bit 12 i <> 0 <->
                 children (keyboard pool_children 1%nat) (i - 1)%nat <> None).
  { intros i Hi.
    assert (Hc : (i = 1 \/ i = 2 \/ i = 3 \/ i = 4 \/ i = 5 \/ i = 6 \/ i = 7)%nat)
      by lia.
    destruct Hc as [->|[->|[->|[->|[->|[->| ->]]]]]]; vm_compute;
      split; intros Hx; first [discriminate | exfalso; apply Hx; reflexivity]. }
  split; [split; assumption|].
  exact (update_populated_noop answers_1234 sample_closeusb sample_setupusb
           pool_children 1%nat 12 H1 H2).
Defined.

(** * The further properties at concrete inputs *)

Lemma buffer_size_holds_payload_witness :
  (4 <= 64 /\ is_int 64 /\ is_uint32 100 /\ is_uint32 400 /\ 100 <= 400) /\
  exists r r',
    bragi_calculate_buffer_size (sample_device 64 no_children) 100 = Some r /\
    bragi_calculate_buffer_size (sample_device 64 no_children) 400 = Some r' /\
    100 + 7 <= r /\ 64 <= r /\ r <= r'.
Proof.
  assert (H1 : 4 <= 64) by lia.
  assert (H2 : is_int 64) by (unfold is_int; lia).
  assert (H3 : is_uint32 100) by (unfold is_uint32; lia).
  assert (H4 : is_uint32 400) by (unfold is_uint32; lia).
  assert (H5 : 100 <= 400) by lia.
  split; [exact (conj H1 (conj H2 (conj H3 (conj H4 H5))))|].
  exact (buffer_size_holds_payload (sample_device 64 no_children) 100 400
           H1 H2 H3 H4 H5).
Defined.

Lemma write_to_handle_in_bounds_witness :
  (out_ep_packet_size (keyboard (sample_world 8) 1%nat) = 8 /\
   7 <= 8 /\ is_int 8 /\ is_uint32 10 /\
   (false = false \/ required_buffer_size 8 10 <= 24) /\
   24 <= Z.of_nat (length sample_buffer) /\
   required_buffer_size 8 10 / 8 <= Z.of_nat 3) /\
  exists ret pkt' w' tr,
    bragi_write_to_handle fails_third_noisy false 3 (sample_world 8) 1%nat
      sample_buffer 1 24 10 = Some (Returned ret pkt' w') /\
    trace w' = trace (sample_world 8) ++ tr /\
    Forall (fun out_msg => 8 <= Z.of_nat (length out_msg)) (sent_msgs tr).
Proof.
  assert (H1 : out_ep_packet_size (keyboard (sample_world 8) 1%nat) = 8)
    by reflexivity.
  assert (H2 : 7 <= 8) by lia.
  assert (H3 : is_int 8) by (unfold is_int; lia).
  assert (H4 : is_uint32 10) by (unfold is_uint32; lia).
  assert (H5 : false = false \/ required_buffer_size 8 10 <= 24)
    by (left; reflexivity).
  assert (H6 : 24 <= Z.of_nat (length sample_buffer)) by (vm_compute; discriminate).
  assert (H7 : required_buffer_size 8 10 / 8 <= Z.of_nat 3)
    by (vm_compute; discriminate).
  split; [exact (conj H1 (conj H2 (conj H3 (conj H4 (conj H5 (conj H6 H7))))))|].
  exact (write_to_handle_in_bounds fails_third_noisy false 3 (sample_world 8)
           1%nat sample_buffer 1 24 8 10 H1 H2 H3 H4 H5 H6 H7).
Defined.

Lemma write_to_handle_short_buffer_witness :
  (length [1; 2; 3] < 7)%nat /\
  bragi_write_to_handle always_ok true 3 (sample_world 8) 1%nat [1; 2; 3] 1 24 10
  = Some Undefined.
Proof.
  assert (H1 : (length [1; 2; 3] < 7)%nat) by (cbn; lia).
  split; [exact H1|].
  exact (write_to_handle_short_buffer always_ok 3 (sample_world 8) 1%nat
           [1; 2; 3] 1 24 10 H1).
Defined.

(** The payload 1 .. 10 of the sample buffer, put together again from the
    three packets. *)
Example write_8_10_reassembled :
  match bragi_write_to_handle always_ok false 3 (sample_world 8) 1%nat
          sample_buffer 1 24 10 with
  | Some (Returned _ _ w') =>
      take 10 (reassemble (map (on_wire 8) (sent_msgs (trace w'))))
      = [1; 2; 3; 4; 5; 6; 7; 8; 9; 10]
  | _ => False
  end.
Proof. vm_compute. reflexivity. Qed.

Lemma write_to_handle_payload_witness :
  (out_ep_packet_size (keyboard (sample_world 8) 1%nat) = 8 /\
   7 <= 8 /\ is_int 8 /\ is_uint32 10 /\
   required_buffer_size 8 10 <= 24 /\
   24 <= Z.of_nat (length sample_buffer) /\
   required_buffer_size 8 10 / 8 <= Z.of_nat 3 /\
   (forall n m len, always_ok n 1%nat m len <> None)) /\
  exists pkt' w' tr,
    bragi_write_to_handle always_ok false 3 (sample_world 8) 1%nat
      sample_buffer 1 24 10 = Some (Returned 0 pkt' w') /\
    trace w' = trace (sample_world 8) ++ tr /\
    take (Z.to_nat 10) (reassemble (map (on_wire 8) (sent_msgs tr)))
    = take (Z.to_nat 10) (drop 7 sample_buffer) /\
    length (take (Z.to_nat 10) (drop 7 sample_buffer)) = Z.to_nat 10.
Proof.
  assert (H1 : out_ep_packet_size (keyboard (sample_world 8) 1%nat) = 8)
    by reflexivity.
  assert (H2 : 7 <= 8) by lia.
  assert (H3 : is_int 8) by (unfold is_int; lia).
  assert (H4 : is_uint32 10) by (unfold is_uint32; lia).
  assert (H5 : required_buffer_size 8 10 <= 24) by (vm_compute; discriminate).
  assert (H6 : 24 <= Z.of_nat (length sample_buffer)) by (vm_compute; discriminate).
  assert (H7 : required_buffer_size 8 10 / 8 <= Z.of_nat 3)
    by (vm_compute; discriminate).
  assert (H8 : forall n m len, always_ok n 1%nat m len <> None)
    by (intros n m len; discriminate).
  split; [exact (conj H1 (conj H2 (conj H3 (conj H4 (conj H5 (conj H6
                   (conj H7 H8)))))))|].
  exact (write_to_handle_payload always_ok false 3 (sample_world 8) 1%nat
           sample_buffer 1 24 8 10 H1 H2 H3 H4 H5 H6 H7 H8).
Defined.

Lemma property_result_sign_witness :
  (is_ushort 4660 /\
   (forall r,
      answers_1234 (usb_count (sample_world 64)) 1%nat (get_request 5)
        BRAGI_JUMBO_SIZE = Some r ->
      is_uchar (byte_at r 3) /\ is_uchar (byte_at r 4))) /\
  - 2 <= (bragi_get_property answers_1234 (sample_world 64) 1%nat 5).1 < 2 ^ 16 /\
  - 2 <= (bragi_set_property answers_1234 (sample_world 64) 1%nat 5 4660).1 <= 0.
Proof.
  assert (H1 : is_ushort 4660) by (unfold is_ushort; lia).
  assert (H2 : forall r,
             answers_1234 (usb_count (sample_world 64)) 1%nat (get_request 5)
               BRAGI_JUMBO_SIZE = Some r ->
             is_uchar (byte_at r 3) /\ is_uchar (byte_at r 4)).
  { intros r Hr. injection Hr as <-. unfold is_uchar. cbn. lia. }
  split; [exact (conj H1 H2)|].
  destruct (property_result_sign answers_1234 (sample_world 64) 1%nat 5 4660
              H1 H2) as (_ & Hget & _ & Hset).
  exact (conj Hget Hset).
Defined.

Lemma set_get_roundtrip_witness :
  (is_ushort 4660 /\
   sent_msgs (trace (bragi_set_property always_ok (sample_world 64) 1%nat 5 4660).2)
   = sent_msgs (trace (sample_world 64)) ++ [set_request 5 4660] /\
   answers_1234 (usb_count (sample_world 64)) 1%nat (get_request 5)
     BRAGI_JUMBO_SIZE = Some [0; 0; 0; 52; 18] /\
   byte_at [0; 0; 0; 52; 18] 2 = 0 /\
   byte_at [0; 0; 0; 52; 18] 3 = byte_at (set_request 5 4660) 4 /\
   byte_at [0; 0; 0; 52; 18] 4 = byte_at (set_request 5 4660) 5) /\
  (bragi_get_property answers_1234 (sample_world 64) 1%nat 5).1 = 4660.
Proof.
  assert (H1 : is_ushort 4660) by (unfold is_ushort; lia).
  assert (H2 : sent_msgs (trace (bragi_set_property always_ok (sample_world 64)
                                   1%nat 5 4660).2)
               = sent_msgs (trace (sample_world 64)) ++ [set_request 5 4660])
    by reflexivity.
  assert (H3 : answers_1234 (usb_count (sample_world 64)) 1%nat (get_request 5)
                 BRAGI_JUMBO_SIZE = Some [0; 0; 0; 52; 18]) by reflexivity.
  assert (H4 : byte_at [0; 0; 0; 52; 18] 2 = 0) by reflexivity.
  assert (H5 : byte_at [0; 0; 0; 52; 18] 3 = byte_at (set_request 5 4660) 4)
    by reflexivity.
  assert (H6 : byte_at [0; 0; 0; 52; 18] 4 = byte_at (set_request 5 4660) 5)
    by reflexivity.
  split; [exact (conj H1 (conj H2 (conj H3 (conj H4 (conj H5 H6)))))|].
  exact (set_get_roundtrip always_ok answers_1234 (sample_world 64)
           (sample_world 64) 1%nat 1%nat 5 5 4660 (set_request 5 4660)
           [0; 0; 0; 52; 18] H1 H2 H3 H4 H5 H6).
Defined.

Lemma connect_sweep_takes_free_witness :
  exists w',
    connect_sweep answers_1234 sample_setupusb (seq 1 7) pool_fresh 1%nat 40
    = (true, w') /\
    exists i index wh,
      (1 <= i <= 7)%nat /\ wants 40 (keyboard pool_fresh 1%nat) i = true /\
      (1 <= index < DEV_MAX)%nat /\ free_slot pool_fresh index = true /\
      w' = call_setupusb sample_setupusb wh index /\
      claimed pool_fresh wh 1%nat i index.
Proof.
  exists (connect_sweep answers_1234 sample_setupusb (seq 1 7) pool_fresh
            1%nat 40).2.
  assert (H1 : connect_sweep answers_1234 sample_setupusb (seq 1 7) pool_fresh
                 1%nat 40
               = (true, (connect_sweep answers_1234 sample_setupusb (seq 1 7)
                           pool_fresh 1%nat 40).2)) by reflexivity.
  split; [exact H1|].
  exact (connect_sweep_takes_free answers_1234 sample_setupusb pool_fresh 1%nat
           40 true _ H1).
Defined.

(** Entry 2 of the fresh pool is locked elsewhere: the run passes it by. *)
Example update_fresh_pool_respects :
  match bragi_update_dongle_subdevs answers_1234 sample_closeusb sample_setupusb
          pool_fresh 1%nat 40 with
  | Done w' =>
      devmutex w' 2%nat = LockedElsewhere /\
      status (keyboard w' 2%nat) = status (keyboard pool_fresh 2%nat)
  | Blocked _ => False
  end.
Proof. vm_compute. split; reflexivity. Qed.

Lemma update_blocked_holding_witness :
  exists w',
    bragi_update_dongle_subdevs answers_1234 sample_closeusb sample_setupusb
      pool_child_busy 1%nat 8 = Blocked w' /\
    ((childrenmutex pool_child_busy 1%nat <> Unlocked /\ w' = pool_child_busy) \/
     (childrenmutex pool_child_busy 1%nat = Unlocked /\
      childrenmutex w' 1%nat = LockedHere /\
      exists i d, (1 <= i <= 7)%nat /\ presence_bit 8 i = 0 /\
                  children (keyboard w' 1%nat) (i - 1)%nat = Some d /\
                  devmutex w' d <> Unlocked)).
Proof.
  eexists.
  assert (H1 : bragi_update_dongle_subdevs answers_1234 sample_closeusb
                 sample_setupusb pool_child_busy 1%nat 8
               = Blocked (emit (CLock 1%nat)
                            (with_childrenmutex 1%nat LockedHere pool_child_busy)))
    by reflexivity.
  split; [exact H1|].
  exact (update_blocked_holding answers_1234 sample_closeusb sample_setupusb
           pool_child_busy 1%nat 8 _ H1).
Defined.

Lemma claim_with_failed_queries_witness :
  (free_slot pool_fresh 4 = true /\
   never_answers (usb_count pool_fresh) 4%nat (get_request BRAGI_VID)
     BRAGI_JUMBO_SIZE = None /\
   never_answers (S (usb_count pool_fresh)) 4%nat (get_request BRAGI_PID)
     BRAGI_JUMBO_SIZE = None) /\
  exists wh,
    find_free_slot never_answers sample_setupusb [4%nat; 5%nat] pool_fresh
      1%nat 3%nat
    = (true, call_setupusb sample_setupusb wh 4%nat) /\
    vendor (keyboard wh 4%nat) = 65535 /\
    product (keyboard wh 4%nat) = 65535 /\
    status (keyboard wh 4%nat) = DEV_STATUS_CONNECTING /\
    sent_msgs (trace wh)
    = sent_msgs (trace pool_fresh)
      ++ [get_request BRAGI_VID; get_request BRAGI_PID].
Proof.
  assert (H1 : free_slot pool_fresh 4 = true) by reflexivity.
  assert (H2 : never_answers (usb_count pool_fresh) 4%nat (get_request BRAGI_VID)
                 BRAGI_JUMBO_SIZE = None) by reflexivity.
  assert (H3 : never_answers (S (usb_count pool_fresh)) 4%nat
                 (get_request BRAGI_PID) BRAGI_JUMBO_SIZE = None) by reflexivity.
  split; [exact (conj H1 (conj H2 H3))|].
  exact (claim_with_failed_queries never_answers sample_setupusb pool_fresh
           1%nat 3%nat 4%nat [5%nat] H1 H2 H3).
Defined.

Lemma disconnect_sweep_twice_witness :
  ((forall j, children (keyboard pool_children 1%nat) j <> Some 1%nat) /\
   (forall i d, (1 <= i <= 7)%nat -> presence_bit 8 i = 0 ->
                children (keyboard pool_children 1%nat) (i - 1)%nat = Some d ->
                devmutex pool_children d = Unlocked)) /\
  exists w',
    disconnect_sweep sample_closeusb (seq 1 7) pool_children 1%nat 8 = Done w' /\
    disconnect_sweep sample_closeusb (seq 1 7) w' 1%nat 8 = Done w'.
Proof.
  assert (H1 : forall j, children (keyboard pool_children 1%nat) j <> Some 1%nat)
    by (intros j; repeat (destruct j as [|j]; try discriminate)).
  assert (H2 : forall i d, (1 <= i <= 7)%nat -> presence_bit 8 i = 0 ->
                 children (keyboard pool_children 1%nat) (i - 1)%nat = Some d ->
                 devmutex pool_children d = Unlocked)
    by (intros; reflexivity).
  split; [exact (conj H1 H2)|].
  exact (disconnect_sweep_twice sample_closeusb pool_children 1%nat 8 H1 H2).
Defined.

Lemma update_reconciles_witness :
  (childrenmutex pool_children 1%nat = Unlocked /\
   (forall j, children (keyboard pool_children 1%nat) j <> Some 1%nat) /\
   (forall i d, (1 <= i <= 7)%nat -> presence_bit 40 i = 0 ->
                children (keyboard pool_children 1%nat) (i - 1)%nat = Some d ->
                devmutex pool_children d = Unlocked) /\
   status (keyboard pool_children 1%nat) > DEV_STATUS_DISCONNECTED) /\
  exists w',
    bragi_update_dongle_subdevs answers_1234 sample_closeusb sample_setupusb
      pool_children 1%nat 40 = Done w' /\
    forall i, (1 <= i <= 7)%nat ->
      (presence_bit 40 i = 0 ->
       children (keyboard w' 1%nat) (i - 1)%nat = None) /\
      (forall d, presence_bit 40 i <> 0 ->
                 children (keyboard pool_children 1%nat) (i - 1)%nat = Some d ->
                 children (keyboard w' 1%nat) (i - 1)%nat = Some d).
Proof.
  assert (H1 : childrenmutex pool_children 1%nat = Unlocked) by reflexivity.
  assert (H2 : forall j, children (keyboard pool_children 1%nat) j <> Some 1%nat)
    by (intros j; repeat (destruct j as [|j]; try discriminate)).
  assert (H3 : forall i d, (1 <= i <= 7)%nat -> presence_bit 40 i = 0 ->
                 children (keyboard pool_children 1%nat) (i - 1)%nat = Some d ->
                 devmutex pool_children d = Unlocked)
    by (intros; reflexivity).
  assert (H4 : status (keyboard pool_children 1%nat) > DEV_STATUS_DISCONNECTED)
    by reflexivity.
  split; [exact (conj H1 (conj H2 (conj H3 H4)))|].
  exact (update_reconciles answers_1234 sample_closeusb sample_setupusb
           pool_children 1%nat 40 H1 H2 H3 H4).
Defined.

Lemma write_to_handle_buffer_frame_witness :
  exists ret pkt' w',
    bragi_write_to_handle always_ok false 3 (sample_world 8) 1%nat
      sample_buffer 1 24 10 = Some (Returned ret pkt' w') /\
    length pkt' = length sample_buffer /\
    forall j : nat, (7 <= j)%nat ->
      (forall q, 1 <= q ->
         ~ (q * (out_ep_packet_size (keyboard (sample_world 8) 1%nat) - 3)
            <= Z.of_nat j
            < q * (out_ep_packet_size (keyboard (sample_world 8) 1%nat) - 3) + 3)) ->
      pkt' !! j = sample_buffer !! j.
Proof.
  destruct (bragi_write_to_handle always_ok false 3 (sample_world 8) 1%nat
              sample_buffer 1 24 10) as [[ret pkt' w'|]|] eqn:E.
  - exists ret, pkt', w'. split; [reflexivity|].
    exact (write_to_handle_buffer_frame always_ok false 3 (sample_world 8)
             1%nat sample_buffer 1 24 10 ret pkt' w' E).
  - vm_compute in E. discriminate E.
  - vm_compute in E. discriminate E.
Defined.

Lemma write_to_handle_packet_size_3_witness :
  (out_ep_packet_size (keyboard (sample_world 3) 1%nat) = 3 /\
   is_uint32 10 /\ (7 <= length sample_buffer)%nat /\
   (forall n m len, always_ok n 1%nat m len <> None)) /\
  bragi_calculate_buffer_size (keyboard (sample_world 3) 1%nat) 10 = None /\
  (forall fuel,
     bragi_write_to_handle always_ok false fuel (sample_world 3) 1%nat
       sample_buffer 1 24 10 = Some Undefined) /\
  (forall fuel,
     bragi_write_to_handle always_ok true fuel (sample_world 3) 1%nat
       sample_buffer 1 24 10 = None).
Proof.
  assert (H1 : out_ep_packet_size (keyboard (sample_world 3) 1%nat) = 3)
    by reflexivity.
  assert (H2 : is_uint32 10) by (unfold is_uint32; lia).
  assert (H3 : (7 <= length sample_buffer)%nat) by (cbn; lia).
  assert (H4 : forall n m len, always_ok n 1%nat m len <> None)
    by (intros n m len; discriminate).
  split; [exact (conj H1 (conj H2 (conj H3 H4)))|].
  exact (write_to_handle_packet_size_3 always_ok (sample_world 3) 1%nat
           sample_buffer 1 24 10 H1 H2 H3 H4).
Defined.
